(** * mbdvr: cleaning, clipping and grouped statistics of sensor recordings

    A shallow embedding of the Go packages [cleaner], [clipper], [stats]
    and [loader] of mbdvr, the properties of them that the specification
    states, and further properties read off the code.

    Conventions of the embedding:
    - [float64] is Rocq's primitive binary64 [float]: every arithmetic
      operation, comparison and rounding is the IEEE 754 one, NaN, the
      infinities and the signed zeros included.
    - Go's [int] is [Z] (a 64-bit [int]); every integer of the code is a
      length, an index or a counter bounded by a length.
    - [map[string]T] is [gmap string T]; a slice is a list.
    - A run-time panic (index out of range, nil dereference) is [None] in
      the [go] monad; a returned [error] is data, one constructor for each
      message of the sources.
    - The lines that [CleanDataset] and [LoadFiles] print are not part of the
      model.
    - The loader reads and writes files through a [Platform]: the records
      that the CSV reader yields for a path, and the records handed to the
      CSV writer. *)

From Stdlib Require Import ZArith Floats Uint63 Lia.
From stdpp Require Import base option list gmap strings.

Open Scope Z_scope.

(** [go A]: the outcome of a Go function body, [None] standing for a panic. *)
Abbreviation go := option (only parsing).

(* ===================================================================== *)
(** ** float64 *)
(* ===================================================================== *)

Module F64.

(** [math.IsNaN]: [f != f]. *)
Definition IsNaN (x : float) : bool := negb (x =? x)%float.

(** [math.Inf(sign)]. *)
Definition Inf (sign : Z) : float :=
  if 0 <=? sign then infinity else neg_infinity.

(** [math.NaN()]. *)
Definition NaN : float := nan.

(** The operators [>] and [>=] of Go. *)
Definition gtb (x y : float) : bool := (y <? x)%float.
Definition geb (x y : float) : bool := (y <=? x)%float.

(** [float64(n)] for an [int] [n]. *)
Definition of_int (n : Z) : float :=
  if 0 <=? n then of_uint63 (Uint63.of_Z n)
  else (- of_uint63 (Uint63.of_Z (- n)))%float.

(** The integer part of a finite value, rounded down, up, and towards
    zero.  A finite binary64 is [(-1)^s * m * 2^e]. *)
Definition floorZ (x : spec_float) : option Z :=
  match x with
  | S754_zero _ => Some 0
  | S754_finite s m e =>
      Some (if 0 <=? e then cond_Zopp s (Zpos m) * 2 ^ e
            else cond_Zopp s (Zpos m) / 2 ^ (- e))
  | _ => None
  end.

Definition ceilZ (x : spec_float) : option Z :=
  match x with
  | S754_zero _ => Some 0
  | S754_finite s m e =>
      Some (if 0 <=? e then cond_Zopp s (Zpos m) * 2 ^ e
            else - ((- cond_Zopp s (Zpos m)) / 2 ^ (- e)))
  | _ => None
  end.

Definition truncZ (x : spec_float) : option Z :=
  match x with
  | S754_zero _ => Some 0
  | S754_finite s m e =>
      Some (if 0 <=? e then cond_Zopp s (Zpos m) * 2 ^ e
            else cond_Zopp s (Zpos m / 2 ^ (- e)))
  | _ => None
  end.

(** The float of an integer part [z] of [x]: a zero keeps the sign of [x]
    ([math.Floor(-0.0)] is [-0.0], [math.Ceil(-0.5)] is [-0.0]). *)
Definition of_intpart (x : float) (z : Z) : float :=
  if z =? 0 then (if get_sign x then neg_zero else zero) else of_int z.

(** [math.Floor] and [math.Ceil]: NaN, the infinities and the values that
    are integers already (exponent [>= 0]) are returned unchanged. *)
Definition Floor (x : float) : float :=
  match Prim2SF x with
  | S754_finite _ _ e =>
      if 0 <=? e then x
      else of_intpart x (default 0 (floorZ (Prim2SF x)))
  | _ => x
  end.

Definition Ceil (x : float) : float :=
  match Prim2SF x with
  | S754_finite _ _ e =>
      if 0 <=? e then x
      else of_intpart x (default 0 (ceilZ (Prim2SF x)))
  | _ => x
  end.

(** [math.Abs], [math.Sqrt]. *)
Definition Abs (x : float) : float := PrimFloat.abs x.
Definition Sqrt (x : float) : float := PrimFloat.sqrt x.

Definition int_min : Z := - 2 ^ 63.
Definition int_max : Z := 2 ^ 63 - 1.

(** The conversion [int(x)] truncates towards zero.  When [int] cannot
    represent the value (NaN, an infinity, a magnitude of [2^63] or more)
    the conversion succeeds with an implementation-dependent result: the
    parameter [impl_int] is that choice of the platform. *)
Definition to_int (impl_int : float -> Z) (x : float) : Z :=
  match truncZ (Prim2SF x) with
  | Some z => if (int_min <=? z) && (z <=? int_max) then z else impl_int x
  | None => impl_int x
  end.

(** *** The order of binary64 values

    [ord] sends every value that is not NaN to an integer so that the
    comparisons of floats are the comparisons of these integers (the two
    zeros share 0).  It is the sign-magnitude reading of the bit pattern. *)
Definition ord (x : spec_float) : Z :=
  match x with
  | S754_zero _ => 0
  | S754_infinity s => cond_Zopp s (2047 * 2 ^ 53)
  | S754_nan => 0
  | S754_finite s m e => cond_Zopp s ((e + 1075) * 2 ^ 53 + Zpos m)
  end.

Definition ordf (x : float) : Z := ord (Prim2SF x).

End F64.

Export F64.

(* ===================================================================== *)
(** ** Slices *)
(* ===================================================================== *)

(** [len(s)]. *)
Definition len {A} (s : list A) : Z := Z.of_nat (length s).

(** [s[i]]: panics when [i] is out of range. *)
Definition index {A} (s : list A) (i : Z) : go A :=
  if (0 <=? i) && (i <? len s) then s !! Z.to_nat i else None.

(** [s[lo:hi]]: panics unless [0 <= lo <= hi <= len(s)]. *)
Definition slice {A} (s : list A) (lo hi : Z) : go (list A) :=
  if (0 <=? lo) && (lo <=? hi) && (hi <=? len s)
  then Some (take (Z.to_nat (hi - lo)) (drop (Z.to_nat lo) s))
  else None.

(* ===================================================================== *)
(** ** Package types *)
(* ===================================================================== *)

(** [cleaner.CleanConfig] (declared here because a cleaned dataset records
    it in its metadata). *)
Record CleanConfig := {
  RequiredColumns : list string;
  RemoveOutliers : bool;
  OutlierMethod : string;
  MaxMissingPercent : float;
  ZScoreThreshold : float
}.

(** The values stored in [Metadata map[string]interface{}]. *)
Inductive MetaValue :=
| MInt (n : Z)
| MFloat (x : float)
| MConfig (c : CleanConfig).

(** [types.DataPoint] (package [types], at the end of
    [src/cmd/mbdvr/main.go]), field for field: a sample has a timestamp, a
    map from channel name to value in which a channel may be absent, a
    participant identifier and a condition label. *)
Record DataPoint := {
  Timestamp : float;
  Data : gmap string float;
  ParticipantID : string;
  Condition : string
}.

(** [types.Dataset] (same package), field for field: a dataset is an
    ordered sequence of samples, the known channel names and free-form
    metadata. *)
Record Dataset := {
  Points : list DataPoint;
  Columns : list string;
  Metadata : gmap string MetaValue
}.

(** Go's [error] values of the three packages, one constructor per
    [fmt.Errorf] of the sources, with the arguments of its message. *)
Inductive error :=
| ErrEmptyDataset                               (* "dataset is empty" *)
| ErrStartOutOfBounds (start lo hi : float)     (* "start time %.2f is out of bounds (%.2f - %.2f)" *)
| ErrEndOutOfBounds (end_ lo hi : float)        (* "end time %.2f is out of bounds (%.2f - %.2f)" *)
| ErrInvalidRange (end_ start : float)          (* "end time %.2f must be greater than start time %.2f" *)
| ErrNoDataInRange                              (* "no data points found in the specified time range" *)
| ErrConditionStats (condition : string) (e : error)
| ErrParticipantStats (participant : string) (e : error)
| ErrOverallStats (e : error).

(* ===================================================================== *)
(** ** Package clipper *)
(* ===================================================================== *)

Module Clipper.

(** A nil pointer is [None]. *)
Record ClipConfig := {
  StartTime : option float;
  EndTime : option float
}.

Record ClipInfo := {
  MinTimestamp : float;
  MaxTimestamp : float;
  TotalDuration : float;
  OriginalPoints : Z;
  ClippedPoints : Z;
  StartFrame : Z;
  EndFrame : Z;
  ActualStartTime : float;
  ActualEndTime : float
}.

(** [ClipInfo{}]. *)
Definition zeroInfo : ClipInfo :=
  {| MinTimestamp := 0; MaxTimestamp := 0; TotalDuration := 0;
     OriginalPoints := 0; ClippedPoints := 0; StartFrame := 0; EndFrame := 0;
     ActualStartTime := 0; ActualEndTime := 0 |}.

(** The first loop of [ClipDataset]: the pair (MinTimestamp, MaxTimestamp),
    from [+Inf] and [-Inf]. *)
Definition scanStep (acc : float * float) (point : DataPoint) : float * float :=
  let '(lo, hi) := acc in
  (if (Timestamp point <? lo)%float then Timestamp point else lo,
   if gtb (Timestamp point) hi then Timestamp point else hi).

Definition scanTimestamps (points : list DataPoint) : float * float :=
  fold_left scanStep points (Inf 1, Inf (-1)).

(** The second loop: the state is the index [i] and the pair
    (startFrame, endFrame), from [-1] and [-1]. *)
Definition frameStep (startTime endTime : float)
    (acc : Z * (Z * Z)) (point : DataPoint) : Z * (Z * Z) :=
  let '(i, (startFrame, endFrame)) := acc in
  (i + 1,
   (if (startFrame =? -1) && geb (Timestamp point) startTime then i else startFrame,
    if (Timestamp point <=? endTime)%float then i else endFrame)).

Definition findFrames (points : list DataPoint) (startTime endTime : float) : Z * Z :=
  snd (fold_left (frameStep startTime endTime) points (0, (-1, -1))).

(** A requested bound: out of [lo, hi] is an error, absent is the default. *)
Definition outOfBounds (t lo hi : float) : bool :=
  (t <? lo)%float || gtb t hi.

Definition ClipDataset (dataset : option Dataset) (config : ClipConfig)
  : go (option Dataset * ClipInfo * option error) :=
  match dataset with
  | None => Some (None, zeroInfo, Some ErrEmptyDataset)
  | Some dataset =>
  if len (Points dataset) =? 0 then Some (None, zeroInfo, Some ErrEmptyDataset) else
  let '(lo, hi) := scanTimestamps (Points dataset) in
  let info :=
    {| MinTimestamp := lo; MaxTimestamp := hi; TotalDuration := (hi - lo)%float;
       OriginalPoints := len (Points dataset);
       ClippedPoints := 0; StartFrame := 0; EndFrame := 0;
       ActualStartTime := 0; ActualEndTime := 0 |} in
  let start :=
    match StartTime config with
    | Some s => if outOfBounds s lo hi then inl (ErrStartOutOfBounds s lo hi) else inr s
    | None => inr lo
    end in
  match start with
  | inl e => Some (None, info, Some e)
  | inr startTime =>
  let end_ :=
    match EndTime config with
    | Some e => if outOfBounds e lo hi then inl (ErrEndOutOfBounds e lo hi) else inr e
    | None => inr hi
    end in
  match end_ with
  | inl e => Some (None, info, Some e)
  | inr endTime =>
  if (endTime <=? startTime)%float
  then Some (None, info, Some (ErrInvalidRange endTime startTime)) else
  let '(startFrame, endFrame) := findFrames (Points dataset) startTime endTime in
  if (startFrame =? -1) || (endFrame =? -1) || (startFrame >? endFrame)
  then Some (None, info, Some ErrNoDataInRange) else
  clippedPoints ← slice (Points dataset) startFrame (endFrame + 1);
  first ← index clippedPoints 0;
  last ← index clippedPoints (len clippedPoints - 1);
  let info :=
    {| MinTimestamp := lo; MaxTimestamp := hi; TotalDuration := (hi - lo)%float;
       OriginalPoints := len (Points dataset);
       ClippedPoints := len clippedPoints;
       StartFrame := startFrame; EndFrame := endFrame;
       ActualStartTime := Timestamp first; ActualEndTime := Timestamp last |} in
  Some (Some {| Points := clippedPoints;
                Columns := Columns dataset;
                Metadata :=
                  <["original_points" := MInt (OriginalPoints info)]>
                  (<["clipped_points" := MInt (ClippedPoints info)]>
                  (<["original_duration" := MFloat (TotalDuration info)]>
                  (<["clipped_duration" := MFloat (ActualEndTime info - ActualStartTime info)%float]>
                  (<["start_time" := MFloat (ActualStartTime info)]>
                  (<["end_time" := MFloat (ActualEndTime info)]>
                  (<["requested_start" := MFloat startTime]>
                  (<["requested_end" := MFloat endTime]> ∅))))))) |},
        info, None)
  end end end.

End Clipper.

(* ===================================================================== *)
(** ** Package cleaner *)
(* ===================================================================== *)

(** [sort.Float64s]: ascending, NaN before every other value.  The order
    is [x < y || (isNaN(x) && !isNaN(y))] as in package [sort]; the sorted
    sequence is built by insertion (values that compare equal are the same
    value but for the sign of a zero, so the result does not depend on the
    sorting algorithm). *)
Definition float64Less (x y : float) : bool :=
  (x <? y)%float || (IsNaN x && negb (IsNaN y)).

Fixpoint insertFloat64 (x : float) (sorted : list float) : list float :=
  match sorted with
  | [] => [x]
  | y :: rest => if float64Less y x then y :: insertFloat64 x rest else x :: sorted
  end.

Definition sortFloat64s (values : list float) : list float :=
  fold_right insertFloat64 [] values.

Module Cleaner.

Record CleanStats := {
  OriginalPoints : Z;
  RemovedMissing : Z;
  RemovedOutliers : Z;
  FinalPoints : Z
}.

(** [val, ok := p.Data[col]; !ok || math.IsNaN(val)]. *)
Definition isMissing (p : DataPoint) (col : string) : bool :=
  match Data p !! col with
  | Some val => IsNaN val
  | None => true
  end.

(** The inner loop of [filterMissingData]: the counter [missing]. *)
Definition countMissing (p : DataPoint) (requiredCols : list string) : Z :=
  fold_left (fun missing col => if isMissing p col then missing + 1 else missing)
            requiredCols 0.

(** [maxMissing] of [filterMissingData]. *)
Definition maxMissingOf (impl_int : float -> Z)
    (requiredCols : list string) (maxMissingPercent : float) : Z :=
  to_int impl_int (Floor (of_int (len requiredCols) * maxMissingPercent / 100)%float).

Definition filterMissingData (impl_int : float -> Z) (points : list DataPoint)
    (requiredCols : list string) (maxMissingPercent : float)
  : list DataPoint * Z :=
  let maxMissing := maxMissingOf impl_int requiredCols maxMissingPercent in
  fold_left
    (fun '(filtered, removedCount) p =>
       if countMissing p requiredCols <=? maxMissing
       then (filtered ++ [p], removedCount)
       else (filtered, removedCount + 1))
    points ([], 0).

Definition extractColumnValues (points : list DataPoint) (col : string) : list float :=
  fold_left
    (fun values p =>
       match Data p !! col with
       | Some val => if negb (IsNaN val) then values ++ [val] else values
       | None => values
       end)
    points [].

Definition percentile (impl_int : float -> Z) (sorted : list float) (p : float)
  : go float :=
  if len sorted =? 0 then Some NaN else
  let k := (p / 100 * of_int (len sorted - 1))%float in
  let f := Floor k in
  let c := Ceil k in
  if (f =? c)%float then index sorted (to_int impl_int k) else
  s0 ← index sorted (to_int impl_int f);
  let d0 := (s0 * (c - k))%float in
  s1 ← index sorted (to_int impl_int c);
  let d1 := (s1 * (k - f))%float in
  Some (d0 + d1)%float.

Definition mean (values : list float) : float :=
  if len values =? 0 then NaN else
  let sum := fold_left (fun sum v => (sum + v)%float) values 0%float in
  (sum / of_int (len values))%float.

Definition stdDev (values : list float) (mean : float) : float :=
  if len values =? 0 then NaN else
  let varianceSum :=
    fold_left (fun acc v => (acc + (v - mean) * (v - mean))%float) values 0%float in
  let variance := (varianceSum / of_int (len values))%float in
  Sqrt variance.

Definition calculateIQRBounds (impl_int : float -> Z) (values : list float)
  : go (float * float) :=
  if len values =? 0 then Some (NaN, NaN) else
  let sorted := sortFloat64s values in
  q1 ← percentile impl_int sorted 25;
  q3 ← percentile impl_int sorted 75;
  let iqr := (q3 - q1)%float in
  let lowerBound := (q1 - 1.5 * iqr)%float in
  let upperBound := (q3 + 1.5 * iqr)%float in
  Some (lowerBound, upperBound).

Definition calculateZScoreBounds (values : list float) (threshold : float)
  : float * float :=
  if len values =? 0 then (NaN, NaN) else
  let mean := mean values in
  let stdDev := stdDev values mean in
  let lowerBound := (mean - threshold * stdDev)%float in
  let upperBound := (mean + threshold * stdDev)%float in
  (lowerBound, upperBound).

(** The [switch method] of [filterOutliers]. *)
Definition boundsByMethod (impl_int : float -> Z) (method : string)
    (zThreshold : float) (values : list float) : go (float * float) :=
  if String.eqb method "iqr" then calculateIQRBounds impl_int values
  else if String.eqb method "zscore" then Some (calculateZScoreBounds values zThreshold)
  else calculateIQRBounds impl_int values.

(** The first loop of [filterOutliers]: the map [outlierBounds]. *)
Definition outlierBoundsOf (impl_int : float -> Z) (points : list DataPoint)
    (cols : list string) (method : string) (zThreshold : float)
  : go (gmap string (float * float)) :=
  fold_left
    (fun acc col =>
       outlierBounds ← acc;
       let values := extractColumnValues points col in
       if len values =? 0 then Some outlierBounds else
       bounds ← boundsByMethod impl_int method zThreshold values;
       Some (<[col := bounds]> outlierBounds))
    cols (Some ∅).

(** The inner loop of the second loop: [isOutlier], which a [break] leaves
    at the first column out of its bounds. *)
Definition isOutlier (outlierBounds : gmap string (float * float))
    (cols : list string) (p : DataPoint) : bool :=
  existsb
    (fun col =>
       match outlierBounds !! col with
       | Some (lo, hi) =>
           match Data p !! col with
           | Some val => (val <? lo)%float || gtb val hi
           | None => false
           end
       | None => false
       end)
    cols.

Definition filterOutliers (impl_int : float -> Z) (points : list DataPoint)
    (cols : list string) (method : string) (zThreshold : float)
  : go (list DataPoint * Z) :=
  if len cols =? 0 then Some (points, 0) else
  outlierBounds ← outlierBoundsOf impl_int points cols method zThreshold;
  Some (fold_left
          (fun '(filtered, removedCount) p =>
             if negb (isOutlier outlierBounds cols p)
             then (filtered ++ [p], removedCount)
             else (filtered, removedCount + 1))
          points ([], 0)).

(** The value stored under ["removal_percentage"]. *)
Definition removalPercentage (originalPoints finalPoints : Z) : float :=
  (of_int (originalPoints - finalPoints) / of_int originalPoints * 100)%float.

(** [CleanDataset] dereferences its dataset without a nil check. *)
Definition CleanDataset (impl_int : float -> Z) (dataset : option Dataset)
    (config : CleanConfig) : go (Dataset * CleanStats * option error) :=
  dataset ← dataset;
  let originalPoints := len (Points dataset) in
  let cleanedPoints := Points dataset in
  let '(cleanedPoints, removedMissing) :=
    if (0 <? MaxMissingPercent config)%float
    then filterMissingData impl_int cleanedPoints (RequiredColumns config)
                           (MaxMissingPercent config)
    else (cleanedPoints, 0) in
  '(cleanedPoints, removedOutliers) ←
    (if RemoveOutliers config
     then filterOutliers impl_int cleanedPoints (RequiredColumns config)
                         (OutlierMethod config) (ZScoreThreshold config)
     else Some (cleanedPoints, 0));
  let stats :=
    {| OriginalPoints := originalPoints;
       RemovedMissing := removedMissing;
       RemovedOutliers := removedOutliers;
       FinalPoints := len cleanedPoints |} in
  let cleanedDataset :=
    {| Points := cleanedPoints;
       Columns := Columns dataset;
       Metadata :=
         <["original_points" := MInt (OriginalPoints stats)]>
         (<["cleaned_points" := MInt (FinalPoints stats)]>
         (<["cleaning_config" := MConfig config]>
         (<["points_removed" := MInt (OriginalPoints stats - FinalPoints stats)]>
         (<["removal_percentage" :=
              MFloat (removalPercentage (OriginalPoints stats) (FinalPoints stats))]>
            ∅)))) |} in
  Some (cleanedDataset, stats, None).

End Cleaner.

(* ===================================================================== *)
(** ** Package stats *)
(* ===================================================================== *)

Module Stats.

Record StatsConfig := {
  AnalyzeColumns : list string;
  ByCondition : bool;
  ByParticipant : bool
}.

Record ColumnStats := {
  Column : string;
  Mean : float;
  Median : float;
  StdDev : float;
  Min : float;
  Max : float;
  Count : Z;
  MissingCount : Z;
  OutlierCount : Z;
  OutlierMethod : string;
  ZScoreThreshold : float
}.

Record StatsReport := {
  OverallStats : list ColumnStats;
  ConditionStats : gmap string (list ColumnStats);
  ParticipantStats : gmap string (list ColumnStats)
}.

Definition extractColumnValues (points : list DataPoint) (col : string) : list float :=
  fold_left
    (fun values p =>
       match Data p !! col with
       | Some val => if negb (IsNaN val) then values ++ [val] else values
       | None => values
       end)
    points [].

(** The accumulation loop of [computeColumnStats]: the state is
    (MissingCount, sum, sumSq, Min, Max). *)
Definition accumulate (acc : Z * float * float * float * float) (v : float)
  : Z * float * float * float * float :=
  let '(missingCount, sum, sumSq, min, max) := acc in
  if IsNaN v then (missingCount + 1, sum, sumSq, min, max) else
  ((missingCount, sum + v, sumSq + v * v,
    if v <? min then v else min,
    if gtb v max then v else max))%float.

(** The second loop: the values that are not NaN, in order. *)
Definition nonNaN (values : list float) : list float :=
  fold_left (fun sortedValues v => if negb (IsNaN v) then sortedValues ++ [v] else sortedValues)
            values [].

(** The last loop: the number of values with a z-score above the threshold. *)
Definition countOutliers (values : list float) (mean stdDev zThreshold : float) : Z :=
  fold_left
    (fun outlierCount v =>
       if negb (IsNaN v) then
         let zScore := Abs ((v - mean) / stdDev)%float in
         if gtb zScore zThreshold then outlierCount + 1 else outlierCount
       else outlierCount)
    values 0.

(** The body of the loop of [computeColumnStats] for a column with at
    least one extracted value. *)
Definition columnStats (col : string) (values : list float) : go ColumnStats :=
  let count := len values in
  let '(missingCount, sum, sumSq, min, max) :=
    fold_left accumulate values (0, 0%float, 0%float, Inf 1, Inf (-1)) in
  let mean := (sum / of_int (count - missingCount))%float in
  let sortedValues := sortFloat64s (nonNaN values) in
  let mid := len sortedValues ÷ 2 in
  median ←
    (if Z.rem (len sortedValues) 2 =? 0
     then a ← index sortedValues (mid - 1);
          b ← index sortedValues mid;
          Some ((a + b) / 2)%float
     else index sortedValues mid);
  let variance := (sumSq / of_int (count - missingCount) - mean * mean)%float in
  let stdDev := Sqrt variance in
  let '(outlierCount, outlierMethod, zScoreThreshold) :=
    if (0 <? stdDev)%float
    then (countOutliers values mean stdDev 3, "z-score", 3%float)
    else (0, "", 0%float) in
  Some {| Column := col; Mean := mean; Median := median; StdDev := stdDev;
          Min := min; Max := max; Count := count; MissingCount := missingCount;
          OutlierCount := outlierCount; OutlierMethod := outlierMethod;
          ZScoreThreshold := zScoreThreshold |}.

(** One turn of the loop of [computeColumnStats]: a column without any
    extracted value is skipped. *)
Definition statsStep (points : list DataPoint)
    (acc : go (list ColumnStats)) (col : string) : go (list ColumnStats) :=
  statsList ← acc;
  let values := extractColumnValues points col in
  if len values =? 0 then Some statsList else
  stats ← columnStats col values;
  Some (statsList ++ [stats]).

Definition computeColumnStats (dataset : Dataset) (columns : list string)
    (config : StatsConfig) : go (list ColumnStats * option error) :=
  statsList ← fold_left (statsStep (Points dataset)) columns (Some []);
  Some (statsList, None).

(** The partition key of a label: the empty label is ["unknown"]. *)
Definition partitionKey (label : string) : string :=
  if String.eqb label "" then "unknown" else label.

(** The loops that build [conditionMap] and [participantMap]. *)
Definition partitionBy (label : DataPoint -> string) (points : list DataPoint)
  : gmap string (list DataPoint) :=
  fold_left
    (fun m point =>
       let key := partitionKey (label point) in
       <[key := default [] (m !! key) ++ [point]]> m)
    points ∅.

(** One turn of the loops over [conditionMap] and [participantMap]; [wrap]
    is the error of the axis. *)
Definition partitionStep (dataset : Dataset) (config : StatsConfig)
    (wrap : string -> error -> error)
    (acc : go (gmap string (list ColumnStats) + error))
    (partition : string * list DataPoint)
  : go (gmap string (list ColumnStats) + error) :=
  match acc with
  | Some (inl report) =>
      let subDataset :=
        {| Points := partition.2; Columns := Columns dataset; Metadata := ∅ |} in
      r ← computeColumnStats subDataset (AnalyzeColumns config) config;
      match r with
      | (stats, None) => Some (inl (<[partition.1 := stats]> report))
      | (_, Some err) => Some (inr (wrap partition.1 err))
      end
  | _ => acc
  end.

(** The partitions are visited in the order of [map_to_list]. *)
Definition statsOfPartitions (partitions : gmap string (list DataPoint))
    (dataset : Dataset) (config : StatsConfig) (wrap : string -> error -> error)
  : go (gmap string (list ColumnStats) + error) :=
  fold_left (partitionStep dataset config wrap) (map_to_list partitions) (Some (inl ∅)).

Definition ComputeStats (dataset : option Dataset) (config : StatsConfig)
  : go (option StatsReport * option error) :=
  match dataset with
  | None => Some (None, Some ErrEmptyDataset)
  | Some dataset =>
  if len (Points dataset) =? 0 then Some (None, Some ErrEmptyDataset) else
  let config :=
    if len (AnalyzeColumns config) =? 0
    then {| AnalyzeColumns := Columns dataset;
            ByCondition := ByCondition config;
            ByParticipant := ByParticipant config |}
    else config in
  conditionStats ←
    (if ByCondition config
     then statsOfPartitions (partitionBy Condition (Points dataset))
                            dataset config ErrConditionStats
     else Some (inl ∅));
  match conditionStats with
  | inr err => Some (None, Some err)
  | inl conditionStats =>
  participantStats ←
    (if ByParticipant config
     then statsOfPartitions (partitionBy ParticipantID (Points dataset))
                            dataset config ErrParticipantStats
     else Some (inl ∅));
  match participantStats with
  | inr err => Some (None, Some err)
  | inl participantStats =>
  overall ←
    (if negb (ByCondition config) && negb (ByParticipant config)
     then r ← computeColumnStats dataset (AnalyzeColumns config) config;
          match r with
          | (stats, None) => Some (inl stats)
          | (_, Some err) => Some (inr (ErrOverallStats err))
          end
     else Some (inl []));
  match overall with
  | inr err => Some (None, Some err)
  | inl overallStats =>
      Some (Some {| OverallStats := overallStats;
                    ConditionStats := conditionStats;
                    ParticipantStats := participantStats |}, None)
  end end end end.

End Stats.

(* ===================================================================== *)
(** ** Package loader *)
(* ===================================================================== *)

(** [s[i] = v]: panics when [i] is out of range. *)
Definition setIndex {A} (s : list A) (i : Z) (v : A) : go (list A) :=
  if (0 <=? i) && (i <? len s) then Some (<[Z.to_nat i := v]> s) else None.

(** [make([]string, n)]. *)
Definition makeStrings (n : Z) : list string := replicate (Z.to_nat n) "".

Module Loader.

Record Loader := { Condition : string }.

(** What [os.Open] followed by [csv.Reader.ReadAll] yields for a path: the
    records of the file, each a list of fields. *)
Inductive ReadResult :=
| OpenFailed
| ReadFailed
| Records (records : list (list string)).

(** The library and the file system, as far as the loader reads them:
    [strconv.ParseFloat(s, 64)] ([None] is a parse error),
    [fmt.Sprintf("%f", x)], [filepath.Base], [filepath.Glob] ([None] is a
    malformed pattern), the records of each file and whether [os.Create]
    succeeds. *)
Record Platform := {
  ParseFloat : string -> option float;
  FormatFloat : float -> string;
  Base : string -> string;
  Glob : string -> option (list string);
  ReadAll : string -> ReadResult;
  Create : string -> bool
}.

(** One constructor per [fmt.Errorf] of the package, with the arguments of
    its message (the text of a wrapped library error is left out). *)
Inductive LoadError :=
| ErrGlob (pattern : string)                         (* "failed to find files matching pattern %s: %v" *)
| ErrNoFiles (pattern : string)                      (* "no files found matching pattern %s" *)
| ErrLoadFile (file : string) (e : LoadError)        (* "failed to load file %s: %v" *)
| ErrOpen                                            (* "failed to open file: %v" *)
| ErrReadCSV                                         (* "failed to read CSV data: %v" *)
| ErrInsufficientData (filePath : string)            (* "file %s has insufficient data" *)
| ErrInsufficientColumns (filePath : string)         (* "file %s has insufficient columns" *)
| ErrRowColumns (row : Z) (filePath : string)        (* "row %d in file %s has incorrect number of columns" *)
| ErrInvalidTimestamp (row : Z) (filePath : string)  (* "invalid timestamp in row %d of file %s: %v" *)
| ErrInvalidValue (row : Z) (col filePath : string)  (* "invalid data value in row %d, column %s of file %s: %v" *)
| ErrCreate.                                         (* "failed to create output file: %v" *)

(** [strings.SplitN(s, "_", 2)[0]]: the text before the first underscore,
    all of [s] when it has none. *)
Fixpoint beforeUnderscore (s : string) : string :=
  match s with
  | EmptyString => EmptyString
  | String c rest =>
      if String.prefix "_" s then EmptyString else String c (beforeUnderscore rest)
  end.

(** One turn of the loop over [dataCols]: the state is the index [j] and
    the map [point.Data], or the error that left the function. *)
Definition cellStep (p : Platform) (rowNo : Z) (filePath : string) (row : list string)
    (acc : Z * go (LoadError + gmap string float)) (col : string)
  : Z * go (LoadError + gmap string float) :=
  let '(j, state) := acc in
  (j + 1,
   match state with
   | Some (inr data) =>
       valStr ← index row (j + 1);
       if negb (String.eqb valStr "") then
         match ParseFloat p valStr with
         | Some val => Some (inr (<[col := val]> data))
         | None => Some (inl (ErrInvalidValue rowNo col filePath))
         end
       else Some (inr data)
   | _ => state
   end).

(** One turn of the loop over the data rows: the state is the index [i]
    and the slice [points], or the error that left the function. *)
Definition rowStep (p : Platform) (l : Loader) (filePath : string)
    (headers dataCols : list string) (participantID : string)
    (acc : Z * go (LoadError + list DataPoint)) (row : list string)
  : Z * go (LoadError + list DataPoint) :=
  let '(i, state) := acc in
  (i + 1,
   match state with
   | Some (inr points) =>
       let rowNo := i + 1 + 1 in
       if negb (len row =? len headers)
       then Some (inl (ErrRowColumns rowNo filePath)) else
       first ← index row 0;
       match ParseFloat p first with
       | None => Some (inl (ErrInvalidTimestamp rowNo filePath))
       | Some timestamp =>
           data ← (fold_left (cellStep p rowNo filePath row) dataCols (0, Some (inr ∅))).2;
           match data with
           | inl err => Some (inl err)
           | inr data =>
               Some (inr (points ++ [Build_DataPoint timestamp data participantID
                                                     (Condition l)]))
           end
       end
   | _ => state
   end).

(** On an error the three results are [nil, nil, err]. *)
Definition loadSingleFile (p : Platform) (l : Loader) (filePath : string)
  : go (list DataPoint * list string * option LoadError) :=
  match ReadAll p filePath with
  | OpenFailed => Some ([], [], Some ErrOpen)
  | ReadFailed => Some ([], [], Some ErrReadCSV)
  | Records records =>
      if len records <? 2 then Some ([], [], Some (ErrInsufficientData filePath)) else
      headers ← index records 0;
      if len headers <? 2 then Some ([], [], Some (ErrInsufficientColumns filePath)) else
      dataCols ← slice headers 1 (len headers);
      let baseName := Base p filePath in
      let participantID := beforeUnderscore baseName in
      rows ← slice records 1 (len records);
      points ← (fold_left (rowStep p l filePath headers dataCols participantID)
                          rows (0, Some (inr []))).2;
      match points with
      | inl err => Some ([], [], Some err)
      | inr points => Some (points, headers, None)
      end
  end.

(** One turn of the loop of [LoadFiles]: the state is the pair
    ([allPoints], [columns]), or the error that left the function. *)
Definition fileStep (p : Platform) (l : Loader)
    (acc : go (LoadError + list DataPoint * list string)) (file : string)
  : go (LoadError + list DataPoint * list string) :=
  match acc with
  | Some (inr (allPoints, columns)) =>
      r ← loadSingleFile p l file;
      match r with
      | (_, _, Some err) => Some (inl (ErrLoadFile file err))
      | (points, cols, None) =>
          Some (inr (allPoints ++ points, if len columns =? 0 then cols else columns))
      end
  | _ => acc
  end.

Definition LoadFiles (p : Platform) (l : Loader) (pattern : string)
  : go (option Dataset * option LoadError) :=
  match Glob p pattern with
  | None => Some (None, Some (ErrGlob pattern))
  | Some matches =>
      if len matches =? 0 then Some (None, Some (ErrNoFiles pattern)) else
      r ← fold_left (fileStep p l) matches (Some (inr ([], [])));
      match r with
      | inl err => Some (None, Some err)
      | inr (allPoints, columns) =>
          Some (Some {| Points := allPoints;
                        Columns := columns;
                        Metadata :=
                          <["total_files" := MInt (len matches)]>
                          (<["total_points" := MInt (len allPoints)]> ∅) |},
                None)
      end
  end.

(** One turn of the inner loop of [SaveDatasetAsCSV], over
    [dataset.Columns[1:]]: the state is the index [i] and the row. *)
Definition saveCell (p : Platform) (point : DataPoint)
    (acc : Z * go (list string)) (col : string) : Z * go (list string) :=
  let '(i, state) := acc in
  (i + 1,
   row ← state;
   match Data point !! col with
   | Some val => setIndex row (i + 3) (FormatFloat p val)
   | None => setIndex row (i + 3) ""
   end).

(** One turn of the loop over the points: the rows written so far. *)
Definition saveRow (p : Platform) (dataset : Dataset) (header : list string)
    (acc : go (list (list string))) (point : DataPoint) : go (list (list string)) :=
  written ← acc;
  let '(Build_DataPoint timestamp _ participantID condition) := point in
  let row := makeStrings (len header) in
  row ← setIndex row 0 (FormatFloat p timestamp);
  row ← setIndex row 1 participantID;
  row ← setIndex row 2 condition;
  rest ← slice (Columns dataset) 1 (len (Columns dataset));
  row ← (fold_left (saveCell p point) rest (0, Some row)).2;
  Some (written ++ [row]).

(** [SaveDatasetAsCSV] returns the error; the first component is the
    sequence of records handed to the [csv.Writer], the header first (the
    errors of [Write] are dropped by the code).  The dataset is
    dereferenced without a nil check. *)
Definition SaveDatasetAsCSV (p : Platform) (l : Loader) (dataset : option Dataset)
    (outputPath : string) : go (list (list string) * option LoadError) :=
  if negb (Create p outputPath) then Some ([], Some ErrCreate) else
  dataset ← dataset;
  let fixed := ["timestamp"; "participant_id"; "condition"] in
  let header := fixed ++ Columns dataset in
  skip ← (if 0 <? len (Columns dataset)
          then c ← index (Columns dataset) 0; Some (String.eqb c "timestamp")
          else Some false);
  header ← (if skip : bool
            then rest ← slice (Columns dataset) 1 (len (Columns dataset));
                 Some (fixed ++ rest)
            else Some header);
  rows ← fold_left (saveRow p dataset header) (Points dataset) (Some []);
  Some (header :: rows, None).

End Loader.

(* ===================================================================== *)
(** ** The words of the specification *)
(* ===================================================================== *)

(** "The first sample whose timestamp >= effective start" and "the last
    sample whose timestamp <= effective end", as positions in a sequence. *)
Definition firstAtOrAfter (startTime : float) (points : list DataPoint) (i : nat) : Prop :=
  (exists p, points !! i = Some p /\ (startTime <=? Timestamp p)%float = true) /\
  forall j q, (j < i)%nat -> points !! j = Some q ->
              (startTime <=? Timestamp q)%float = false.

Definition lastAtOrBefore (endTime : float) (points : list DataPoint) (i : nat) : Prop :=
  (exists p, points !! i = Some p /\ (Timestamp p <=? endTime)%float = true) /\
  forall j q, (i < j)%nat -> points !! j = Some q ->
              (Timestamp q <=? endTime)%float = false.

(** "Strictly outside [lo, hi]". *)
Definition strictlyOutside (t lo hi : float) : Prop :=
  (t <? lo)%float = true \/ (hi <? t)%float = true.

(** The effective bounds of a clip: the requested one, else the observed. *)
Definition effectiveStart (config : Clipper.ClipConfig) (lo : float) : float :=
  default lo (Clipper.StartTime config).

Definition effectiveEnd (config : Clipper.ClipConfig) (hi : float) : float :=
  default hi (Clipper.EndTime config).

(** "Time-ordered": timestamps never decrease along the sequence (so none
    is NaN). *)
Fixpoint timeOrdered (points : list DataPoint) : bool :=
  match points with
  | [] => true
  | p :: rest =>
      match rest with
      | [] => negb (IsNaN (Timestamp p))
      | q :: _ => (Timestamp p <=? Timestamp q)%float && timeOrdered rest
      end
  end.

(** "Count required columns that are absent or NaN". *)
Definition absentOrNaN (p : DataPoint) (col : string) : bool :=
  bool_decide (Data p !! col = None) || from_option IsNaN false (Data p !! col).

Definition missingColumns (p : DataPoint) (requiredColumns : list string) : Z :=
  len (List.filter (absentOrNaN p) requiredColumns).

(** "The sequence of values where the channel is present AND not NaN,
    preserving sample order" (the strict extraction). *)
Definition presentValue (col : string) (p : DataPoint) : option float :=
  match Data p !! col with
  | Some val => if IsNaN val then None else Some val
  | None => None
  end.

Definition presentValues (points : list DataPoint) (col : string) : list float :=
  omap (presentValue col) points.

(** The number of samples whose value for the column is present but NaN. *)
Definition presentNaN (col : string) (p : DataPoint) : bool :=
  from_option IsNaN false (Data p !! col).

Definition presentNaNCount (points : list DataPoint) (col : string) : Z :=
  len (List.filter (presentNaN col) points).

(** A cleaning configuration with outlier removal switched on or off. *)
Definition withRemoveOutliers (b : bool) (config : CleanConfig) : CleanConfig :=
  {| RequiredColumns := RequiredColumns config;
     RemoveOutliers := b;
     OutlierMethod := OutlierMethod config;
     MaxMissingPercent := MaxMissingPercent config;
     ZScoreThreshold := ZScoreThreshold config |}.

(** The samples that the missing-data stage of [CleanDataset] hands on. *)
Definition afterMissing (impl_int : float -> Z) (config : CleanConfig)
    (points : list DataPoint) : list DataPoint :=
  if (0 <? MaxMissingPercent config)%float
  then (Cleaner.filterMissingData impl_int points (RequiredColumns config)
                                  (MaxMissingPercent config)).1
  else points.

(** The conversion [int(x)] of amd64 for a value out of range: the
    "integer indefinite" [-2^63]. *)
Definition amd64_int : float -> Z := fun _ => int_min.

(** "The empty label maps to the literal partition key unknown". *)
Definition labelKey (label : string) : string :=
  if decide (label = "") then "unknown" else label.

(** The samples of a partition: those whose label has the key, in order. *)
Definition samplesOf (label : DataPoint -> string) (key : string)
    (points : list DataPoint) : list DataPoint :=
  List.filter (fun p => bool_decide (labelKey (label p) = key)) points.

(** The configuration after [ComputeStats] has defaulted the columns. *)
Definition effectiveStatsConfig (d : Dataset) (config : Stats.StatsConfig)
  : Stats.StatsConfig :=
  if len (Stats.AnalyzeColumns config) =? 0
  then {| Stats.AnalyzeColumns := Columns d;
          Stats.ByCondition := Stats.ByCondition config;
          Stats.ByParticipant := Stats.ByParticipant config |}
  else config.

(** The sub-dataset that [ComputeStats] builds for a partition. *)
Definition subDatasetOf (d : Dataset) (points : list DataPoint) : Dataset :=
  {| Points := points; Columns := Columns d; Metadata := ∅ |}.

(** The statistics list of a partition. *)
Definition partitionStats (d : Dataset) (config : Stats.StatsConfig)
    (points : list DataPoint) : list Stats.ColumnStats :=
  match Stats.computeColumnStats (subDatasetOf d points)
                                 (Stats.AnalyzeColumns config) config with
  | Some (stats, _) => stats
  | None => []
  end.

(** The rank [k = (p/100)*(n-1)] of [percentile]. *)
Definition rankOf (sorted : list float) (p : float) : float :=
  (p / 100 * of_int (len sorted - 1))%float.

(** *** Values of finite non-negative floats

    The value [m * 2^e] is at most the integer [z]; its integer parts. *)
Definition atMost (m : positive) (e : Z) (z : Z) : Prop :=
  (0 <= e -> Zpos m * 2 ^ e <= z) /\ (e < 0 -> Zpos m <= z * 2 ^ (- e)).

Definition floorOf (m : positive) (e : Z) : Z :=
  if 0 <=? e then Zpos m * 2 ^ e else Zpos m / 2 ^ (- e).

Definition ceilOf (m : positive) (e : Z) : Z :=
  if 0 <=? e then Zpos m * 2 ^ e else - ((- Zpos m) / 2 ^ (- e)).

(** *** Rounding records of the binary64 operations

    The bits shifted out so far are not all zero; what a location adds to
    the truncated mantissa when it is rounded up. *)
Definition inexact (mrs : shr_record) : bool := shr_r mrs || shr_s mrs.

Definition locSlack (l : location) : Z :=
  match l with loc_Exact => 0 | loc_Inexact _ => 1 end.

(** *** Invariants of the frame search of [ClipDataset]

    After a prefix [l] of the samples, [startFrame] is [-1] when no sample
    of [l] is at or after the start, else the position of the first one;
    [endFrame] likewise for the last sample at or before the end. *)
Definition startInv (s : float) (l : list DataPoint) (sf : Z) : Prop :=
  (sf = -1 /\ forall j q, l !! j = Some q -> (s <=? Timestamp q)%float = false) \/
  (0 <= sf /\ firstAtOrAfter s l (Z.to_nat sf)).

Definition endInv (e : float) (l : list DataPoint) (ef : Z) : Prop :=
  (ef = -1 /\ forall j q, l !! j = Some q -> (Timestamp q <=? e)%float = false) \/
  (0 <= ef /\ lastAtOrBefore e l (Z.to_nat ef)).

(** *** Samples and configurations used as examples *)
Definition reading (t : float) (participant condition : string)
    (channels : list (string * float)) : DataPoint :=
  {| Timestamp := t; Data := list_to_map channels;
     ParticipantID := participant; Condition := condition |}.

Definition datasetOf (points : list DataPoint) (columns : list string) : Dataset :=
  {| Points := points; Columns := columns; Metadata := ∅ |}.

Definition cleanConfig (required : list string) (removeOutliers : bool)
    (method : string) (maxMissing : float) : CleanConfig :=
  {| RequiredColumns := required; RemoveOutliers := removeOutliers;
     OutlierMethod := method; MaxMissingPercent := maxMissing;
     ZScoreThreshold := 3 |}.

(** Seven gaze readings: the third one is NaN, the fourth one far away. *)
Definition gazeReadings : list DataPoint :=
  [reading 0 "P1" "A" [("x", 1%float)];
   reading 10 "P1" "B" [("x", 2%float)];
   reading 20 "P2" "" [("x", nan)];
   reading 30 "P2" "A" [("x", 100%float)];
   reading 40 "P1" "A" [("x", 3%float)];
   reading 50 "P1" "A" [("x", 2%float)];
   reading 60 "P1" "A" [("x", 1%float)]].

(** The sorted sequences of the percentile examples. *)
Definition oneToFour : list float := [1; 2; 3; 4]%float.
Definition oneToThree : list float := [1; 2; 3]%float.

Definition byBothAxes : Stats.StatsConfig :=
  {| Stats.AnalyzeColumns := []; Stats.ByCondition := true; Stats.ByParticipant := true |}.

(** *** Recordings used as examples *)
Definition sampleAt (t : float) : DataPoint :=
  {| Timestamp := t; Data := ∅; ParticipantID := "P1"; Condition := "A" |}.

Definition recording (timestamps : list float) : Dataset :=
  {| Points := sampleAt <$> timestamps; Columns := ["timestamp"]; Metadata := ∅ |}.

Definition clipBetween (startTime endTime : float) : Clipper.ClipConfig :=
  {| Clipper.StartTime := Some startTime; Clipper.EndTime := Some endTime |}.

(** *** Rows and samples of the loader

    The sample that [loadSingleFile] builds from a data row under the
    header row [headers]: the first field is the timestamp, and a channel
    holds a value only if some field under its name is not empty and parses
    to that value. *)
Definition loadedFrom (p : Loader.Platform) (l : Loader.Loader) (participantID : string)
    (headers row : list string) (point : DataPoint) : Prop :=
  len row = len headers /\
  (exists first, row !! 0%nat = Some first /\
                 Loader.ParseFloat p first = Some (Timestamp point)) /\
  ParticipantID point = participantID /\
  Condition point = Loader.Condition l /\
  (forall col val, Data point !! col = Some val ->
     exists (j : nat) cell,
       headers !! S j = Some col /\ row !! S j = Some cell /\
       cell <> "" /\ Loader.ParseFloat p cell = Some val) /\
  (NoDup (tail headers) ->
   forall (j : nat) col cell,
     headers !! S j = Some col -> row !! S j = Some cell ->
     Data point !! col = if decide (cell = "") then None else Loader.ParseFloat p cell) /\
  (forall (j : nat) cell,
     row !! S j = Some cell -> cell = "" \/ exists val, Loader.ParseFloat p cell = Some val).

(** The cell that [SaveDatasetAsCSV] writes for a channel of a sample. *)
Definition cellOf (p : Loader.Platform) (point : DataPoint) (col : string) : string :=
  match Data point !! col with
  | Some val => Loader.FormatFloat p val
  | None => ""
  end.

(** The header and the row of a sample that [SaveDatasetAsCSV] writes for
    the columns of a dataset: the first column is skipped in every row, and
    in the header only when it is named "timestamp". *)
Definition savedHeader (columns : list string) : list string :=
  ["timestamp"; "participant_id"; "condition"]
  ++ match columns with
     | c0 :: rest => if String.eqb c0 "timestamp" then rest else columns
     | [] => []
     end.

Definition savedRow (p : Loader.Platform) (columns : list string) (point : DataPoint)
  : list string :=
  [Loader.FormatFloat p (Timestamp point); ParticipantID point; Condition point]
  ++ (cellOf p point <$> tail columns)
  ++ match columns with
     | c0 :: _ => if String.eqb c0 "timestamp" then [] else [""]
     | [] => []
     end.

(** *** A platform used as an example

    Every float prints as "1.000000", which is the only text that parses;
    the one file holds what [SaveDatasetAsCSV] writes for a single sample
    of participant "P1" under condition "A". *)
Definition printsOne : Loader.Platform :=
  {| Loader.ParseFloat := fun s => if String.eqb s "1.000000" then Some 1%float else None;
     Loader.FormatFloat := fun _ => "1.000000";
     Loader.Base := fun path => path;
     Loader.Glob := fun pattern => Some [pattern];
     Loader.ReadAll := fun path =>
       if String.eqb path "saved.csv"
       then Loader.Records [["timestamp"; "participant_id"; "condition"; "x"];
                            ["1.000000"; "P1"; "A"; "1.000000"]]
       else if String.eqb path "P7_run.csv"
       then Loader.Records [["time"; "x"; "y"];
                            ["1.000000"; "1.000000"; ""]]
       else Loader.OpenFailed;
     Loader.Create := fun _ => true |}.

Definition conditionA : Loader.Loader := {| Loader.Condition := "A" |}.

(** One sample of participant "P1" under condition "A", as a dataset
    whose first column is named "time" and as one whose first column is
    named "timestamp". *)
Definition oneReading : list DataPoint := [reading 1 "P1" "A" [("x", 1%float)]].

Definition timeAndX : Dataset := datasetOf oneReading ["time"; "x"].

Definition timestampAndX : Dataset := datasetOf oneReading ["timestamp"; "x"].

(* ===================================================================== *)
(** * Properties *)
(* ===================================================================== *)

(** ** The order of binary64 values *)

Lemma digits2_pos_bound (m : positive) : Zpos m < 2 ^ Zpos (digits2_pos m).
Proof.
  induction m as [m IH|m IH|]; simpl digits2_pos.
  - rewrite Pos2Z.inj_succ, Z.pow_succ_r by lia. lia.
  - rewrite Pos2Z.inj_succ, Z.pow_succ_r by lia. lia.
  - reflexivity.
Qed.

Lemma digits2_pos_lower (m : positive) : 2 ^ (Zpos (digits2_pos m) - 1) <= Zpos m.
Proof.
  induction m as [m IH|m IH|]; simpl digits2_pos.
  - rewrite Pos2Z.inj_succ.
    replace (Z.succ (Zpos (digits2_pos m)) - 1)
      with (Z.succ (Zpos (digits2_pos m) - 1)) by lia.
    rewrite Z.pow_succ_r by lia. lia.
  - rewrite Pos2Z.inj_succ.
    replace (Z.succ (Zpos (digits2_pos m)) - 1)
      with (Z.succ (Zpos (digits2_pos m) - 1)) by lia.
    rewrite Z.pow_succ_r by lia. lia.
  - simpl. lia.
Qed.

(** A valid binary64 has a mantissa below [2^53] and an exponent between
    [-1074] and [971]. *)
Lemma valid_finite_bounds s m e :
  valid_binary (S754_finite s m e) = true ->
  Zpos m < 2 ^ 53 /\ -1074 <= e <= 971.
Proof.
  unfold SpecFloat.valid_binary, bounded, canonical_mantissa, fexp,
    SpecFloat.emin, prec, emax.
  intros H. apply andb_prop in H as [H1 H2].
  apply Z.eqb_eq in H1. apply Z.leb_le in H2.
  split; [|lia].
  pose proof (digits2_pos_bound m) as Hb.
  assert (Zpos (digits2_pos m) <= 53) by lia.
  eapply Z.lt_le_trans; [exact Hb|]. apply Z.pow_le_mono_r; lia.
Qed.

Lemma SFcompare_ord x y :
  valid_binary x = true -> valid_binary y = true ->
  x <> S754_nan -> y <> S754_nan ->
  SFcompare x y = Some (ord x ?= ord y).
Proof.
  intros Vx Vy Nx Ny.
  assert (P53 : 2 ^ 53 = 9007199254740992) by reflexivity.
  destruct x as [sx|sx| |sx mx ex], y as [sy|sy| |sy my ey]; try congruence;
    try apply valid_finite_bounds in Vx; try apply valid_finite_bounds in Vy;
    unfold SFcompare, ord, cond_Zopp; rewrite ?P53 in *; f_equal; symmetry.
  all: repeat match goal with
       | |- context [if ?b then _ else _] => destruct b
       | |- context [match ?b with true => _ | false => _ end] => destruct b
       end.
  all: try (apply Z.compare_eq_iff; lia).
  all: try (apply Z.compare_lt_iff; lia).
  all: try (apply Z.compare_gt_iff; lia).
  all: change (PosDef.Pos.compare_cont Eq mx my) with (Zpos mx ?= Zpos my).
  all: destruct (Z.compare_spec ex ey);
    [destruct (Z.compare_spec (Zpos mx) (Zpos my))| |]; simpl.
  all: try (apply Z.compare_eq_iff; lia).
  all: try (apply Z.compare_lt_iff; lia).
  all: try (apply Z.compare_gt_iff; lia).
Qed.

Lemma Prim2SF_nan_iff x : IsNaN x = true <-> Prim2SF x = S754_nan.
Proof.
  unfold IsNaN. rewrite FloatAxioms.eqb_spec. unfold SFeqb. split.
  - intros H.
    pose proof (SFcompare_ord _ _ (Prim2SF_valid x) (Prim2SF_valid x)) as C.
    rewrite Z.compare_refl in C.
    destruct (Prim2SF x); try reflexivity; rewrite C in H; discriminate.
  - intros ->. reflexivity.
Qed.

Lemma IsNaN_false x : IsNaN x = false <-> Prim2SF x <> S754_nan.
Proof.
  rewrite <- Prim2SF_nan_iff. destruct (IsNaN x); split; congruence.
Qed.

Lemma compare_ordf x y :
  IsNaN x = false -> IsNaN y = false ->
  SFcompare (Prim2SF x) (Prim2SF y) = Some (ordf x ?= ordf y).
Proof.
  intros Hx Hy. apply SFcompare_ord; auto using Prim2SF_valid; now apply IsNaN_false.
Qed.

Lemma compare_nan x y :
  IsNaN x = true \/ IsNaN y = true -> SFcompare (Prim2SF x) (Prim2SF y) = None.
Proof.
  intros [H|H]; apply Prim2SF_nan_iff in H; rewrite H; [reflexivity|].
  destruct (Prim2SF x); reflexivity.
Qed.

(** The three comparisons of Go, read on [ordf]. *)
Lemma ltb_ord x y :
  (x <? y)%float = negb (IsNaN x) && negb (IsNaN y) && (ordf x <? ordf y).
Proof.
  rewrite FloatAxioms.ltb_spec. unfold SFltb.
  destruct (IsNaN x) eqn:Hx; [rewrite compare_nan by auto; reflexivity|].
  destruct (IsNaN y) eqn:Hy; [rewrite compare_nan by auto; reflexivity|].
  rewrite compare_ordf by assumption. simpl. unfold Z.ltb.
  destruct (ordf x ?= ordf y); reflexivity.
Qed.

Lemma leb_ord x y :
  (x <=? y)%float = negb (IsNaN x) && negb (IsNaN y) && (ordf x <=? ordf y).
Proof.
  rewrite FloatAxioms.leb_spec. unfold SFleb.
  destruct (IsNaN x) eqn:Hx; [rewrite compare_nan by auto; reflexivity|].
  destruct (IsNaN y) eqn:Hy; [rewrite compare_nan by auto; reflexivity|].
  rewrite compare_ordf by assumption. simpl. unfold Z.leb.
  destruct (ordf x ?= ordf y); reflexivity.
Qed.

Lemma eqb_ord x y :
  (x =? y)%float = negb (IsNaN x) && negb (IsNaN y) && (ordf x =? ordf y).
Proof.
  rewrite FloatAxioms.eqb_spec. unfold SFeqb.
  destruct (IsNaN x) eqn:Hx; [rewrite compare_nan by auto; reflexivity|].
  destruct (IsNaN y) eqn:Hy; [rewrite compare_nan by auto; reflexivity|].
  rewrite compare_ordf by assumption. simpl.
  destruct (Z.compare_spec (ordf x) (ordf y)), (Z.eqb_spec (ordf x) (ordf y));
    lia || reflexivity.
Qed.

(** Comparisons of floats become linear arithmetic on [ordf]. *)
Ltac float_order :=
  unfold gtb, geb, Clipper.outOfBounds, strictlyOutside in *;
  rewrite ?ltb_ord, ?leb_ord, ?eqb_ord in *;
  repeat match goal with
  | H : context [IsNaN ?x] |- _ => revert H
  end;
  repeat match goal with
  | |- context [IsNaN ?x] => destruct (IsNaN x)
  end;
  cbn [negb andb orb]; intros; try discriminate; try reflexivity; try lia.

(** ** Slices *)

Lemma len_app {A} (l k : list A) : len (l ++ k) = len l + len k.
Proof. unfold len. rewrite length_app. lia. Qed.

Lemma len_nonneg {A} (l : list A) : 0 <= len l.
Proof. unfold len. lia. Qed.

Lemma len_zero_iff {A} (l : list A) : len l = 0 <-> l = [].
Proof. unfold len. destruct l; simpl; split; intros; try done; lia. Qed.

(** ** Package clipper *)

Section ClipperProperties.
Import Clipper.

Lemma frames_inv s e (l : list DataPoint) :
  exists sf ef,
    fold_left (frameStep s e) l (0, (-1, -1)) = (len l, (sf, ef)) /\
    startInv s l sf /\ endInv e l ef.
Proof.
  induction l as [|x l IH] using rev_ind.
  - exists (-1), (-1). split; [reflexivity|].
    split; left; (split; [reflexivity|]); intros j q H; rewrite lookup_nil in H; discriminate.
  - destruct IH as (sf & ef & Hf & Hs & He).
    rewrite fold_left_app, Hf. cbn [fold_left frameStep]. unfold geb.
    eexists _, _. split; [rewrite len_app; reflexivity|].
    pose proof (len_nonneg l) as Hl.
    assert (Hlen : Z.to_nat (len l) = length l) by (unfold len; lia).
    split.
    + destruct Hs as [[-> Hnone]|[Hpos [(p & Hp & Hge) Hbefore]]].
      * simpl (_ =? _). cbn [andb].
        destruct (s <=? Timestamp x)%float eqn:Hx.
        -- right. split; [lia|]. rewrite Hlen. split.
           ++ exists x. split; [|exact Hx]. apply list_lookup_middle. reflexivity.
           ++ intros j q Hj Hq. rewrite lookup_app_l in Hq by lia. eauto.
        -- left. split; [reflexivity|]. intros j q Hq.
           apply lookup_app_Some in Hq as [Hq|[_ Hq]]; [eauto|].
           destruct (j - length l)%nat; simpl in Hq; [congruence|].
           rewrite lookup_nil in Hq. discriminate.
      * destruct (Z.eqb_spec sf (-1)); [lia|]. cbn [andb].
        right. split; [lia|]. split.
        -- exists p. split; [|exact Hge]. apply lookup_app_l_Some. exact Hp.
        -- intros j q Hj Hq. apply lookup_lt_Some in Hp.
           rewrite lookup_app_l in Hq by lia. eauto.
    + destruct (Timestamp x <=? e)%float eqn:Hx.
      * right. split; [lia|]. rewrite Hlen. split.
        -- exists x. split; [|exact Hx]. apply list_lookup_middle. reflexivity.
        -- intros j q Hj Hq. apply lookup_lt_Some in Hq. rewrite length_app in Hq.
           simpl in Hq. lia.
      * destruct He as [[-> Hnone]|[Hpos [(p & Hp & Hle) Hafter]]].
        -- left. split; [reflexivity|]. intros j q Hq.
           apply lookup_app_Some in Hq as [Hq|[_ Hq]]; [eauto|].
           destruct (j - length l)%nat; simpl in Hq; [congruence|].
           rewrite lookup_nil in Hq. discriminate.
        -- right. split; [lia|]. split.
           ++ exists p. split; [|exact Hle]. apply lookup_app_l_Some. exact Hp.
           ++ intros j q Hj Hq.
              apply lookup_app_Some in Hq as [Hq|[_ Hq]]; [eauto|].
              destruct (j - length l)%nat; simpl in Hq; [congruence|].
              rewrite lookup_nil in Hq. discriminate.
Qed.

Lemma findFrames_spec s e (l : list DataPoint) :
  exists sf ef, findFrames l s e = (sf, ef) /\ startInv s l sf /\ endInv e l ef.
Proof.
  destruct (frames_inv s e l) as (sf & ef & Hf & H).
  exists sf, ef. unfold findFrames. rewrite Hf. auto.
Qed.

Lemma index_Some {A} (l : list A) (i : nat) (x : A) :
  l !! i = Some x -> index l (Z.of_nat i) = Some x.
Proof.
  intros H. unfold index, len. pose proof (lookup_lt_Some _ _ _ H).
  destruct (Z.leb_spec 0 (Z.of_nat i)); [|lia].
  destruct (Z.ltb_spec (Z.of_nat i) (Z.of_nat (length l))); [|lia].
  simpl. rewrite Nat2Z.id. exact H.
Qed.

Lemma ordf_bounds x : - (2047 * 2 ^ 53) <= ordf x <= 2047 * 2 ^ 53.
Proof.
  unfold ordf. pose proof (Prim2SF_valid x) as V.
  destruct (Prim2SF x) as [s|s| |s m e]; unfold ord, cond_Zopp;
    try (destruct s); try lia.
  all: apply valid_finite_bounds in V; lia.
Qed.

Lemma ordf_infinity : ordf infinity = 2047 * 2 ^ 53.
Proof. reflexivity. Qed.

Lemma ordf_neg_infinity : ordf neg_infinity = - (2047 * 2 ^ 53).
Proof. reflexivity. Qed.

Lemma IsNaN_infinity : IsNaN infinity = false.
Proof. reflexivity. Qed.

Lemma IsNaN_neg_infinity : IsNaN neg_infinity = false.
Proof. reflexivity. Qed.

(** The first loop of [ClipDataset] on samples that all carry the
    timestamp [t]. *)
Lemma scanTimestamps_constant (l : list DataPoint) (t : float) :
  l <> [] -> (forall p, p ∈ l -> Timestamp p = t) ->
  scanTimestamps l =
    (if (t <? infinity)%float then t else infinity,
     if (neg_infinity <? t)%float then t else neg_infinity).
Proof.
  unfold scanTimestamps.
  induction l as [|x l IH] using rev_ind; [done|]. intros _ Hall.
  rewrite fold_left_app. cbn [fold_left].
  assert (Hx : Timestamp x = t) by (apply Hall, elem_of_app; right; apply list_elem_of_singleton; reflexivity).
  destruct l as [|y l'].
  - simpl. unfold gtb. rewrite Hx. reflexivity.
  - rewrite IH; [|done|intros p Hp; apply Hall, elem_of_app; left; exact Hp].
    unfold scanStep, gtb. rewrite Hx. f_equal.
    + destruct (t <? infinity)%float eqn:E; [|rewrite E; reflexivity].
      replace (t <? t)%float with false; [reflexivity|]. clear. symmetry. float_order.
    + destruct (neg_infinity <? t)%float eqn:E; [|rewrite E; reflexivity].
      replace (t <? t)%float with false; [reflexivity|]. clear. symmetry. float_order.
Qed.

(** The first loop of [ClipDataset] yields the least and the greatest
    timestamp of samples whose timestamps are not NaN. *)
Lemma scanTimestamps_min_max (points : list DataPoint) (lo hi : float) :
  points <> [] ->
  (forall p, p ∈ points -> IsNaN (Timestamp p) = false) ->
  scanTimestamps points = (lo, hi) ->
  (forall p, p ∈ points ->
     (lo <=? Timestamp p)%float = true /\ (Timestamp p <=? hi)%float = true) /\
  (exists p, p ∈ points /\ (Timestamp p =? lo)%float = true) /\
  (exists p, p ∈ points /\ (Timestamp p =? hi)%float = true).
Proof.
  intros Hne Hnan Hscan.
  assert (Inv : forall l, (forall p, p ∈ l -> IsNaN (Timestamp p) = false) ->
    forall a b, fold_left scanStep l (infinity, neg_infinity) = (a, b) ->
      IsNaN a = false /\ IsNaN b = false /\
      (forall p, p ∈ l -> ordf a <= ordf (Timestamp p) <= ordf b) /\
      ((l = [] /\ a = infinity /\ b = neg_infinity) \/
       ((exists p, p ∈ l /\ ordf (Timestamp p) = ordf a) /\
        (exists p, p ∈ l /\ ordf (Timestamp p) = ordf b)))).
  { induction l as [|x l IH] using rev_ind; intros Hl a b Hf.
    - inversion Hf; subst a b. split; [reflexivity|]. split; [reflexivity|].
      split; [intros p Hp; apply elem_of_nil in Hp; done|]. left. auto.
    - rewrite fold_left_app in Hf. cbn [fold_left] in Hf.
      destruct (fold_left scanStep l (infinity, neg_infinity)) as [a0 b0] eqn:E0.
      destruct (IH ltac:(intros p Hp; apply Hl, elem_of_app; auto) a0 b0 eq_refl)
        as (Na & Nb & Hall & Hatt).
      assert (Nx : IsNaN (Timestamp x) = false)
        by (apply Hl, elem_of_app; right; apply list_elem_of_singleton; reflexivity).
      pose proof (ordf_bounds (Timestamp x)) as Bx.
      unfold scanStep, gtb in Hf. rewrite !ltb_ord, Nx, Na, Nb in Hf. cbn [negb andb] in Hf.
      assert (Hx : x ∈ l ++ [x]) by (apply elem_of_app; right; apply list_elem_of_singleton; reflexivity).
      destruct (Z.ltb_spec (ordf (Timestamp x)) (ordf a0)) as [La|La],
               (Z.ltb_spec (ordf b0) (ordf (Timestamp x))) as [Lb|Lb];
        inversion Hf; subst a b; clear Hf;
        (split; [assumption|]); (split; [assumption|]);
        (split;
         [intros p Hp; apply elem_of_app in Hp as [Hp|Hp];
          [specialize (Hall p Hp); lia
          |apply list_elem_of_singleton in Hp; subst p; lia]|]);
        right;
        destruct Hatt as [(-> & -> & ->)|[(pa & Hpa & Ea) (pb & Hpb & Eb)]];
        try (change (ordf infinity) with (2047 * 2 ^ 53) in *);
        try (change (ordf neg_infinity) with (- (2047 * 2 ^ 53)) in *);
        split;
        first [ exists x; split; [exact Hx|lia]
              | exists pa; split; [apply elem_of_app; left; exact Hpa|lia]
              | exists pb; split; [apply elem_of_app; left; exact Hpb|lia] ]. }
  destruct (Inv points Hnan lo hi Hscan) as (Nl & Nh & Hall & Hatt).
  destruct Hatt as [(-> & _)|[(pa & Hpa & Ea) (pb & Hpb & Eb)]]; [done|].
  split; [|split].
  - intros p Hp. specialize (Hall p Hp). rewrite !leb_ord, Nl, Nh, (Hnan p Hp).
    cbn [negb andb]. split; apply Z.leb_le; lia.
  - exists pa. split; [exact Hpa|]. rewrite eqb_ord, Nl, (Hnan pa Hpa). cbn [negb andb].
    apply Z.eqb_eq. exact Ea.
  - exists pb. split; [exact Hpb|]. rewrite eqb_ord, Nh, (Hnan pb Hpb). cbn [negb andb].
    apply Z.eqb_eq. exact Eb.
Qed.
(** C5: for a non-empty dataset, a requested start or end that lies
    strictly outside the observed interval [[min, max]] makes [ClipDataset]
    fail with the out-of-bounds error of that bound, which carries the
    offending value and the two ends of the valid range; no dataset is
    returned. *)
Theorem clip_out_of_bounds_fails (d : Dataset) (cfg : ClipConfig) (lo hi : float) :
  Points d <> [] ->
  scanTimestamps (Points d) = (lo, hi) ->
  (exists s, StartTime cfg = Some s /\ strictlyOutside s lo hi) \/
  (exists e, EndTime cfg = Some e /\ strictlyOutside e lo hi) ->
  exists info err,
    ClipDataset (Some d) cfg = Some (None, info, Some err) /\
    MinTimestamp info = lo /\ MaxTimestamp info = hi /\
    ((exists s, StartTime cfg = Some s /\ strictlyOutside s lo hi /\
                err = ErrStartOutOfBounds s lo hi) \/
     (exists e, EndTime cfg = Some e /\ strictlyOutside e lo hi /\
                err = ErrEndOutOfBounds e lo hi)).
Proof.
  intros Hne Hscan Hout. unfold ClipDataset.
  destruct (Z.eqb_spec (len (Points d)) 0) as [Hz|_];
    [apply len_zero_iff in Hz; contradiction|].
  rewrite Hscan.
  assert (Hdec : forall t, outOfBounds t lo hi = true <-> strictlyOutside t lo hi).
  { intros t. unfold outOfBounds, gtb, strictlyOutside. rewrite orb_true_iff. tauto. }
  destruct (StartTime cfg) as [s|] eqn:Es.
  - destruct (outOfBounds s lo hi) eqn:Hs.
    + eexists _, _. split; [reflexivity|]. repeat split.
      left. exists s. rewrite <- Hdec. auto.
    + destruct Hout as [(s' & E & Ho)|(e & Ee & Ho)].
      { inversion E; subst s'. apply Hdec in Ho. congruence. }
      rewrite Ee. apply Hdec in Ho as Ho'. rewrite Ho'.
      eexists _, _. split; [reflexivity|]. repeat split.
      right. exists e. auto.
  - destruct Hout as [(s' & E & Ho)|(e & Ee & Ho)]; [discriminate|].
    rewrite Ee. apply Hdec in Ho as Ho'. rewrite Ho'.
    eexists _, _. split; [reflexivity|]. repeat split.
    right. exists e. auto.
Qed.

(** C10: for a non-empty dataset whose samples all carry one timestamp,
    [ClipDataset] without requested bounds fails with the invalid-range
    error (the effective bounds are the observed min and max, and
    [max <= min]); and whatever bounds are requested it returns an error,
    never a dataset. *)
Theorem clip_constant_timestamps_fails (d : Dataset) (t : float) :
  Points d <> [] ->
  (forall p, p ∈ Points d -> Timestamp p = t) ->
  (forall cfg, StartTime cfg = None -> EndTime cfg = None ->
     exists info lo hi,
       scanTimestamps (Points d) = (lo, hi) /\
       ClipDataset (Some d) cfg = Some (None, info, Some (ErrInvalidRange hi lo))) /\
  (forall cfg, exists info err, ClipDataset (Some d) cfg = Some (None, info, Some err)).
Proof.
  intros Hne Hall.
  pose proof (scanTimestamps_constant _ _ Hne Hall) as Hscan.
  set (lo := if (t <? infinity)%float then t else infinity) in *.
  set (hi := if (neg_infinity <? t)%float then t else neg_infinity) in *.
  pose proof (ordf_bounds t) as Bt.
  pose proof ordf_infinity as Oi. pose proof ordf_neg_infinity as On.
  pose proof IsNaN_infinity as Ni. pose proof IsNaN_neg_infinity as Nn.
  assert (Hhl : (hi <=? lo)%float = true).
  { subst lo hi. clear Hscan.
    destruct (t <? infinity)%float eqn:E1, (neg_infinity <? t)%float eqn:E2;
      rewrite ?leb_ord; rewrite ?ltb_ord in *; rewrite ?Ni, ?Nn in *;
      destruct (IsNaN t); simpl in *; try discriminate; try reflexivity;
      apply Z.leb_le; try apply Z.ltb_lt in E1; try apply Z.ltb_lt in E2;
      try apply Z.ltb_ge in E1; try apply Z.ltb_ge in E2; lia. }
  assert (Hlo : IsNaN t = false -> IsNaN lo = false /\ ordf lo = ordf t).
  { intros Ht. subst lo. destruct (t <? infinity)%float eqn:E1; [auto|].
    rewrite ltb_ord, Ht, Ni in E1. simpl in E1. apply Z.ltb_ge in E1. split; [done|lia]. }
  assert (Hhi : IsNaN t = false -> IsNaN hi = false /\ ordf hi = ordf t).
  { intros Ht. subst hi. destruct (neg_infinity <? t)%float eqn:E1; [auto|].
    rewrite ltb_ord, Ht, Nn in E1. simpl in E1. apply Z.ltb_ge in E1. split; [done|lia]. }
  split.
  - intros cfg Hs He. unfold ClipDataset.
    destruct (Z.eqb_spec (len (Points d)) 0) as [Hz|_];
      [apply len_zero_iff in Hz; contradiction|].
    rewrite Hscan, Hs, He, Hhl. eauto.
  - intros cfg. unfold ClipDataset.
    destruct (Z.eqb_spec (len (Points d)) 0) as [Hz|_];
      [apply len_zero_iff in Hz; contradiction|].
    rewrite Hscan.
    set (start := match StartTime cfg with
                  | Some s => if outOfBounds s lo hi
                              then inl (ErrStartOutOfBounds s lo hi) else inr s
                  | None => inr lo end).
    assert (Hstart : forall s, start = inr s ->
              IsNaN t = false -> IsNaN s = false -> ordf s = ordf t).
    { intros s E Ht Hs. destruct (Hlo Ht) as [Nl Ol], (Hhi Ht) as [Nh Oh].
      subst start. destruct (StartTime cfg) as [s'|].
      - destruct (outOfBounds s' lo hi) eqn:Ho; [discriminate|]. inversion E; subst s'.
        unfold outOfBounds, gtb in Ho. rewrite !ltb_ord, Hs, Nl, Nh in Ho. simpl in Ho.
        apply orb_false_elim in Ho as [H1 H2].
        apply Z.ltb_ge in H1, H2. lia.
      - inversion E; subst s. exact Ol. }
    destruct start as [e|startTime] eqn:Es; [eauto|].
    set (end_ := match EndTime cfg with
                 | Some e => if outOfBounds e lo hi
                             then inl (ErrEndOutOfBounds e lo hi) else inr e
                 | None => inr hi end).
    assert (Hend : forall e, end_ = inr e ->
              IsNaN t = false -> IsNaN e = false -> ordf e = ordf t).
    { intros e E Ht He. destruct (Hlo Ht) as [Nl Ol], (Hhi Ht) as [Nh Oh].
      subst end_. destruct (EndTime cfg) as [e'|].
      - destruct (outOfBounds e' lo hi) eqn:Ho; [discriminate|]. inversion E; subst e'.
        unfold outOfBounds, gtb in Ho. rewrite !ltb_ord, He, Nl, Nh in Ho. simpl in Ho.
        apply orb_false_elim in Ho as [H1 H2].
        apply Z.ltb_ge in H1, H2. lia.
      - inversion E; subst e. exact Oh. }
    destruct end_ as [e|endTime] eqn:Ee; [eauto|].
    destruct (endTime <=? startTime)%float eqn:Hrange; [eauto|].
    destruct (findFrames_spec startTime endTime (Points d)) as (sf & ef & Hf & Hsf & Hef).
    rewrite Hf.
    destruct (Z.eqb_spec sf (-1)); [eauto|].
    destruct (Z.eqb_spec ef (-1)); [eauto|].
    exfalso.
    destruct Hsf as [[? _]|[_ [(p & Hp & Hge) _]]]; [lia|].
    destruct Hef as [[? _]|[_ [(q & Hq & Hle) _]]]; [lia|].
    rewrite (Hall p) in Hge by (eapply list_elem_of_lookup_2; exact Hp).
    rewrite (Hall q) in Hle by (eapply list_elem_of_lookup_2; exact Hq).
    rewrite leb_ord in Hge, Hle, Hrange.
    destruct (IsNaN t) eqn:Ht; [rewrite andb_false_r in Hge; discriminate|].
    destruct (IsNaN startTime) eqn:Hs; [discriminate|].
    destruct (IsNaN endTime) eqn:He; [rewrite andb_false_r in Hle; discriminate|].
    simpl in *.
    rewrite (Hstart _ eq_refl eq_refl Hs), (Hend _ eq_refl eq_refl He) in Hrange.
    apply Z.leb_gt in Hrange. lia.
Qed.

(** C4 (as the code has it): for a non-empty dataset and effective bounds
    with [start < end] whose requested values lie within the observed
    range, if some sample has its timestamp within [[start, end]] then
    [ClipDataset] returns exactly the contiguous inclusive slice from the
    first sample whose timestamp is [>= start] to the last sample whose
    timestamp is [<= end], with [ActualStartTime] and [ActualEndTime] the
    timestamps of the first and last retained sample (a sample exactly on
    a bound is therefore included).  Clipping timestamps [0,10,20,30] with
    start 5 and end 25 yields the samples at 10 and 20. *)
Theorem clip_slice_when_data_in_range :
  (forall (d : Dataset) (cfg : ClipConfig) (lo hi : float) (k : nat) (pk : DataPoint),
     Points d <> [] ->
     scanTimestamps (Points d) = (lo, hi) ->
     (forall s, StartTime cfg = Some s -> ~ strictlyOutside s lo hi) ->
     (forall e, EndTime cfg = Some e -> ~ strictlyOutside e lo hi) ->
     (effectiveStart cfg lo <? effectiveEnd cfg hi)%float = true ->
     Points d !! k = Some pk ->
     (effectiveStart cfg lo <=? Timestamp pk)%float = true ->
     (Timestamp pk <=? effectiveEnd cfg hi)%float = true ->
     exists (sf ef : nat) (first last : DataPoint) (out : Dataset) (info : ClipInfo),
       firstAtOrAfter (effectiveStart cfg lo) (Points d) sf /\
       lastAtOrBefore (effectiveEnd cfg hi) (Points d) ef /\
       (sf <= k <= ef)%nat /\
       Points d !! sf = Some first /\ Points d !! ef = Some last /\
       ClipDataset (Some d) cfg = Some (Some out, info, None) /\
       Points out = take (S ef - sf) (drop sf (Points d)) /\
       Columns out = Columns d /\
       StartFrame info = Z.of_nat sf /\ EndFrame info = Z.of_nat ef /\
       ClippedPoints info = Z.of_nat ef - Z.of_nat sf + 1 /\
       ActualStartTime info = Timestamp first /\
       ActualEndTime info = Timestamp last) /\
  exists out info,
    ClipDataset (Some (recording [0; 10; 20; 30]%float)) (clipBetween 5 25)
      = Some (Some out, info, None) /\
    Timestamp <$> Points out = [10; 20]%float /\
    ActualStartTime info = 10%float /\ ActualEndTime info = 20%float /\
    ClippedPoints info = 2.
Proof.
  split; [|eexists _, _; split; [vm_compute; reflexivity|repeat split]].
  intros d cfg lo hi k pk Hne Hscan Hs He Hlt Hk Hge Hle.
  destruct (findFrames_spec (effectiveStart cfg lo) (effectiveEnd cfg hi) (Points d))
    as (sf & ef & Hf & Hsf & Hef).
  destruct Hsf as [[_ Hnone]|[Hsf0 Hfirst]];
    [rewrite (Hnone _ _ Hk) in Hge; discriminate|].
  destruct Hef as [[_ Hnone]|[Hef0 Hlast]];
    [rewrite (Hnone _ _ Hk) in Hle; discriminate|].
  assert (Hsk : (Z.to_nat sf <= k)%nat).
  { destruct Hfirst as [_ Hb]. destruct (le_lt_dec (Z.to_nat sf) k) as [|Hc]; [done|].
    rewrite (Hb _ _ Hc Hk) in Hge. discriminate. }
  assert (Hke : (k <= Z.to_nat ef)%nat).
  { destruct Hlast as [_ Ha]. destruct (le_lt_dec k (Z.to_nat ef)) as [|Hc]; [done|].
    rewrite (Ha _ _ Hc Hk) in Hle. discriminate. }
  pose proof Hfirst as [(first & Hfst & _) _].
  pose proof Hlast as [(last & Hlst & _) _].
  pose proof (lookup_lt_Some _ _ _ Hlst) as Hefl.
  exists (Z.to_nat sf), (Z.to_nat ef), first, last.
  unfold ClipDataset.
  destruct (Z.eqb_spec (len (Points d)) 0) as [Hz|_];
    [apply len_zero_iff in Hz; contradiction|].
  rewrite Hscan.
  assert (Hstart : match StartTime cfg with
                   | Some s => if outOfBounds s lo hi
                               then inl (ErrStartOutOfBounds s lo hi) else inr s
                   | None => inr lo
                   end = (inr (effectiveStart cfg lo) : error + float)).
  { unfold effectiveStart. destruct (StartTime cfg) as [s|] eqn:E; [|reflexivity].
    specialize (Hs s eq_refl). simpl.
    destruct (outOfBounds s lo hi) eqn:Ho; [|reflexivity].
    exfalso. apply Hs. unfold outOfBounds, gtb in Ho. unfold strictlyOutside.
    apply orb_prop in Ho. tauto. }
  assert (Hend : match EndTime cfg with
                 | Some e => if outOfBounds e lo hi
                             then inl (ErrEndOutOfBounds e lo hi) else inr e
                 | None => inr hi
                 end = (inr (effectiveEnd cfg hi) : error + float)).
  { unfold effectiveEnd. destruct (EndTime cfg) as [e|] eqn:E; [|reflexivity].
    specialize (He e eq_refl). simpl.
    destruct (outOfBounds e lo hi) eqn:Ho; [|reflexivity].
    exfalso. apply He. unfold outOfBounds, gtb in Ho. unfold strictlyOutside.
    apply orb_prop in Ho. tauto. }
  rewrite Hstart, Hend.
  assert (Hrange : (effectiveEnd cfg hi <=? effectiveStart cfg lo)%float = false).
  { clear -Hlt. float_order. }
  rewrite Hrange, Hf.
  destruct (Z.eqb_spec sf (-1)); [lia|].
  destruct (Z.eqb_spec ef (-1)); [lia|].
  destruct (Z.gtb_spec sf ef); [lia|]. cbn [orb].
  unfold slice.
  destruct (Z.leb_spec 0 sf); [|lia].
  destruct (Z.leb_spec sf (ef + 1)); [|lia].
  destruct (Z.leb_spec (ef + 1) (len (Points d))); [|unfold len in *; lia].
  cbn [andb mbind option_bind].
  set (clipped := take (Z.to_nat (ef + 1 - sf)) (drop (Z.to_nat sf) (Points d))).
  assert (Hcl : length clipped = (Z.to_nat ef - Z.to_nat sf + 1)%nat).
  { unfold clipped. rewrite length_take, length_drop. lia. }
  assert (Hidx0 : index clipped 0 = Some first).
  { apply (index_Some clipped 0). unfold clipped.
    rewrite lookup_take_lt by lia. rewrite lookup_drop. rewrite Nat.add_0_r. exact Hfst. }
  assert (Hidx1 : index clipped (len clipped - 1) = Some last).
  { replace (len clipped - 1) with (Z.of_nat (Z.to_nat ef - Z.to_nat sf)) by (unfold len; lia).
    apply index_Some. unfold clipped.
    rewrite lookup_take_lt by lia. rewrite lookup_drop.
    replace (Z.to_nat sf + (Z.to_nat ef - Z.to_nat sf))%nat with (Z.to_nat ef) by lia.
    exact Hlst. }
  rewrite Hidx0. cbn [mbind option_bind]. rewrite Hidx1. cbn [mbind option_bind].
  eexists _, _.
  split; [exact Hfirst|]. split; [exact Hlast|]. split; [lia|].
  split; [exact Hfst|]. split; [exact Hlst|]. split; [reflexivity|].
  cbn. split; [unfold clipped; f_equal; lia|]. split; [reflexivity|].
  split; [lia|]. split; [lia|]. split; [unfold len; lia|]. split; reflexivity.
Qed.

Lemma clip_slice_when_data_in_range_witness :
  exists (sf ef : nat) (first last : DataPoint) (out : Dataset) (info : ClipInfo),
    firstAtOrAfter 10 (Points (recording [0; 10; 20; 30]%float)) sf /\
    lastAtOrBefore 25 (Points (recording [0; 10; 20; 30]%float)) ef /\
    (sf <= 1 <= ef)%nat /\
    Points (recording [0; 10; 20; 30]%float) !! sf = Some first /\
    Points (recording [0; 10; 20; 30]%float) !! ef = Some last /\
    ClipDataset (Some (recording [0; 10; 20; 30]%float)) (clipBetween 10 25)
      = Some (Some out, info, None) /\
    Points out = take (S ef - sf) (drop sf (Points (recording [0; 10; 20; 30]%float))) /\
    Columns out = Columns (recording [0; 10; 20; 30]%float) /\
    StartFrame info = Z.of_nat sf /\ EndFrame info = Z.of_nat ef /\
    ClippedPoints info = Z.of_nat ef - Z.of_nat sf + 1 /\
    ActualStartTime info = Timestamp first /\
    ActualEndTime info = Timestamp last.
Proof.
  apply (proj1 clip_slice_when_data_in_range
           (recording [0; 10; 20; 30]%float) (clipBetween 10 25) 0%float 30%float
           1%nat (sampleAt 10)).
  - discriminate.
  - reflexivity.
  - intros s [= <-] [H|H]; vm_compute in H; discriminate.
  - intros e [= <-] [H|H]; vm_compute in H; discriminate.
  - reflexivity.
  - reflexivity.
  - reflexivity.
  - reflexivity.
Defined.

(** C4, refuted as stated: the samples at 0 and 10 are time-ordered and
    the bounds 2 and 5 lie within the observed range with [2 < 5], yet no
    sample lies between them: the first sample at or after 2 comes after
    the last sample at or before 5, and [ClipDataset] returns the
    no-data-in-range error and no dataset. *)
Lemma clip_gap_counterexample :
  timeOrdered (Points (recording [0; 10]%float)) = true /\
  scanTimestamps (Points (recording [0; 10]%float)) = (0%float, 10%float) /\
  outOfBounds 2 0 10 = false /\ outOfBounds 5 0 10 = false /\
  (2 <? 5)%float = true /\
  exists info,
    ClipDataset (Some (recording [0; 10]%float)) (clipBetween 2 5)
      = Some (None, info, Some ErrNoDataInRange).
Proof.
  repeat split. eexists. vm_compute. reflexivity.
Qed.

Lemma clip_out_of_bounds_fails_witness :
  exists info err,
    ClipDataset (Some (recording [0; 10; 20; 30]%float))
      {| StartTime := None; EndTime := Some 100%float |}
      = Some (None, info, Some err) /\
    MinTimestamp info = 0%float /\ MaxTimestamp info = 30%float /\
    ((exists s, None = Some s /\ strictlyOutside s 0 30 /\
                err = ErrStartOutOfBounds s 0 30) \/
     (exists e, Some 100%float = Some e /\ strictlyOutside e 0 30 /\
                err = ErrEndOutOfBounds e 0 30)).
Proof.
  apply (clip_out_of_bounds_fails (recording [0; 10; 20; 30]%float)
           {| StartTime := None; EndTime := Some 100%float |} 0%float 30%float).
  - discriminate.
  - reflexivity.
  - right. exists 100%float. split; [reflexivity|]. right. reflexivity.
Defined.

Lemma clip_constant_timestamps_fails_witness :
  (forall cfg, StartTime cfg = None -> EndTime cfg = None ->
     exists info lo hi,
       scanTimestamps (Points (recording [7; 7; 7]%float)) = (lo, hi) /\
       ClipDataset (Some (recording [7; 7; 7]%float)) cfg
         = Some (None, info, Some (ErrInvalidRange hi lo))) /\
  (forall cfg, exists info err,
     ClipDataset (Some (recording [7; 7; 7]%float)) cfg = Some (None, info, Some err)).
Proof.
  apply (clip_constant_timestamps_fails (recording [7; 7; 7]%float) 7%float).
  - discriminate.
  - intros p Hp. cbn in Hp. 
    repeat (apply elem_of_cons in Hp as [->|Hp]; [reflexivity|]).
    apply elem_of_nil in Hp. destruct Hp.
Defined.

End ClipperProperties.

(** ** Arithmetic of binary64 values *)

Lemma digits2_unique (m : positive) (d : Z) :
  2 ^ (d - 1) <= Zpos m < 2 ^ d -> Zpos (digits2_pos m) = d.
Proof.
  intros [Hl Hu].
  pose proof (digits2_pos_bound m) as Hb. pose proof (digits2_pos_lower m) as Hw.
  assert (0 < d).
  { destruct (Z.lt_ge_cases 0 d); [done|]. 
    assert (2 ^ d <= 2 ^ 0) by (apply Z.pow_le_mono_r; lia). simpl in *. lia. }
  destruct (Z.lt_trichotomy (Zpos (digits2_pos m)) d) as [Hc|[Hc|Hc]]; [|done|].
  - assert (2 ^ Zpos (digits2_pos m) <= 2 ^ (d - 1)) by (apply Z.pow_le_mono_r; lia). lia.
  - assert (2 ^ d <= 2 ^ (Zpos (digits2_pos m) - 1)) by (apply Z.pow_le_mono_r; lia). lia.
Qed.

Lemma iter_xO_value (m : positive) (k : positive) :
  Zpos (Pos.iter xO m k) = Zpos m * 2 ^ Zpos k.
Proof.
  revert m. induction k as [|k IH] using Pos.peano_ind; intros m.
  - simpl. lia.
  - rewrite Pos.iter_succ. rewrite Pos2Z.inj_xO, IH, Pos2Z.inj_succ, Z.pow_succ_r by lia. lia.
Qed.

(** [float64(z)] is exact below [2^53]. *)
Lemma Prim2SF_of_int (z : Z) :
  0 < z < 2 ^ 53 ->
  exists m e, Prim2SF (of_int z) = S754_finite false m e /\
              -52 <= e <= 0 /\ 2 ^ 52 <= Zpos m < 2 ^ 53 /\ Zpos m = z * 2 ^ (- e).
Proof.
  intros Hz. unfold of_int. destruct (Z.leb_spec 0 z); [|lia].
  rewrite of_uint63_spec.
  assert (Hto : Uint63Axioms.to_Z (of_Z z) = z).
  { change (Uint63Axioms.to_Z (of_Z z)) with (Uint63.to_Z (of_Z z)).
    rewrite of_Z_spec. apply Z.mod_small. change wB with (2 ^ 63).
    assert (2 ^ 53 < 2 ^ 63) by reflexivity. lia. }
  rewrite Hto. destruct z as [|p|p]; try lia.
  unfold binary_normalize, binary_round.
  set (d := Zpos (digits2_pos p)).
  pose proof (digits2_pos_bound p) as Hb. pose proof (digits2_pos_lower p) as Hw.
  fold d in Hb, Hw.
  assert (Hd : 1 <= d <= 53).
  { split; [unfold d; lia|].
    destruct (Z.le_gt_cases d 53); [done|].
    assert (2 ^ 53 <= 2 ^ (d - 1)) by (apply Z.pow_le_mono_r; lia). lia. }
  assert (Hfexp : fexp prec emax (d + 0) = d - 53).
  { unfold fexp, SpecFloat.emin, prec, emax. lia. }
  rewrite Hfexp. unfold shl_align.
  assert (Hround : forall mz ez, Zpos (digits2_pos mz) = 53 -> -1074 <= ez <= 971 ->
             binary_round_aux prec emax false (Zpos mz) ez loc_Exact = S754_finite false mz ez).
  { intros mz ez Hmz Hez. unfold binary_round_aux, shr_fexp. simpl Zdigits2. rewrite Hmz.
    assert (fexp prec emax (53 + ez) - ez = 0) as -> by (unfold fexp, SpecFloat.emin, prec, emax; lia).
    cbn [shr shr_record_of_loc shr_m loc_of_shr_record round_nearest_even Zdigits2].
    rewrite Hmz.
    assert (fexp prec emax (53 + ez) - ez = 0) as -> by (unfold fexp, SpecFloat.emin, prec, emax; lia).
    cbn [shr shr_record_of_loc shr_m]. unfold emax, prec.
    destruct (Z.leb_spec ez (1024 - 53)); [reflexivity|lia]. }
  destruct (d - 53 - 0) as [|k|k] eqn:Ek; try lia.
  - assert (Hd53 : d = 53) by lia. rewrite Hround; [|exact Hd53|lia].
    rewrite Hd53 in Hw, Hb. change (2 ^ (53 - 1)) with (2 ^ 52) in Hw.
    exists p, 0. split; [f_equal; lia|].
    split; [lia|]. split; [lia|]. simpl. lia.
  - assert (Hk : Zpos k = 53 - d) by lia.
    assert (Hv := iter_xO_value p k). rewrite Hk in Hv.
    assert (Hp : 2 ^ (53 - d) * 2 ^ d = 2 ^ 53) by (rewrite <- Z.pow_add_r by lia; f_equal; lia).
    assert (Hp' : 2 ^ (53 - d) * 2 ^ (d - 1) = 2 ^ 52) by (rewrite <- Z.pow_add_r by lia; f_equal; lia).
    assert (0 < 2 ^ (53 - d)) by (apply Z.pow_pos_nonneg; lia).
    assert (Hrange : 2 ^ 52 <= Zpos (Pos.iter xO p k) < 2 ^ 53).
    { rewrite Hv. nia. }
    rewrite Hround; [| |lia].
    + exists (Pos.iter xO p k), (d - 53). split; [reflexivity|].
      repeat split; try lia. rewrite Hv. f_equal. f_equal. lia.
    + apply digits2_unique. exact Hrange.
Qed.

Lemma shr_1_m (mrs : shr_record) :
  0 <= shr_m mrs -> shr_m (shr_1 mrs) = shr_m mrs / 2.
Proof.
  destruct mrs as [m r s]. simpl. intros Hm.
  destruct m as [|[p|p|]|p]; cbn [shr_m]; try lia; try reflexivity.
  - apply (Z.div_unique _ _ _ 1); lia.
  - apply (Z.div_unique _ _ _ 0); lia.
Qed.

Lemma iter_shr_m (p : positive) (mrs : shr_record) :
  0 <= shr_m mrs -> shr_m (SpecFloat.iter_pos shr_1 p mrs) = shr_m mrs / 2 ^ Zpos p.
Proof.
  revert mrs.
  assert (Hnn : forall mrs, 0 <= shr_m mrs -> 0 <= shr_m (shr_1 mrs)).
  { intros mrs H. rewrite shr_1_m by exact H. apply Z.div_pos; lia. }
  induction p as [p IH|p IH|]; intros mrs Hm; simpl SpecFloat.iter_pos.
  - assert (Hp : 2 * 2 ^ Zpos p * 2 ^ Zpos p = 2 ^ Zpos p~1).
    { replace (Zpos p~1) with (1 + Zpos p + Zpos p) by lia.
      rewrite !Z.pow_add_r by lia. reflexivity. }
    assert (0 < 2 ^ Zpos p) by (apply Z.pow_pos_nonneg; lia).
    rewrite IH, IH, shr_1_m; auto.
    + rewrite !Z.div_div by lia. f_equal. rewrite <- Hp. ring.
    + rewrite IH by auto. apply Z.div_pos; [auto|lia].
  - assert (Hp : 2 ^ Zpos p * 2 ^ Zpos p = 2 ^ Zpos p~0).
    { replace (Zpos p~0) with (Zpos p + Zpos p) by lia.
      rewrite !Z.pow_add_r by lia. reflexivity. }
    assert (0 < 2 ^ Zpos p) by (apply Z.pow_pos_nonneg; lia).
    rewrite IH, IH; auto.
    + rewrite !Z.div_div by lia. f_equal. rewrite <- Hp. ring.
    + rewrite IH by auto. apply Z.div_pos; [auto|lia].
  - rewrite shr_1_m by exact Hm. reflexivity.
Qed.

Lemma shr_record_of_loc_m (m : Z) (l : location) : shr_m (shr_record_of_loc m l) = m.
Proof. destruct l as [|[]]; reflexivity. Qed.

Lemma mod_pow_split (m a b : Z) :
  0 <= a -> 0 <= b -> m mod 2 ^ (a + b) = 0 ->
  m mod 2 ^ a = 0 /\ (m / 2 ^ a) mod 2 ^ b = 0.
Proof.
  intros Ha Hb H.
  assert (Pa : 0 < 2 ^ a) by (apply Z.pow_pos_nonneg; lia).
  assert (Pb : 0 < 2 ^ b) by (apply Z.pow_pos_nonneg; lia).
  apply Z.mod_divide in H; [|rewrite Z.pow_add_r by lia; lia].
  destruct H as [c Hc]. rewrite Z.pow_add_r in Hc by lia.
  split.
  - apply Z.mod_divide; [lia|]. exists (c * 2 ^ b). lia.
  - replace m with (c * 2 ^ b * 2 ^ a) by lia. rewrite Z.div_mul by lia.
    apply Z.mod_mul. lia.
Qed.

Lemma shr_1_inexact (mrs : shr_record) :
  0 <= shr_m mrs -> inexact (shr_1 mrs) = true ->
  shr_m mrs mod 2 <> 0 \/ inexact mrs = true.
Proof.
  destruct mrs as [m r s]. unfold inexact. cbn [shr_m shr_r shr_s]. intros Hm.
  destruct m as [|[p|p|]|p]; cbn [shr_1 shr_r shr_s]; try lia; intros H.
  - right. exact H.
  - left. rewrite Pos2Z.inj_xI. rewrite Z.add_comm, Z.mul_comm, Z.mod_add by lia. discriminate.
  - right. exact H.
  - left. discriminate.
Qed.

Lemma iter_shr_inexact (p : positive) (mrs : shr_record) :
  0 <= shr_m mrs -> inexact (SpecFloat.iter_pos shr_1 p mrs) = true ->
  shr_m mrs mod 2 ^ Zpos p <> 0 \/ inexact mrs = true.
Proof.
  revert mrs.
  assert (Hnn : forall mrs, 0 <= shr_m mrs -> 0 <= shr_m (shr_1 mrs)).
  { intros mrs H. rewrite shr_1_m by exact H. apply Z.div_pos; lia. }
  assert (Hnn' : forall q mrs, 0 <= shr_m mrs -> 0 <= shr_m (SpecFloat.iter_pos shr_1 q mrs)).
  { intros q mrs H. rewrite iter_shr_m by exact H. apply Z.div_pos; [exact H|].
    apply Z.pow_pos_nonneg; lia. }
  induction p as [p IH|p IH|]; intros mrs Hm; simpl SpecFloat.iter_pos; intros H.
  - apply IH in H; [|auto].
    replace (Zpos p~1) with (1 + (Zpos p + Zpos p)) by lia.
    destruct H as [H|H].
    + left. intros Hz. apply H.
      rewrite iter_shr_m, shr_1_m by auto.
      apply mod_pow_split in Hz as [_ Hz]; [|lia|lia]. change (2 ^ 1) with 2 in Hz.
      apply mod_pow_split in Hz as [_ Hz]; [|lia|lia]. exact Hz.
    + apply IH in H; [|auto]. destruct H as [H|H].
      * left. intros Hz. apply H. rewrite shr_1_m by auto.
        apply mod_pow_split in Hz as [_ Hz]; [|lia|lia]. change (2 ^ 1) with 2 in Hz.
        apply mod_pow_split in Hz as [Hz _]; [|lia|lia]. exact Hz.
      * apply shr_1_inexact in H; [|auto]. destruct H as [H|H]; [|right; exact H].
        left. intros Hz. apply H.
        apply mod_pow_split in Hz as [Hz _]; [|lia|lia]. exact Hz.
  - apply IH in H; [|auto].
    replace (Zpos p~0) with (Zpos p + Zpos p) by lia.
    destruct H as [H|H].
    + left. intros Hz. apply H. rewrite iter_shr_m by auto.
      apply mod_pow_split in Hz as [_ Hz]; [|lia|lia]. exact Hz.
    + apply IH in H; [|auto]. destruct H as [H|H]; [|right; exact H].
      left. intros Hz. apply H.
      apply mod_pow_split in Hz as [Hz _]; [|lia|lia]. exact Hz.
  - apply shr_1_inexact in H; [|auto]. exact H.
Qed.

Lemma inexact_of_loc (m : Z) (l : location) :
  inexact (shr_record_of_loc m l) = true -> locSlack l = 1.
Proof. destruct l as [|[]]; cbn; intros H; try reflexivity; discriminate. Qed.

Lemma loc_slack_inexact (mrs : shr_record) :
  locSlack (loc_of_shr_record mrs) = if inexact mrs then 1 else 0.
Proof. destruct mrs as [m [] []]; reflexivity. Qed.

Lemma loc_of_shr_record_of_loc (m : Z) (l : location) :
  loc_of_shr_record (shr_record_of_loc m l) = l.
Proof. destruct l as [|[]]; reflexivity. Qed.

(** The shift of [shr_fexp]: the mantissa is divided by [2^sh], and the
    location is inexact only if some bit was lost or was lost before. *)
Lemma shr_fexp_loc (m e : Z) (l : location) :
  0 <= m ->
  exists mrs,
    shr_fexp prec emax m e l =
      (mrs, e + Z.max 0 (fexp prec emax (Zdigits2 m + e) - e)) /\
    shr_m mrs = m / 2 ^ Z.max 0 (fexp prec emax (Zdigits2 m + e) - e) /\
    (locSlack (loc_of_shr_record mrs) = 1 ->
     m mod 2 ^ Z.max 0 (fexp prec emax (Zdigits2 m + e) - e) <> 0 \/ locSlack l = 1).
Proof.
  intros Hm. unfold shr_fexp, shr.
  destruct (fexp prec emax (Zdigits2 m + e) - e) as [|p|p].
  - eexists. split; [f_equal; simpl; lia|]. rewrite shr_record_of_loc_m. simpl.
    rewrite Z.div_1_r. split; [reflexivity|]. rewrite loc_of_shr_record_of_loc. auto.
  - eexists. split; [f_equal; simpl; lia|]. rewrite iter_shr_m by (rewrite shr_record_of_loc_m; exact Hm).
    rewrite shr_record_of_loc_m. split; [reflexivity|].
    rewrite loc_slack_inexact. intros H.
    destruct (inexact _) eqn:E; [|discriminate].
    apply iter_shr_inexact in E; [|rewrite shr_record_of_loc_m; exact Hm].
    rewrite shr_record_of_loc_m in E. destruct E as [E|E]; [left; exact E|].
    right. apply (inexact_of_loc m). exact E.
  - eexists. split; [f_equal; simpl; lia|]. rewrite shr_record_of_loc_m. simpl.
    rewrite Z.div_1_r. split; [reflexivity|]. rewrite loc_of_shr_record_of_loc. auto.
Qed.

Lemma round_nearest_even_slack (m : Z) (l : location) :
  m <= round_nearest_even m l <= m + locSlack l.
Proof.
  unfold round_nearest_even, locSlack. destruct l as [|[]]; try destruct (Z.even m); lia.
Qed.

Lemma Zdigits2_bounds (m : Z) :
  0 < m -> 2 ^ (Zdigits2 m - 1) <= m < 2 ^ Zdigits2 m.
Proof.
  destruct m as [|p|p]; try lia. intros _. simpl Zdigits2.
  split; [apply digits2_pos_lower|apply digits2_pos_bound].
Qed.

(** The exponent that [shr_fexp] reaches stays below that of any valid
    float at or above the value. *)
Lemma shift_exponent_le (m e : Z) (my : positive) (ey : Z) :
  0 <= m -> Zpos my < 2 ^ 53 -> -1074 <= ey -> e <= ey ->
  m <= Zpos my * 2 ^ (ey - e) ->
  e + Z.max 0 (fexp prec emax (Zdigits2 m + e) - e) <= ey.
Proof.
  intros Hm Hmy Hey He Hle. unfold fexp, SpecFloat.emin, prec, emax.
  destruct (Z.eq_dec m 0) as [->|Hnz]; [simpl Zdigits2; lia|].
  pose proof (Zdigits2_bounds m ltac:(lia)) as [Hd _].
  assert (Hpow : 2 ^ (Zdigits2 m - 1) < 2 ^ (53 + (ey - e))).
  { rewrite Z.pow_add_r by lia.
    assert (0 < 2 ^ (ey - e)) by (apply Z.pow_pos_nonneg; lia). nia. }
  assert (Zdigits2 m - 1 < 53 + (ey - e)).
  { apply (Z.pow_lt_mono_r_iff 2); [lia|lia|exact Hpow]. }
  lia.
Qed.

(** Rounding to nearest never passes a valid float that is at or above the
    value rounded. *)
Lemma round_aux_le (M e : Z) (l : location) (my : positive) (ey : Z) :
  0 <= M -> Zpos my < 2 ^ 53 -> -1074 <= ey <= 971 -> e <= ey ->
  M + locSlack l <= Zpos my * 2 ^ (ey - e) ->
  binary_round_aux prec emax false M e l = S754_zero false \/
  exists mr er,
    binary_round_aux prec emax false M e l = S754_finite false mr er /\
    er <= ey /\ Zpos mr <= Zpos my * 2 ^ (ey - er).
Proof.
  intros HM Hmy Hey He Hle.
  assert (Hslack : 0 <= locSlack l) by (destruct l; simpl; lia).
  unfold binary_round_aux.
  destruct (shr_fexp_loc M e l HM) as (mrs1 & E1 & Hm1 & Hloc1). rewrite E1.
  set (sh := Z.max 0 (fexp prec emax (Zdigits2 M + e) - e)) in *.
  assert (Hsh : 0 <= sh) by (unfold sh; lia).
  assert (He1 : e + sh <= ey) by (apply (shift_exponent_le M e my ey); lia).
  assert (P2 : 0 < 2 ^ sh) by (apply Z.pow_pos_nonneg; lia).
  assert (HY : 2 ^ (ey - e) = 2 ^ (ey - (e + sh)) * 2 ^ sh).
  { rewrite <- Z.pow_add_r by lia. f_equal; lia. }
  set (Y1 := Zpos my * 2 ^ (ey - (e + sh))).
  assert (HY1 : Zpos my * 2 ^ (ey - e) = Y1 * 2 ^ sh) by (unfold Y1; rewrite HY; lia).
  rewrite HY1 in Hle.
  set (m1 := shr_m mrs1) in *.
  pose proof (Z.div_mod M (2 ^ sh) ltac:(lia)) as Hdm.
  pose proof (Z.mod_pos_bound M (2 ^ sh) P2) as Hmb.
  rewrite <- Hm1 in Hdm.
  assert (Hm1nn : 0 <= m1) by (rewrite Hm1; apply Z.div_pos; lia).
  assert (Hm1le : m1 + locSlack (loc_of_shr_record mrs1) <= Y1).
  { assert (Hs1 : locSlack (loc_of_shr_record mrs1) = 0 \/
                  locSlack (loc_of_shr_record mrs1) = 1)
      by (destruct (loc_of_shr_record mrs1); simpl; auto).
    destruct Hs1 as [Hs1|Hs1]; rewrite Hs1.
    - nia.
    - destruct (Hloc1 Hs1) as [Hrem|Hl]; nia. }
  set (m2 := round_nearest_even m1 (loc_of_shr_record mrs1)).
  pose proof (round_nearest_even_slack m1 (loc_of_shr_record mrs1)) as Hm2. fold m2 in Hm2.
  assert (Hm2nn : 0 <= m2) by lia.
  destruct (shr_fexp_loc m2 (e + sh) loc_Exact Hm2nn) as (mrs2 & E2 & Hm3 & _). rewrite E2.
  set (sh2 := Z.max 0 (fexp prec emax (Zdigits2 m2 + (e + sh)) - (e + sh))) in *.
  assert (Hsh2 : 0 <= sh2) by (unfold sh2; lia).
  assert (He3 : e + sh + sh2 <= ey) by (apply (shift_exponent_le m2 (e + sh) my ey); unfold Y1 in *; lia).
  assert (P3 : 0 < 2 ^ sh2) by (apply Z.pow_pos_nonneg; lia).
  assert (HY3 : 2 ^ (ey - (e + sh)) = 2 ^ (ey - (e + sh + sh2)) * 2 ^ sh2).
  { rewrite <- Z.pow_add_r by lia. f_equal; lia. }
  assert (Hm3le : shr_m mrs2 <= Zpos my * 2 ^ (ey - (e + sh + sh2))).
  { rewrite Hm3. apply Z.div_le_upper_bound; [lia|].
    unfold Y1 in Hm1le. rewrite HY3 in Hm1le. lia. }
  assert (Hm3nn : 0 <= shr_m mrs2) by (rewrite Hm3; apply Z.div_pos; lia).
  destruct (shr_m mrs2) as [|mr|mr]; [left; reflexivity| |lia].
  right. unfold emax, prec.
  destruct (Z.leb_spec (e + sh + sh2) (1024 - 53)); [|lia].
  exists mr, (e + sh + sh2). split; [reflexivity|]. split; [exact He3|exact Hm3le].
Qed.

(** The order of two finite positive floats, read on their values. *)
Lemma ord_le_value (x y : float) (mx : positive) (ex : Z) (my : positive) (ey : Z) :
  Prim2SF x = S754_finite false mx ex ->
  Prim2SF y = S754_finite false my ey ->
  2 ^ 52 <= Zpos my ->
  (x <=? y)%float = true ->
  ex <= ey /\ Zpos mx <= Zpos my * 2 ^ (ey - ex).
Proof.
  intros Hx Hy Hnorm Hle.
  pose proof (Prim2SF_valid x) as Vx. rewrite Hx in Vx. apply valid_finite_bounds in Vx.
  pose proof (Prim2SF_valid y) as Vy. rewrite Hy in Vy. apply valid_finite_bounds in Vy.
  rewrite leb_ord in Hle.
  destruct (IsNaN x); [discriminate|]. destruct (IsNaN y); [discriminate|].
  cbn [negb andb] in Hle. apply Z.leb_le in Hle. unfold ordf in Hle.
  rewrite Hx, Hy in Hle. cbn [ord cond_Zopp] in Hle.
  assert (P52 : 2 ^ 52 = 4503599627370496) by reflexivity.
  assert (P53 : 2 ^ 53 = 9007199254740992) by reflexivity.
  assert (Hcase : ex < ey \/ (ex = ey /\ Zpos mx <= Zpos my)) by lia.
  destruct Hcase as [Hlt|[-> Hm]].
  - split; [lia|]. assert (2 ^ 1 <= 2 ^ (ey - ex)) by (apply Z.pow_le_mono_r; lia).
    change (2 ^ 1) with 2 in *. nia.
  - split; [lia|]. rewrite Z.sub_diag. simpl. lia.
Qed.

(** A float between [0] and a positive bound is a zero or finite positive. *)
Lemma between_zero_and (x y : float) (my : positive) (ey : Z) :
  Prim2SF y = S754_finite false my ey ->
  (0 <=? x)%float = true -> (x <=? y)%float = true ->
  (exists s, Prim2SF x = S754_zero s) \/
  (exists mx ex, Prim2SF x = S754_finite false mx ex).
Proof.
  intros Hy H0 Hle. rewrite leb_ord in H0, Hle.
  destruct (IsNaN x) eqn:Nx; [rewrite andb_false_r in H0; discriminate|].
  destruct (IsNaN y); [rewrite andb_false_r in Hle; discriminate|].
  change (IsNaN 0) with false in H0. change (ordf 0) with 0 in H0.
  cbn [negb andb] in H0, Hle. apply Z.leb_le in H0, Hle.
  pose proof (Prim2SF_valid x) as Vx.
  pose proof (Prim2SF_valid y) as Vy. rewrite Hy in Vy. apply valid_finite_bounds in Vy.
  unfold ordf in *. rewrite Hy in Hle. cbn [ord cond_Zopp] in Hle.
  assert (P53 : 2 ^ 53 = 9007199254740992) by reflexivity.
  destruct (Prim2SF x) as [s|s| |s m e] eqn:Ex.
  - left. eauto.
  - exfalso. unfold ord, cond_Zopp in *. destruct s; lia.
  - apply IsNaN_false in Nx. congruence.
  - right. apply valid_finite_bounds in Vx. unfold ord, cond_Zopp in *.
    destruct s; [lia|eauto].
Qed.

(** The fraction [p / 100] of a percentile [p] between 0 and 100 is a zero
    or a finite positive value that does not exceed 1. *)
Lemma fraction_at_most_one (p : float) :
  (0 <=? p)%float = true -> (p <=? 100)%float = true ->
  (exists s, Prim2SF (p / 100)%float = S754_zero s) \/
  (exists mq efr, Prim2SF (p / 100)%float = S754_finite false mq efr /\
                 efr <= -52 /\ Zpos mq <= 2 ^ (- efr)).
Proof.
  intros H0 H100.
  assert (Hh : Prim2SF 100 = S754_finite false 7036874417766400 (-46)) by reflexivity.
  rewrite FloatAxioms.div_spec, Hh.
  destruct (between_zero_and p 100 _ _ Hh H0 H100) as [[s Hs]|(mp & ep & Hp)].
  - left. rewrite Hs. eexists. reflexivity.
  - destruct (ord_le_value p 100 mp ep _ _ Hp Hh ltac:(vm_compute; discriminate) H100)
      as [Hep Hmp].
    rewrite Hp. unfold SF64div, SFdiv, SFdiv_core_binary. cbn [xorb].
    change (Zdigits2 7036874417766400) with 53.
    set (d1 := Zdigits2 (Zpos mp)).
    set (e' := Z.min (fexp prec emax (d1 + ep - (53 + -46))) (ep - -46)).
    set (s := ep - -46 - e').
    set (m' := match s with Zpos _ => Z.shiftl (Zpos mp) s | 0 => Zpos mp | Zneg _ => 0 end).
    assert (Hs : 0 <= s) by (unfold s, e'; lia).
    assert (Hm' : m' = Zpos mp * 2 ^ s).
    { unfold m'. destruct s as [|k|k] eqn:Es; [simpl; lia| |lia].
      rewrite Z.shiftl_mul_pow2 by lia. reflexivity. }
    pose proof (Zdigits2_bounds (Zpos mp) ltac:(lia)) as [Hd _]. fold d1 in Hd.
    assert (P53 : 2 ^ 53 = 9007199254740992) by reflexivity.
    assert (Hd1 : d1 + ep <= 7).
    { assert (Hpow : 2 ^ (d1 - 1) < 2 ^ (53 + (-46 - ep))).
      { rewrite Z.pow_add_r by lia.
        assert (0 < 2 ^ (-46 - ep)) by (apply Z.pow_pos_nonneg; lia). nia. }
      assert (d1 - 1 < 53 + (-46 - ep)); [|lia].
      apply (Z.pow_lt_mono_r_iff 2); [lia|lia|exact Hpow]. }
    assert (He' : e' <= -52).
    { unfold e', fexp, SpecFloat.emin, prec, emax. lia. }
    assert (Hbound : m' <= 7036874417766400 * 2 ^ (- e')).
    { rewrite Hm'. replace (- e') with ((-46 - ep) + s) by (unfold s; lia).
      rewrite Z.pow_add_r by lia.
      assert (0 < 2 ^ s) by (apply Z.pow_pos_nonneg; lia). nia. }
    assert (Hm'nn : 0 <= m') by (rewrite Hm'; assert (0 < 2 ^ s) by (apply Z.pow_pos_nonneg; lia); nia).
    pose proof (Z_div_mod m' 7036874417766400 ltac:(lia)) as Hdiv.
    destruct (Z.div_eucl m' 7036874417766400) as [q r]. destruct Hdiv as [Hdm Hr].
    assert (Hq : 0 <= q) by nia.
    assert (Hloc : locSlack (new_location 7036874417766400 r) = 1 -> r <> 0).
    { unfold new_location. change (Z.even 7036874417766400) with true. cbn iota.
      unfold new_location_even. destruct (Z.eqb_spec r 0) as [->|Hr0]; [discriminate|auto]. }
    assert (Hslack : q + locSlack (new_location 7036874417766400 r) <= 2 ^ (- e')).
    { assert (0 < 2 ^ (- e')) by (apply Z.pow_pos_nonneg; lia).
      assert (Hs1 : locSlack (new_location 7036874417766400 r) = 0 \/
                    locSlack (new_location 7036874417766400 r) = 1)
        by (destruct (new_location 7036874417766400 r); simpl; auto).
      destruct Hs1 as [Hs1|Hs1]; rewrite Hs1; [nia|].
      apply Hloc in Hs1. nia. }
    destruct (round_aux_le q e' (new_location 7036874417766400 r) 4503599627370496 (-52))
      as [Hz|(mq & efr & Hfin & Heq & Hmq)]; try lia.
    + change (Zpos 4503599627370496) with (2 ^ 52).
      rewrite <- Z.pow_add_r by lia. replace (52 + (-52 - e')) with (- e') by lia. exact Hslack.
    + left. rewrite Hz. eauto.
    + right. exists mq, efr. rewrite Hfin. split; [reflexivity|]. split; [exact Heq|].
      change (Zpos 4503599627370496) with (2 ^ 52) in Hmq.
      rewrite <- Z.pow_add_r in Hmq by lia. replace (52 + (-52 - efr)) with (- efr) in Hmq by lia.
      exact Hmq.
Qed.

(** The rank [(p / 100) * float64(z)] of a percentile between 0 and 100
    over [z + 1] values is a zero or a finite positive value that does not
    exceed [z]. *)
Lemma rank_within_positions (p : float) (z : Z) :
  0 <= z < 2 ^ 53 ->
  (0 <=? p)%float = true -> (p <=? 100)%float = true ->
  (exists s, Prim2SF (p / 100 * of_int z)%float = S754_zero s) \/
  (exists mk ek, Prim2SF (p / 100 * of_int z)%float = S754_finite false mk ek /\
                 atMost mk ek z).
Proof.
  intros Hz H0 H100. rewrite FloatAxioms.mul_spec.
  destruct (Z.eq_dec z 0) as [->|Hnz].
  - left. change (Prim2SF (of_int 0)) with (S754_zero false).
    destruct (fraction_at_most_one p H0 H100) as [[s ->]|(mq & efr & -> & _)];
      eexists; reflexivity.
  - destruct (Prim2SF_of_int z ltac:(lia)) as (mx & ex & Hx & Hex & Hmx & Hval).
    rewrite Hx.
    destruct (fraction_at_most_one p H0 H100) as [[s ->]|(mq & efr & -> & Hefr & Hmq)].
    + left. eexists. reflexivity.
    + unfold SF64mul, SFmul. cbn [xorb].
      assert (P53 : 2 ^ 53 = 9007199254740992) by reflexivity.
      destruct (round_aux_le (Zpos (mq * mx)) (efr + ex) loc_Exact mx ex)
        as [Hzero|(mk & ek & Hfin & Hek & Hmk)]; try lia.
      * cbn [locSlack]. replace (ex - (efr + ex)) with (- efr) by lia.
        rewrite Pos2Z.inj_mul. nia.
      * left. rewrite Hzero. eauto.
      * right. exists mk, ek. split; [exact Hfin|]. split; intros Hs.
        -- assert (ek = 0) by lia. assert (ex = 0) by lia. subst ek ex.
           simpl in *. lia.
        -- rewrite Hval in Hmk. rewrite <- Z.mul_assoc, <- Z.pow_add_r in Hmk by lia.
           replace (- ex + (ex - ek)) with (- ek) in Hmk by lia. exact Hmk.
Qed.

Lemma index_is_Some {A} (l : list A) (i : Z) :
  0 <= i < len l -> exists x, index l i = Some x /\ l !! Z.to_nat i = Some x.
Proof.
  intros Hi. unfold index.
  destruct (Z.leb_spec 0 i); [|lia]. destruct (Z.ltb_spec i (len l)); [|lia].
  simpl. destruct (l !! Z.to_nat i) as [x|] eqn:E; [eauto|].
  apply lookup_ge_None in E. unfold len in *. lia.
Qed.

Lemma floor_ceil_at_most (m : positive) (e z : Z) :
  atMost m e z ->
  0 <= floorOf m e <= ceilOf m e /\ ceilOf m e <= z /\
  ceilOf m e <= floorOf m e + 1.
Proof.
  intros [Hp Hn]. unfold floorOf, ceilOf.
  destruct (Z.leb_spec 0 e) as [He|He].
  - specialize (Hp He). assert (0 < 2 ^ e) by (apply Z.pow_pos_nonneg; lia). nia.
  - specialize (Hn He). set (D := 2 ^ (- e)) in *.
    assert (HD : 0 < D) by (apply Z.pow_pos_nonneg; lia).
    pose proof (Z.div_mod (Zpos m) D ltac:(lia)) as E1.
    pose proof (Z.mod_pos_bound (Zpos m) D HD) as B1.
    pose proof (Z.div_mod (- Zpos m) D ltac:(lia)) as E2.
    pose proof (Z.mod_pos_bound (- Zpos m) D HD) as B2.
    assert (0 <= Zpos m / D) by (apply Z.div_pos; lia).
    repeat split; try lia; nia.
Qed.

Lemma to_int_finite (impl_int : float -> Z) (x : float) (m : positive) (e z : Z) :
  Prim2SF x = S754_finite false m e -> atMost m e z -> z < 2 ^ 63 ->
  to_int impl_int x = floorOf m e.
Proof.
  intros Hx Hat Hz. pose proof (floor_ceil_at_most _ _ _ Hat) as (Hf & Hc & _).
  unfold to_int. rewrite Hx. cbn [truncZ cond_Zopp]. fold (floorOf m e).
  unfold int_min, int_max.
  destruct (Z.leb_spec (- 2 ^ 63) (floorOf m e)); [|lia].
  destruct (Z.leb_spec (floorOf m e) (2 ^ 63 - 1)); [reflexivity|lia].
Qed.

Lemma Prim2SF_of_intpart (k : float) (j : Z) :
  0 <= j < 2 ^ 53 ->
  (j = 0 /\ exists s, Prim2SF (of_intpart k j) = S754_zero s) \/
  (0 < j /\ exists m e, Prim2SF (of_intpart k j) = S754_finite false m e /\
                        -52 <= e <= 0 /\ 2 ^ 52 <= Zpos m < 2 ^ 53 /\
                        Zpos m = j * 2 ^ (- e)).
Proof.
  intros Hj. unfold of_intpart. destruct (Z.eqb_spec j 0) as [->|Hne].
  - left. split; [reflexivity|]. destruct (get_sign k); eexists; reflexivity.
  - right. split; [lia|]. apply Prim2SF_of_int. lia.
Qed.

Lemma to_int_of_intpart (impl_int : float -> Z) (k : float) (j : Z) :
  0 <= j < 2 ^ 53 -> to_int impl_int (of_intpart k j) = j.
Proof.
  intros Hj. destruct (Prim2SF_of_intpart k j Hj) as [[-> [s Hs]]|[Hpos (m & e & Hp & He & Hm & Hv)]].
  - unfold to_int. rewrite Hs. reflexivity.
  - assert (P53 : 2 ^ 53 < 2 ^ 63) by reflexivity.
    assert (HD : 0 < 2 ^ (- e)) by (apply Z.pow_pos_nonneg; lia).
    assert (Hfl : floorOf m e = j).
    { unfold floorOf. destruct (Z.leb_spec 0 e).
      - assert (e = 0) as -> by lia. simpl in *. lia.
      - rewrite Hv. apply Z.div_mul. lia. }
    rewrite (to_int_finite impl_int _ m e j Hp); [exact Hfl| |lia].
    split; intros He'.
    + assert (e = 0) as -> by lia. simpl in *. lia.
    + lia.
Qed.

Lemma of_intpart_eqb (k : float) (a b : Z) :
  0 <= a < 2 ^ 53 -> 0 <= b < 2 ^ 53 ->
  (of_intpart k a =? of_intpart k b)%float = (a =? b).
Proof.
  intros Ha Hb. rewrite eqb_ord.
  assert (P53 : 2 ^ 53 = 9007199254740992) by reflexivity.
  assert (Hord : forall j, 0 <= j < 2 ^ 53 ->
            IsNaN (of_intpart k j) = false /\
            ((j = 0 /\ ordf (of_intpart k j) = 0) \/
             (0 < j /\ exists m e, ordf (of_intpart k j) = (e + 1075) * 2 ^ 53 + Zpos m /\
                                   -52 <= e <= 0 /\ 2 ^ 52 <= Zpos m < 2 ^ 53 /\
                                   Zpos m = j * 2 ^ (- e)))).
  { intros j Hj. destruct (Prim2SF_of_intpart k j Hj) as [[-> [s Hs]]|[Hpos (m & e & Hp & He)]].
    - split; [apply IsNaN_false; rewrite Hs; discriminate|]. left. unfold ordf. rewrite Hs. auto.
    - split; [apply IsNaN_false; rewrite Hp; discriminate|]. right. split; [done|].
      exists m, e. unfold ordf. rewrite Hp. auto. }
  destruct (Hord a Ha) as [Na Oa], (Hord b Hb) as [Nb Ob]. rewrite Na, Nb. cbn [negb andb].
  destruct (Z.eqb_spec a b) as [->|Hne]; [apply Z.eqb_refl|].
  apply Z.eqb_neq. intros Heq.
  destruct Oa as [[-> Oa]|[Hpa (ma & ea & Oa & Hea & Hma & Hva)]],
           Ob as [[-> Ob]|[Hpb (mb & eb & Ob & Heb & Hmb & Hvb)]]; try lia.
  assert (ea = eb) by lia. subst eb.
  assert (Zpos ma = Zpos mb) by lia.
  assert (0 < 2 ^ (- ea)) by (apply Z.pow_pos_nonneg; lia). nia.
Qed.

Section PercentileProperties.
Import Cleaner.
Variable impl_int : float -> Z.

Lemma percentile_zero_rank (sorted : list float) (p : float) (s : bool) :
  sorted <> [] ->
  Prim2SF (rankOf sorted p) = S754_zero s ->
  exists v, sorted !! 0%nat = Some v /\ percentile impl_int sorted p = Some v.
Proof.
  intros Hne Hk. unfold percentile. fold (rankOf sorted p).
  destruct (Z.eqb_spec (len sorted) 0) as [Hz|_]; [apply len_zero_iff in Hz; done|].
  unfold Floor, Ceil. rewrite Hk.
  assert (Hnan : IsNaN (rankOf sorted p) = false) by (apply IsNaN_false; rewrite Hk; discriminate).
  rewrite eqb_ord, Hnan, Z.eqb_refl. cbn [negb andb].
  assert (Hi : to_int impl_int (rankOf sorted p) = 0) by (unfold to_int; rewrite Hk; reflexivity).
  rewrite Hi. destruct sorted as [|v rest]; [done|]. exists v. split; reflexivity.
Qed.

Lemma percentile_finite_rank (sorted : list float) (p : float) (mk : positive) (ek : Z) :
  len sorted - 1 < 2 ^ 53 ->
  Prim2SF (rankOf sorted p) = S754_finite false mk ek ->
  atMost mk ek (len sorted - 1) ->
  if floorOf mk ek =? ceilOf mk ek
  then exists v, sorted !! Z.to_nat (floorOf mk ek) = Some v /\
                 percentile impl_int sorted p = Some v
  else exists v0 v1,
         sorted !! Z.to_nat (floorOf mk ek) = Some v0 /\
         sorted !! Z.to_nat (ceilOf mk ek) = Some v1 /\
         percentile impl_int sorted p =
           Some (v0 * (Ceil (rankOf sorted p) - rankOf sorted p)
                 + v1 * (rankOf sorted p - Floor (rankOf sorted p)))%float.
Proof.
  intros Hlen Hk Hat.
  pose proof (floor_ceil_at_most _ _ _ Hat) as (Hf & Hc & Hfc).
  assert (P53 : 2 ^ 53 < 2 ^ 63) by reflexivity.
  assert (Hti : to_int impl_int (rankOf sorted p) = floorOf mk ek).
  { apply (to_int_finite impl_int _ mk ek (len sorted - 1)); [done|done|lia]. }
  destruct (index_is_Some sorted (floorOf mk ek) ltac:(lia)) as (v0 & Hi0 & Hl0).
  destruct (index_is_Some sorted (ceilOf mk ek) ltac:(lia)) as (v1 & Hi1 & Hl1).
  assert (Hnan : IsNaN (rankOf sorted p) = false) by (apply IsNaN_false; rewrite Hk; discriminate).
  unfold percentile. fold (rankOf sorted p).
  destruct (Z.eqb_spec (len sorted) 0) as [Hz|_]; [lia|].
  assert (Heq : (Floor (rankOf sorted p) =? Ceil (rankOf sorted p))%float
                = (floorOf mk ek =? ceilOf mk ek)).
  { unfold Floor, Ceil. rewrite Hk.
    change (floorZ (S754_finite false mk ek)) with (Some (floorOf mk ek)).
    change (ceilZ (S754_finite false mk ek)) with (Some (ceilOf mk ek)).
    unfold default, from_option, id.
    destruct (Z.leb_spec 0 ek) as [Hge|Hlt].
    - rewrite eqb_ord, Hnan, Z.eqb_refl. cbn [negb andb]. symmetry. apply Z.eqb_eq.
      unfold floorOf, ceilOf. destruct (Z.leb_spec 0 ek); [reflexivity|lia].
    - apply of_intpart_eqb; lia. }
  rewrite Heq. destruct (Z.eqb_spec (floorOf mk ek) (ceilOf mk ek)) as [Hint|Hfrac].
  - rewrite Hti. eauto.
  - assert (Hneg : ek < 0).
    { destruct (Z.lt_ge_cases ek 0); [done|]. exfalso. apply Hfrac.
      unfold floorOf, ceilOf. destruct (Z.leb_spec 0 ek); [reflexivity|lia]. }
    assert (Hfl : Floor (rankOf sorted p) = of_intpart (rankOf sorted p) (floorOf mk ek)).
    { unfold Floor. rewrite Hk. destruct (Z.leb_spec 0 ek); [lia|]. reflexivity. }
    assert (Hcl : Ceil (rankOf sorted p) = of_intpart (rankOf sorted p) (ceilOf mk ek)).
    { unfold Ceil. rewrite Hk. destruct (Z.leb_spec 0 ek); [lia|]. reflexivity. }
    exists v0, v1. split; [done|]. split; [done|].
    rewrite Hfl at 1. rewrite to_int_of_intpart by lia. rewrite Hi0. cbn [mbind option_bind].
    rewrite Hcl at 1. rewrite to_int_of_intpart by lia. rewrite Hi1. reflexivity.
Qed.

(** A percentile between 0 and 100 never indexes out of range. *)
Lemma percentile_total (sorted : list float) (p : float) :
  sorted <> [] -> len sorted <= 2 ^ 53 ->
  (0 <=? p)%float = true -> (p <=? 100)%float = true ->
  exists v, percentile impl_int sorted p = Some v.
Proof.
  intros Hne Hlen H0 H100.
  assert (Hpos : 0 < len sorted).
  { pose proof (len_nonneg sorted). destruct (Z.eq_dec (len sorted) 0) as [Hz|]; [|lia].
    apply len_zero_iff in Hz. done. }
  destruct (rank_within_positions p (len sorted - 1) ltac:(lia) H0 H100)
    as [[s Hs]|(mk & ek & Hk & Hat)].
  - destruct (percentile_zero_rank sorted p s Hne Hs) as (v & _ & Hv). eauto.
  - pose proof (percentile_finite_rank sorted p mk ek ltac:(lia) Hk Hat) as H.
    destruct (floorOf mk ek =? ceilOf mk ek).
    + destruct H as (v & _ & Hv). eauto.
    + destruct H as (v0 & v1 & _ & _ & Hv). eauto.
Qed.

End PercentileProperties.

(** ** Package cleaner *)

Section CleanerProperties.
Import Cleaner.
Variable impl_int : float -> Z.

(** The keep-or-count loop shared by the two filters. *)
Lemma fold_keep {A} (keep : A -> bool) (l : list A) (acc : list A) (n : Z) :
  fold_left (fun '(filtered, removedCount) p =>
               if keep p then (filtered ++ [p], removedCount)
               else (filtered, removedCount + 1)) l (acc, n)
  = (acc ++ List.filter keep l, n + (len l - len (List.filter keep l))).
Proof.
  revert acc n. induction l as [|x l IH]; intros acc n.
  - simpl. rewrite app_nil_r. f_equal. unfold len. simpl. lia.
  - cbn [fold_left List.filter]. destruct (keep x).
    + rewrite IH. rewrite <- app_assoc. simpl. f_equal. unfold len. simpl length. lia.
    + rewrite IH. f_equal. unfold len. simpl length. lia.
Qed.

Lemma filter_len_le {A} (f : A -> bool) (l : list A) :
  len (List.filter f l) <= len l.
Proof. unfold len. pose proof (List.filter_length_le f l). lia. Qed.

Lemma filter_sublist {A} (f : A -> bool) (l : list A) :
  sublist (List.filter f l) l.
Proof.
  induction l as [|x l IH]; simpl; [constructor|].
  destruct (f x); [apply sublist_skip|apply sublist_cons]; exact IH.
Qed.

Lemma filter_all {A} (f : A -> bool) (l : list A) :
  (forall x, x ∈ l -> f x = true) -> List.filter f l = l.
Proof.
  induction l as [|x l IH]; intros H; simpl; [reflexivity|].
  rewrite (H x) by (apply elem_of_cons; auto).
  f_equal. apply IH. intros y Hy. apply H, elem_of_cons. auto.
Qed.

Lemma countMissing_missingColumns (p : DataPoint) (cols : list string) :
  countMissing p cols = missingColumns p cols.
Proof.
  unfold countMissing, missingColumns.
  assert (H : forall n, fold_left (fun missing col => if isMissing p col then missing + 1 else missing) cols n
              = n + len (List.filter (absentOrNaN p) cols)).
  { induction cols as [|c cols IH]; intros n; cbn [fold_left List.filter].
    - unfold len. simpl. lia.
    - rewrite IH. unfold isMissing, absentOrNaN.
      destruct (Data p !! c) as [v|]; cbn [from_option].
      + rewrite bool_decide_eq_false_2 by discriminate. cbn [orb].
        destruct (IsNaN v); unfold len; simpl length; lia.
      + rewrite bool_decide_eq_true_2 by reflexivity. cbn [orb]. unfold len; simpl length; lia. }
  rewrite H. lia.
Qed.

Lemma filterMissingData_filter points requiredCols maxMissingPercent :
  filterMissingData impl_int points requiredCols maxMissingPercent =
  (List.filter (fun p => missingColumns p requiredCols
                         <=? maxMissingOf impl_int requiredCols maxMissingPercent) points,
   len points
   - len (List.filter (fun p => missingColumns p requiredCols
                         <=? maxMissingOf impl_int requiredCols maxMissingPercent) points)).
Proof.
  unfold filterMissingData.
  rewrite (fold_keep (fun p => countMissing p requiredCols
                         <=? maxMissingOf impl_int requiredCols maxMissingPercent)).
  cbn [app Z.add].
  assert (E : List.filter (fun p => countMissing p requiredCols
                         <=? maxMissingOf impl_int requiredCols maxMissingPercent) points
            = List.filter (fun p => missingColumns p requiredCols
                         <=? maxMissingOf impl_int requiredCols maxMissingPercent) points).
  { apply List.filter_ext. intros p. rewrite countMissing_missingColumns. reflexivity. }
  rewrite E. reflexivity.
Qed.

Lemma extractColumnValues_present points col :
  extractColumnValues points col = presentValues points col.
Proof.
  unfold extractColumnValues, presentValues.
  assert (H : forall acc,
    fold_left (fun values p =>
       match Data p !! col with
       | Some val => if negb (IsNaN val) then values ++ [val] else values
       | None => values
       end) points acc = acc ++ omap (presentValue col) points).
  { induction points as [|p points IH]; intros acc; cbn [fold_left].
    - cbn. rewrite app_nil_r. reflexivity.
    - rewrite IH. cbn [omap list_omap]. unfold presentValue at 2.
      destruct (Data p !! col) as [v|]; [|reflexivity].
      destruct (IsNaN v); cbn [negb]; [reflexivity|].
      rewrite <- app_assoc. reflexivity. }
  apply H.
Qed.

Lemma presentValues_len_le points col : len (presentValues points col) <= len points.
Proof.
  unfold presentValues, len. induction points as [|p points IH]; cbn [omap list_omap length]; [lia|].
  destruct (presentValue col p); cbn [length]; lia.
Qed.

Lemma insertFloat64_length x l : length (insertFloat64 x l) = S (length l).
Proof.
  induction l as [|y l IH]; simpl; [reflexivity|].
  destruct (float64Less y x); simpl; [rewrite IH|]; reflexivity.
Qed.

Lemma sortFloat64s_len l : len (sortFloat64s l) = len l.
Proof.
  unfold len. f_equal. induction l as [|x l IH]; simpl; [reflexivity|].
  rewrite insertFloat64_length, IH. reflexivity.
Qed.

Lemma calculateIQRBounds_total (values : list float) :
  len values <= 2 ^ 53 -> exists b, calculateIQRBounds impl_int values = Some b.
Proof.
  intros Hlen. unfold calculateIQRBounds.
  destruct (Z.eqb_spec (len values) 0) as [|Hne]; [eauto|].
  assert (Hs : sortFloat64s values <> []).
  { intros E. apply Hne. rewrite <- sortFloat64s_len, E. reflexivity. }
  destruct (percentile_total impl_int (sortFloat64s values) 25) as [q1 ->];
    [exact Hs|rewrite sortFloat64s_len; exact Hlen|reflexivity|reflexivity|].
  destruct (percentile_total impl_int (sortFloat64s values) 75) as [q3 ->];
    [exact Hs|rewrite sortFloat64s_len; exact Hlen|reflexivity|reflexivity|].
  cbn [mbind option_bind]. eauto.
Qed.

Lemma boundsByMethod_total method zThreshold (values : list float) :
  len values <= 2 ^ 53 ->
  exists b, boundsByMethod impl_int method zThreshold values = Some b.
Proof.
  intros Hlen. unfold boundsByMethod.
  destruct (String.eqb method "iqr"); [apply calculateIQRBounds_total; exact Hlen|].
  destruct (String.eqb method "zscore"); [eauto|apply calculateIQRBounds_total; exact Hlen].
Qed.

Lemma outlierBoundsOf_total points cols method zThreshold :
  len points <= 2 ^ 53 ->
  exists b, outlierBoundsOf impl_int points cols method zThreshold = Some b.
Proof.
  intros Hlen. unfold outlierBoundsOf. generalize (∅ : gmap string (float * float)).
  induction cols as [|c cols IH]; intros acc; cbn [fold_left]; [eauto|].
  cbn [mbind option_bind].
  destruct (len (extractColumnValues points c) =? 0); [apply IH|].
  destruct (boundsByMethod_total method zThreshold (extractColumnValues points c)) as [b ->].
  { rewrite extractColumnValues_present. pose proof (presentValues_len_le points c). lia. }
  cbn [mbind option_bind]. apply IH.
Qed.

(** [filterOutliers] keeps a subsequence, chosen sample by sample. *)
Lemma filterOutliers_filter points cols method zThreshold :
  len points <= 2 ^ 53 ->
  exists keep,
    filterOutliers impl_int points cols method zThreshold =
      Some (List.filter keep points, len points - len (List.filter keep points)).
Proof.
  intros Hlen. unfold filterOutliers. destruct (len cols =? 0).
  - exists (fun _ => true). rewrite filter_all by reflexivity. do 2 f_equal. lia.
  - destruct (outlierBoundsOf_total points cols method zThreshold Hlen) as [b ->].
    cbn [mbind option_bind].
    exists (fun p => negb (isOutlier b cols p)).
    rewrite (fold_keep (fun p => negb (isOutlier b cols p))). reflexivity.
Qed.

Lemma afterMissing_filter config points :
  exists keep, afterMissing impl_int config points = List.filter keep points.
Proof.
  unfold afterMissing. destruct (0 <? MaxMissingPercent config)%float.
  - rewrite filterMissingData_filter. eauto.
  - exists (fun _ => true). rewrite filter_all by reflexivity. reflexivity.
Qed.

(** The shape of every result of [CleanDataset]. *)
Lemma CleanDataset_returns (d : Dataset) (config : CleanConfig) :
  len (Points d) <= 2 ^ 53 ->
  exists keep removedMissing removedOutliers,
    let cleaned :=
      if RemoveOutliers config
      then List.filter keep (afterMissing impl_int config (Points d))
      else afterMissing impl_int config (Points d) in
    CleanDataset impl_int (Some d) config =
      Some ({| Points := cleaned;
               Columns := Columns d;
               Metadata :=
                 <["original_points" := MInt (len (Points d))]>
                 (<["cleaned_points" := MInt (len cleaned)]>
                 (<["cleaning_config" := MConfig config]>
                 (<["points_removed" := MInt (len (Points d) - len cleaned)]>
                 (<["removal_percentage" :=
                      MFloat (removalPercentage (len (Points d)) (len cleaned))]> ∅)))) |},
            {| OriginalPoints := len (Points d);
               RemovedMissing := removedMissing;
               RemovedOutliers := removedOutliers;
               FinalPoints := len cleaned |},
            None).
Proof.
  intros Hlen. unfold CleanDataset. cbn [mbind option_bind].
  assert (Hm : exists removedMissing,
    (if (0 <? MaxMissingPercent config)%float
     then filterMissingData impl_int (Points d) (RequiredColumns config) (MaxMissingPercent config)
     else (Points d, 0)) = (afterMissing impl_int config (Points d), removedMissing)).
  { unfold afterMissing. destruct (0 <? MaxMissingPercent config)%float; [|eauto].
    destruct (filterMissingData _ _ _ _) as [a b]. eauto. }
  destruct Hm as [removedMissing ->].
  assert (Hal : len (afterMissing impl_int config (Points d)) <= 2 ^ 53).
  { destruct (afterMissing_filter config (Points d)) as [keep ->].
    pose proof (filter_len_le keep (Points d)). lia. }
  destruct (RemoveOutliers config).
  - destruct (filterOutliers_filter (afterMissing impl_int config (Points d))
                (RequiredColumns config) (OutlierMethod config) (ZScoreThreshold config) Hal)
      as [keep ->].
    cbn [mbind option_bind]. exists keep. eauto.
  - cbn [mbind option_bind]. exists (fun _ => true). eauto.
Qed.

End CleanerProperties.

Section CleanerClaims.
Import Cleaner.

Lemma finite_positive (x : float) :
  (0 <? x)%float = true -> (x <? infinity)%float = true ->
  exists m e, Prim2SF x = S754_finite false m e.
Proof.
  intros H0 Hi. rewrite ltb_ord in H0, Hi.
  destruct (IsNaN x) eqn:Nx; [rewrite andb_false_r in H0; discriminate|].
  change (IsNaN 0) with false in H0. change (ordf 0) with 0 in H0.
  change (IsNaN infinity) with false in Hi.
  change (ordf infinity) with (2047 * 2 ^ 53) in Hi.
  cbn [negb andb] in H0, Hi. apply Z.ltb_lt in H0, Hi.
  pose proof (Prim2SF_valid x) as V. unfold ordf in *.
  destruct (Prim2SF x) as [s|s| |s m e] eqn:E; unfold ord, cond_Zopp in *.
  - lia.
  - destruct s; lia.
  - lia.
  - apply valid_finite_bounds in V. destruct s; [lia|eauto].
Qed.

(** With no required column the budget of a finite percentage is 0. *)
Lemma maxMissingOf_nil (impl_int : float -> Z) (maxMissingPercent : float) :
  (0 <? maxMissingPercent)%float = true ->
  (maxMissingPercent <? infinity)%float = true ->
  maxMissingOf impl_int [] maxMissingPercent = 0.
Proof.
  intros H0 Hi. destruct (finite_positive _ H0 Hi) as (m & e & Hm).
  unfold maxMissingOf. change (of_int (len [])) with 0%float.
  assert (Hmul : Prim2SF (0 * maxMissingPercent)%float = S754_zero false).
  { rewrite FloatAxioms.mul_spec, Hm. reflexivity. }
  assert (Hdiv : Prim2SF (0 * maxMissingPercent / 100)%float = S754_zero false).
  { rewrite FloatAxioms.div_spec, Hmul. reflexivity. }
  unfold Floor. rewrite Hdiv. unfold to_int. rewrite Hdiv. reflexivity.
Qed.

(** [int(math.Floor(x))] of a finite positive [x] below [2^63] is the
    largest integer at most [x], on every platform. *)
Lemma to_int_Floor (impl_int : float -> Z) (x : float) (m : positive) (e : Z) :
  Prim2SF x = S754_finite false m e -> floorOf m e < 2 ^ 63 ->
  to_int impl_int (Floor x) = floorOf m e.
Proof.
  intros Hx Hlt. pose proof (Prim2SF_valid x) as V. rewrite Hx in V.
  apply valid_finite_bounds in V as [Hm He].
  unfold Floor. rewrite Hx. unfold floorOf in *.
  destruct (Z.leb_spec 0 e) as [H0|H0].
  - rewrite (to_int_finite impl_int x m e (Zpos m * 2 ^ e) Hx).
    + unfold floorOf. destruct (Z.leb_spec 0 e); [reflexivity|lia].
    + split; intros; lia.
    + exact Hlt.
  - cbn [floorZ cond_Zopp default from_option id].
    destruct (Z.leb_spec 0 e) as [?|_]; [lia|].
    unfold default, from_option, id. apply to_int_of_intpart.
    assert (HD : 0 < 2 ^ (- e)) by (apply Z.pow_pos_nonneg; lia).
    split; [apply Z.div_pos; lia|].
    apply Z.div_lt_upper_bound; [lia|]. nia.
Qed.

(** C6 (as the code has it): the missing-data filter retains a sample iff
    its count of required columns that are absent or NaN is at most the
    budget [int(math.Floor(float64(len(requiredColumns)) * maxMissingPercent
    / 100))], in the order of the input, and counts the others.  The budget
    is the largest integer at most the binary64 value [share] of the
    product whenever that value is finite, positive and below [2^63].  With
    no required column and a finite positive percentage the budget is 0 and
    every sample is retained.  With no required column and the percentage
    [+Inf] the product [0 * Inf] is NaN and the budget is what the platform
    makes of [int(NaN)]: every sample is retained where that is not
    negative, and none where it is. *)
Theorem missing_filter_budget (impl_int : float -> Z) (points : list DataPoint)
    (requiredColumns : list string) (maxMissingPercent : float) :
  let share := (of_int (len requiredColumns) * maxMissingPercent / 100)%float in
  let budget := to_int impl_int (Floor share) in
  let retained := (filterMissingData impl_int points requiredColumns maxMissingPercent).1 in
  retained = List.filter (fun p => missingColumns p requiredColumns <=? budget) points /\
  (forall p, p ∈ retained <-> p ∈ points /\ missingColumns p requiredColumns <= budget) /\
  (filterMissingData impl_int points requiredColumns maxMissingPercent).2
    = len points - len retained /\
  (forall m e, Prim2SF share = S754_finite false m e -> floorOf m e < 2 ^ 63 ->
               budget = floorOf m e) /\
  (requiredColumns = [] ->
   (0 <? maxMissingPercent)%float = true ->
   (maxMissingPercent <? infinity)%float = true ->
   budget = 0 /\ retained = points) /\
  (requiredColumns = [] -> maxMissingPercent = infinity ->
   budget = impl_int nan /\
   (0 <= impl_int nan -> retained = points) /\
   (impl_int nan < 0 -> retained = [])).
Proof.
  intros share budget retained. subst retained.
  rewrite filterMissingData_filter. cbn [fst snd].
  change (maxMissingOf impl_int requiredColumns maxMissingPercent) with budget.
  split; [reflexivity|]. split; [|split; [reflexivity|split; [|split]]].
  - intros p. rewrite !list_elem_of_In, List.filter_In, Z.leb_le. reflexivity.
  - intros m e Hs Hlt. apply (to_int_Floor impl_int share m e Hs Hlt).
  - intros -> H0 Hi.
    assert (Hb : budget = 0) by (apply maxMissingOf_nil; assumption).
    split; [exact Hb|]. apply filter_all. intros p _. rewrite Hb. reflexivity.
  - intros -> ->.
    assert (Hb : budget = impl_int nan) by reflexivity.
    split; [exact Hb|]. rewrite Hb. change (missingColumns _ []) with 0. split; intros Hn.
    + apply filter_all. intros p _. apply Z.leb_le. exact Hn.
    + induction points as [|p points IH]; [reflexivity|]. cbn [List.filter].
      destruct (Z.leb_spec 0 (impl_int nan)); [lia|exact IH].
Qed.

Lemma missing_filter_budget_witness :
  to_int amd64_int (Floor (of_int (len ([] : list string)) * 50 / 100)%float) = 0 /\
  (filterMissingData amd64_int gazeReadings [] 50).1 = gazeReadings.
Proof.
  apply (missing_filter_budget amd64_int gazeReadings [] 50); reflexivity.
Defined.

(** C6, refuted as stated: with no required column and the percentage
    [+Inf], which is above 0, the budget on amd64 is [int(NaN) = -2^63],
    not 0, and none of the seven samples is retained. *)
Lemma missing_filter_infinite_counterexample :
  (0 <? infinity)%float = true /\
  to_int amd64_int (Floor (of_int (len ([] : list string)) * infinity / 100)%float)
    = - 2 ^ 63 /\
  filterMissingData amd64_int gazeReadings [] infinity = ([], 7).
Proof. repeat split. Qed.

(** C8: with outlier removal enabled the final sample count is at most the
    one with it disabled, all else equal; the enabled result is a
    subsequence of the disabled one (rows are only removed, never added or
    reordered). *)
Theorem outlier_filter_monotone (impl_int : float -> Z) (d : Dataset)
    (config : CleanConfig) :
  len (Points d) <= 2 ^ 53 ->
  exists outOn statsOn outOff statsOff,
    CleanDataset impl_int (Some d) (withRemoveOutliers true config)
      = Some (outOn, statsOn, None) /\
    CleanDataset impl_int (Some d) (withRemoveOutliers false config)
      = Some (outOff, statsOff, None) /\
    FinalPoints statsOn <= FinalPoints statsOff /\
    sublist (Points outOn) (Points outOff).
Proof.
  intros Hlen.
  destruct (CleanDataset_returns impl_int d (withRemoveOutliers true config) Hlen)
    as (keep & rm & ro & Hon).
  destruct (CleanDataset_returns impl_int d (withRemoveOutliers false config) Hlen)
    as (keep' & rm' & ro' & Hoff).
  cbn [RemoveOutliers withRemoveOutliers] in Hon, Hoff.
  eexists _, _, _, _. split; [exact Hon|]. split; [exact Hoff|].
  cbn [FinalPoints Points].
  change (afterMissing impl_int (withRemoveOutliers true config) (Points d))
    with (afterMissing impl_int (withRemoveOutliers false config) (Points d)).
  split; [apply filter_len_le|apply filter_sublist].
Qed.

Lemma outlier_filter_monotone_witness :
  exists outOn statsOn outOff statsOff,
    CleanDataset amd64_int (Some (datasetOf gazeReadings ["x"]))
      (withRemoveOutliers true (cleanConfig ["x"] false "iqr" 50))
      = Some (outOn, statsOn, None) /\
    CleanDataset amd64_int (Some (datasetOf gazeReadings ["x"]))
      (withRemoveOutliers false (cleanConfig ["x"] false "iqr" 50))
      = Some (outOff, statsOff, None) /\
    FinalPoints statsOn <= FinalPoints statsOff /\
    sublist (Points outOn) (Points outOff).
Proof.
  apply (outlier_filter_monotone amd64_int (datasetOf gazeReadings ["x"])
           (cleanConfig ["x"] false "iqr" 50)).
  vm_compute. discriminate.
Defined.

(** C9 (as the code has it): [CleanDataset] returns a cleaned dataset and
    counts with a nil error for every dataset that is not nil and every
    configuration; a dataset with zero samples is accepted and comes back
    empty with a final count of 0, whereas [ClipDataset] and
    [ComputeStats] reject it with the empty-dataset error. *)
Theorem clean_never_errors (impl_int : float -> Z) (d : Dataset) (config : CleanConfig) :
  len (Points d) <= 2 ^ 53 ->
  exists out stats,
    CleanDataset impl_int (Some d) config = Some (out, stats, None) /\
    OriginalPoints stats = len (Points d) /\
    FinalPoints stats = len (Points out) /\
    Columns out = Columns d /\
    sublist (Points out) (Points d) /\
    (Points d = [] ->
     Points out = [] /\ FinalPoints stats = 0 /\
     (forall c, Clipper.ClipDataset (Some d) c
                = Some (None, Clipper.zeroInfo, Some ErrEmptyDataset)) /\
     (forall c, Stats.ComputeStats (Some d) c = Some (None, Some ErrEmptyDataset))).
Proof.
  intros Hlen.
  destruct (CleanDataset_returns impl_int d config Hlen) as (keep & rm & ro & Hret).
  eexists _, _. split; [exact Hret|]. cbn [OriginalPoints FinalPoints Points Columns].
  split; [reflexivity|]. split; [reflexivity|]. split; [reflexivity|].
  destruct (afterMissing_filter impl_int config (Points d)) as [keepM HM].
  assert (Hsub : sublist (if RemoveOutliers config
                          then List.filter keep (afterMissing impl_int config (Points d))
                          else afterMissing impl_int config (Points d)) (Points d)).
  { destruct (RemoveOutliers config).
    - etrans; [apply filter_sublist|]. rewrite HM. apply filter_sublist.
    - rewrite HM. apply filter_sublist. }
  split; [exact Hsub|].
  intros Hnil.
  assert (E : (if RemoveOutliers config
               then List.filter keep (afterMissing impl_int config (Points d))
               else afterMissing impl_int config (Points d)) = []).
  { apply sublist_nil_r. rewrite <- Hnil. exact Hsub. }
  rewrite E. split; [reflexivity|]. split; [reflexivity|].
  split; intros c.
  - unfold Clipper.ClipDataset. rewrite Hnil. reflexivity.
  - unfold Stats.ComputeStats. rewrite Hnil. reflexivity.
Qed.

Lemma clean_never_errors_witness :
  exists out stats,
    CleanDataset amd64_int (Some (datasetOf [] ["x"])) (cleanConfig ["x"] true "iqr" 50)
      = Some (out, stats, None) /\
    OriginalPoints stats = len (Points (datasetOf [] ["x"])) /\
    FinalPoints stats = len (Points out) /\
    Columns out = Columns (datasetOf [] ["x"]) /\
    sublist (Points out) (Points (datasetOf [] ["x"])) /\
    (Points (datasetOf [] ["x"]) = [] ->
     Points out = [] /\ FinalPoints stats = 0 /\
     (forall c, Clipper.ClipDataset (Some (datasetOf [] ["x"])) c
                = Some (None, Clipper.zeroInfo, Some ErrEmptyDataset)) /\
     (forall c, Stats.ComputeStats (Some (datasetOf [] ["x"])) c
                = Some (None, Some ErrEmptyDataset))).
Proof.
  apply (clean_never_errors amd64_int (datasetOf [] ["x"]) (cleanConfig ["x"] true "iqr" 50)).
  vm_compute. discriminate.
Defined.

(** C9, refuted as stated: on a nil dataset [CleanDataset] returns nothing,
    it panics on [len(dataset.Points)], where [ClipDataset] and
    [ComputeStats] return the empty-dataset error. *)
Lemma clean_nil_counterexample :
  CleanDataset amd64_int None (cleanConfig ["x"] true "iqr" 50) = None /\
  Clipper.ClipDataset None (clipBetween 0 1)
    = Some (None, Clipper.zeroInfo, Some ErrEmptyDataset) /\
  Stats.ComputeStats None byBothAxes = Some (None, Some ErrEmptyDataset).
Proof. repeat split. Qed.




End CleanerClaims.

Section PercentileClaim.
Import Cleaner.

(** C3: for every non-empty sequence of length [n] and every percentile [p]
    (a value from 0 to 100), [percentile] computes the rank
    [k = (p/100)*(n-1)] and returns [sorted[k]] when [k] is an integer (its
    floor and ceiling coincide), and otherwise the interpolation
    [sorted[floor k] * (ceil k - k) + sorted[ceil k] * (k - floor k)];
    [percentile([1,2,3,4], 50) = 2.5] and [percentile([1,2,3], 50) = 2]. *)
Theorem percentile_interpolates :
  (forall (impl_int : float -> Z) (sorted : list float) (p : float),
     sorted <> [] -> len sorted <= 2 ^ 53 ->
     (0 <=? p)%float = true -> (p <=? 100)%float = true ->
     exists lo hi : Z,
       floorZ (Prim2SF (rankOf sorted p)) = Some lo /\
       ceilZ (Prim2SF (rankOf sorted p)) = Some hi /\
       0 <= lo <= hi /\ hi < len sorted /\
       if lo =? hi
       then exists v, sorted !! Z.to_nat lo = Some v /\
                      percentile impl_int sorted p = Some v
       else exists v0 v1,
              sorted !! Z.to_nat lo = Some v0 /\
              sorted !! Z.to_nat hi = Some v1 /\
              percentile impl_int sorted p =
                Some (v0 * (Ceil (rankOf sorted p) - rankOf sorted p)
                      + v1 * (rankOf sorted p - Floor (rankOf sorted p)))%float) /\
  (forall impl_int, percentile impl_int oneToFour 50 = Some 2.5%float) /\
  (forall impl_int, percentile impl_int oneToThree 50 = Some 2%float).
Proof.
  split; [|split; intros impl_int; reflexivity].
  intros impl_int sorted p Hne Hlen H0 H100.
  assert (Hpos : 0 < len sorted).
  { pose proof (len_nonneg sorted). destruct (Z.eq_dec (len sorted) 0) as [Hz|]; [|lia].
    apply len_zero_iff in Hz. done. }
  destruct (rank_within_positions p (len sorted - 1) ltac:(lia) H0 H100)
    as [[s Hs]|(mk & ek & Hfin & Hat)]; fold (rankOf sorted p) in *.
  - destruct (percentile_zero_rank impl_int sorted p s Hne Hs) as (v & Hv & Hp).
    exists 0, 0. rewrite Hs. cbn [floorZ ceilZ].
    split; [reflexivity|]. split; [reflexivity|]. split; [lia|]. split; [lia|].
    cbn. eauto.
  - pose proof (percentile_finite_rank impl_int sorted p mk ek ltac:(lia) Hfin Hat) as H.
    pose proof (floor_ceil_at_most _ _ _ Hat) as (Hf & Hc & _).
    exists (floorOf mk ek), (ceilOf mk ek). rewrite Hfin.
    split; [reflexivity|]. split; [reflexivity|]. split; [lia|]. split; [lia|].
    exact H.
Qed.

Lemma percentile_interpolates_witness :
  exists lo hi : Z,
    floorZ (Prim2SF (rankOf oneToFour 50%float)) = Some lo /\
    ceilZ (Prim2SF (rankOf oneToFour 50%float)) = Some hi /\
    0 <= lo <= hi /\ hi < len oneToFour /\
    if lo =? hi
    then exists v, oneToFour !! Z.to_nat lo = Some v /\
                   percentile amd64_int oneToFour 50%float = Some v
    else exists v0 v1,
           oneToFour !! Z.to_nat lo = Some v0 /\
           oneToFour !! Z.to_nat hi = Some v1 /\
           percentile amd64_int oneToFour 50%float =
             Some (v0 * (Ceil (rankOf oneToFour 50%float) - rankOf oneToFour 50%float)
                   + v1 * (rankOf oneToFour 50%float
                           - Floor (rankOf oneToFour 50%float)))%float.
Proof.
  apply (proj1 percentile_interpolates amd64_int oneToFour 50%float).
  - discriminate.
  - vm_compute. discriminate.
  - reflexivity.
  - reflexivity.
Defined.

End PercentileClaim.

(** ** Package stats *)

Section StatsProperties.
Import Stats.

Lemma stats_extract_present points col :
  extractColumnValues points col = presentValues points col.
Proof.
  unfold extractColumnValues, presentValues.
  assert (H : forall acc,
    fold_left (fun values p =>
       match Data p !! col with
       | Some val => if negb (IsNaN val) then values ++ [val] else values
       | None => values
       end) points acc = acc ++ omap (presentValue col) points).
  { induction points as [|p points IH]; intros acc; cbn [fold_left].
    - cbn. rewrite app_nil_r. reflexivity.
    - rewrite IH. cbn [omap list_omap]. unfold presentValue at 2.
      destruct (Data p !! col) as [v|]; [|reflexivity].
      destruct (IsNaN v); cbn [negb]; [reflexivity|].
      rewrite <- app_assoc. reflexivity. }
  apply H.
Qed.

(** The strict extraction holds no NaN. *)
Lemma presentValues_not_nan points col v :
  v ∈ presentValues points col -> IsNaN v = false.
Proof.
  unfold presentValues. rewrite list_elem_of_omap. intros (p & _ & Hp).
  unfold presentValue in Hp. destruct (Data p !! col) as [w|]; [|discriminate].
  destruct (IsNaN w) eqn:E; [discriminate|]. congruence.
Qed.

(** So the NaN branch of the accumulation loop never runs. *)
Lemma accumulate_no_missing (values : list float) acc :
  (forall v, v ∈ values -> IsNaN v = false) ->
  (fold_left accumulate values acc).1.1.1.1 = acc.1.1.1.1.
Proof.
  revert acc. induction values as [|v values IH]; intros acc Hall; [reflexivity|].
  cbn [fold_left]. rewrite IH by (intros w Hw; apply Hall, elem_of_cons; auto).
  destruct acc as [[[[n s] sq] mn] mx]. unfold accumulate.
  rewrite (Hall v) by (apply elem_of_cons; auto). reflexivity.
Qed.

Lemma nonNaN_id (values : list float) :
  (forall v, v ∈ values -> IsNaN v = false) -> nonNaN values = values.
Proof.
  intros Hall. unfold nonNaN.
  assert (H : forall acc,
    fold_left (fun sortedValues v => if negb (IsNaN v) then sortedValues ++ [v] else sortedValues)
              values acc = acc ++ values).
  { induction values as [|v values IH]; intros acc; cbn [fold_left].
    - rewrite app_nil_r. reflexivity.
    - rewrite (Hall v) by (apply elem_of_cons; auto). cbn [negb].
      rewrite IH by (intros w Hw; apply Hall, elem_of_cons; auto).
      rewrite <- app_assoc. reflexivity. }
  apply H.
Qed.

(** The statistics of a column with at least one extracted value: the
    median never indexes out of range, and no value counts as missing. *)
Lemma columnStats_total (col : string) (values : list float) :
  values <> [] -> (forall v, v ∈ values -> IsNaN v = false) ->
  exists stats, columnStats col values = Some stats /\
                Column stats = col /\ Count stats = len values /\ MissingCount stats = 0.
Proof.
  intros Hne Hall. unfold columnStats.
  pose proof (accumulate_no_missing values (0, 0%float, 0%float, Inf 1, Inf (-1)) Hall) as Hm.
  destruct (fold_left accumulate values _) as [[[[n s] sq] mn] mx]. cbn in Hm. subst n.
  rewrite nonNaN_id by exact Hall.
  set (sorted := sortFloat64s values).
  assert (Hlen : len sorted = len values) by apply sortFloat64s_len.
  assert (Hpos : 0 < len values).
  { pose proof (len_nonneg values). destruct (Z.eq_dec (len values) 0) as [Hz|]; [|lia].
    apply len_zero_iff in Hz. done. }
  assert (Hmed : exists median,
    (if Z.rem (len sorted) 2 =? 0
     then a ← index sorted (len sorted ÷ 2 - 1);
          b ← index sorted (len sorted ÷ 2);
          Some ((a + b) / 2)%float
     else index sorted (len sorted ÷ 2)) = Some median).
  { pose proof (Z.quot_rem' (len sorted) 2) as Hqr.
    pose proof (Z.rem_bound_pos (len sorted) 2 ltac:(lia) ltac:(lia)) as Hr.
    destruct (Z.eqb_spec (Z.rem (len sorted) 2) 0) as [Hev|Hodd].
    - destruct (index_is_Some sorted (len sorted ÷ 2 - 1) ltac:(lia)) as (a & -> & _).
      destruct (index_is_Some sorted (len sorted ÷ 2) ltac:(lia)) as (b & -> & _).
      cbn [mbind option_bind]. eauto.
    - destruct (index_is_Some sorted (len sorted ÷ 2) ltac:(lia)) as (b & -> & _). eauto. }
  destruct Hmed as [median ->]. cbn [mbind option_bind].
  destruct (0 <? Sqrt _)%float; eexists; (split; [reflexivity|]); cbn; auto.
Qed.

(** Every entry that [computeColumnStats] reports has [MissingCount] 0 and
    counts exactly the values of the strict extraction. *)
Lemma computeColumnStats_total (d : Dataset) (columns : list string) (config : StatsConfig) :
  exists statsList,
    computeColumnStats d columns config = Some (statsList, None) /\
    forall stats, stats ∈ statsList ->
      Column stats ∈ columns /\
      MissingCount stats = 0 /\
      Count stats = len (presentValues (Points d) (Column stats)).
Proof.
  unfold computeColumnStats.
  assert (H : forall acc,
    (forall stats, stats ∈ acc ->
       Column stats ∈ columns /\ MissingCount stats = 0 /\
       Count stats = len (presentValues (Points d) (Column stats))) ->
    forall cols, (forall c, c ∈ cols -> c ∈ columns) ->
    exists statsList,
      fold_left (statsStep (Points d)) cols (Some acc) = Some statsList /\
      forall stats, stats ∈ statsList ->
        Column stats ∈ columns /\ MissingCount stats = 0 /\
        Count stats = len (presentValues (Points d) (Column stats))).
  { intros acc Hacc cols. revert acc Hacc.
    induction cols as [|c cols IH]; intros acc Hacc Hsub; cbn [fold_left]; [eauto|].
    unfold statsStep at 2. cbn [mbind option_bind]. rewrite stats_extract_present.
    destruct (Z.eqb_spec (len (presentValues (Points d) c)) 0) as [Hz|Hnz].
    - apply IH; [exact Hacc|]. intros c' Hc'. apply Hsub, elem_of_cons. auto.
    - destruct (columnStats_total c (presentValues (Points d) c)) as (stats & -> & Hc & Hn & Hmiss).
      { intros E. apply Hnz. rewrite E. reflexivity. }
      { intros v. apply presentValues_not_nan. }
      cbn [mbind option_bind]. apply IH.
      + intros s Hs. apply elem_of_app in Hs as [Hs|Hs]; [auto|].
        apply list_elem_of_singleton in Hs. subst s. rewrite Hc.
        split; [apply Hsub, elem_of_cons; auto|]. auto.
      + intros c' Hc'. apply Hsub, elem_of_cons. auto. }
  destruct (H [] ltac:(intros s Hs; apply elem_of_nil in Hs; done) columns ltac:(auto))
    as (statsList & -> & Hall).
  cbn [mbind option_bind]. eauto.
Qed.


(** C1, evaluated on the code: the extraction used by [computeColumnStats]
    is the strict one, so in every partition and for every analysed column
    the reported [MissingCount] is 0 and [Count] is the number of values
    that are present and not NaN; a present-but-NaN entry is counted in
    neither.  On the gaze readings, whose third sample holds NaN for "x",
    the entry of "x" has [Count = 6] and [MissingCount = 0]. *)
Theorem stats_present_nan_not_counted :
  (forall (d : Dataset) (columns : list string) (config : StatsConfig),
     exists statsList,
       computeColumnStats d columns config = Some (statsList, None) /\
       forall stats, stats ∈ statsList ->
         MissingCount stats = 0 /\
         Count stats = len (presentValues (Points d) (Column stats))) /\
  presentNaNCount gazeReadings "x" = 1 /\
  len gazeReadings = 7 /\
  exists stats config,
    computeColumnStats (datasetOf gazeReadings ["x"]) ["x"] config
      = Some ([stats], None) /\
    Column stats = "x" /\ Count stats = 6 /\ MissingCount stats = 0.
Proof.
  split.
  - intros d columns config.
    destruct (computeColumnStats_total d columns config) as (l & Hl & Hall).
    exists l. split; [exact Hl|]. intros stats Hs. destruct (Hall stats Hs) as (_ & ? & ?). auto.
  - split; [reflexivity|]. split; [reflexivity|].
    eexists _, {| AnalyzeColumns := ["x"]; ByCondition := false; ByParticipant := false |}.
    split; [vm_compute; reflexivity|]. split; [reflexivity|]. split; reflexivity.
Qed.

(** The key that the code gives a label is the key of the specification. *)
Lemma labelKey_partitionKey (label : string) : partitionKey label = labelKey label.
Proof.
  unfold partitionKey, labelKey. destruct (String.eqb_spec label "") as [->|Hne].
  - reflexivity.
  - destruct (decide (label = "")); [contradiction|reflexivity].
Qed.

(** The map built by [partitionBy] holds, under each key, the samples of
    that key in their order, and no key without a sample. *)
Lemma partitionBy_lookup (label : DataPoint -> string) (points : list DataPoint)
    (key : string) :
  partitionBy label points !! key =
    match samplesOf label key points with
    | [] => None
    | samples => Some samples
    end.
Proof.
  unfold partitionBy, samplesOf.
  induction points as [|x points IH] using rev_ind; [reflexivity|].
  rewrite fold_left_app, List.filter_app. cbn [fold_left List.filter].
  rewrite labelKey_partitionKey.
  set (m := fold_left _ points ∅) in *.
  destruct (decide (labelKey (label x) = key)) as [Heq|Hne].
  - rewrite bool_decide_eq_true_2 by exact Heq. rewrite Heq, lookup_insert_eq, IH.
    destruct (List.filter _ points) as [|y ys]; reflexivity.
  - rewrite bool_decide_eq_false_2 by exact Hne. rewrite lookup_insert_ne by exact Hne.
    rewrite IH, app_nil_r. reflexivity.
Qed.

Lemma samplesOf_nonempty (label : DataPoint -> string) (points : list DataPoint)
    (key : string) :
  samplesOf label key points <> [] <-> exists p, p ∈ points /\ labelKey (label p) = key.
Proof.
  unfold samplesOf. split.
  - intros Hne. destruct (List.filter _ points) as [|p ps] eqn:E; [done|].
    assert (Hin : In p (List.filter (fun p => bool_decide (labelKey (label p) = key)) points))
      by (rewrite E; left; reflexivity).
    apply List.filter_In in Hin as [Hin Hk]. apply bool_decide_eq_true_1 in Hk.
    exists p. split; [apply list_elem_of_In; exact Hin|exact Hk].
  - intros (p & Hp & Hk) E.
    assert (Hin : In p (List.filter (fun p => bool_decide (labelKey (label p) = key)) points)).
    { apply List.filter_In. split; [apply list_elem_of_In; exact Hp|].
      apply bool_decide_eq_true_2. exact Hk. }
    rewrite E in Hin. destruct Hin.
Qed.

Lemma partitionBy_dom (label : DataPoint -> string) (points : list DataPoint) :
  dom (partitionBy label points) = list_to_set ((fun p => labelKey (label p)) <$> points).
Proof.
  apply set_eq. intros key. rewrite elem_of_dom, elem_of_list_to_set, list_elem_of_fmap.
  rewrite partitionBy_lookup.
  pose proof (samplesOf_nonempty label points key) as Hs.
  destruct (samplesOf label key points) as [|y ys].
  - split; [intros [? ?]; discriminate|].
    intros (p & Hk & Hp). exfalso. apply (proj2 Hs); [eauto|reflexivity].
  - split; [|eauto]. intros _. destruct (proj1 Hs ltac:(done)) as (p & Hp & Hk). eauto.
Qed.

(** The loop over the partitions computes the statistics of each one. *)
Lemma partition_fold (d : Dataset) (config : StatsConfig) (wrap : string -> error -> error)
    (l : list (string * list DataPoint)) (acc : gmap string (list ColumnStats)) :
  NoDup l.*1 ->
  exists report,
    fold_left (partitionStep d config wrap) l (Some (inl acc)) = Some (inl report) /\
    (forall key samples, (key, samples) ∈ l ->
       report !! key = Some (partitionStats d config samples)) /\
    (forall key, key ∉ l.*1 -> report !! key = acc !! key).
Proof.
  revert acc. induction l as [|[k v] l IH]; intros acc Hnd.
  - exists acc. split; [reflexivity|]. split; [|auto].
    intros key samples H. apply elem_of_nil in H. done.
  - cbn [fold_left]. unfold partitionStep at 2. cbn [fst snd].
    destruct (computeColumnStats_total {| Points := v; Columns := Columns d; Metadata := ∅ |}
                (AnalyzeColumns config) config) as (stats & Hstats & _).
    rewrite Hstats. cbn [mbind option_bind].
    apply NoDup_cons in Hnd as [Hk Hnd]. cbn [fmap list_fmap fst] in Hk.
    destruct (IH (<[k := stats]> acc) Hnd) as (report & Hfold & Hin & Hout).
    exists report. split; [exact Hfold|]. split.
    + intros key samples Hel. apply elem_of_cons in Hel as [Heq|Hel].
      * inversion Heq; subst key samples. rewrite Hout by exact Hk.
        rewrite lookup_insert_eq. unfold partitionStats, subDatasetOf. rewrite Hstats. reflexivity.
      * apply Hin. exact Hel.
    + intros key Hkey. cbn [fmap list_fmap fst] in Hkey.
      apply not_elem_of_cons in Hkey as [Hne Hkey].
      rewrite Hout by exact Hkey. apply lookup_insert_ne. congruence.
Qed.

Lemma statsOfPartitions_fmap (partitions : gmap string (list DataPoint))
    (d : Dataset) (config : StatsConfig) (wrap : string -> error -> error) :
  statsOfPartitions partitions d config wrap
    = Some (inl (partitionStats d config <$> partitions)).
Proof.
  unfold statsOfPartitions.
  destruct (partition_fold d config wrap (map_to_list partitions) ∅
              (NoDup_fst_map_to_list partitions)) as (report & -> & Hin & Hout).
  do 2 f_equal. apply map_eq. intros key. rewrite lookup_fmap.
  destruct (partitions !! key) as [samples|] eqn:E.
  - cbn. apply Hin. apply elem_of_map_to_list. exact E.
  - cbn. rewrite Hout; [apply lookup_empty|].
    intros Hel. apply list_elem_of_fmap in Hel as ([k v] & Hk & Hel). cbn in Hk. subst k.
    apply elem_of_map_to_list in Hel. congruence.
Qed.


Lemma partitionStats_computed (d : Dataset) (config : StatsConfig) (samples : list DataPoint) :
  computeColumnStats (subDatasetOf d samples) (AnalyzeColumns config) config
    = Some (partitionStats d config samples, None).
Proof.
  unfold partitionStats.
  destruct (computeColumnStats_total (subDatasetOf d samples) (AnalyzeColumns config) config)
    as (stats & -> & _). reflexivity.
Qed.

(** One axis of the report: the keys are the labels that occur, the empty
    one as "unknown", and each key holds the statistics of its samples. *)
Lemma axis_stats (label : DataPoint -> string) (d : Dataset) (config : StatsConfig) :
  let axis := partitionStats d config <$> partitionBy label (Points d) in
  dom axis = list_to_set ((fun p => labelKey (label p)) <$> Points d) /\
  forall key, key ∈ dom axis ->
    samplesOf label key (Points d) <> [] /\
    exists stats,
      axis !! key = Some stats /\
      computeColumnStats (subDatasetOf d (samplesOf label key (Points d)))
                         (AnalyzeColumns config) config = Some (stats, None).
Proof.
  intros axis. subst axis. split.
  - rewrite dom_fmap_L. apply partitionBy_dom.
  - intros key Hkey. rewrite dom_fmap_L in Hkey. apply elem_of_dom in Hkey as [samples Hs].
    rewrite lookup_fmap, Hs. rewrite partitionBy_lookup in Hs.
    destruct (samplesOf label key (Points d)) as [|y ys] eqn:E; [discriminate|].
    inversion Hs; subst samples. split; [discriminate|].
    eexists. split; [reflexivity|]. apply partitionStats_computed.
Qed.

(** C7: for a non-empty dataset, [ComputeStats] with [byCondition] returns a
    report whose condition keys are exactly the condition labels of the
    samples, the empty label as "unknown", each key holding the statistics
    computed over the samples of that key alone; the participant axis is
    computed in the same way over the same samples; an axis that is not
    requested stays empty. *)
Theorem stats_partition_completeness (d : Dataset) (config : StatsConfig) :
  Points d <> [] ->
  exists report,
    ComputeStats (Some d) config = Some (Some report, None) /\
    (ByCondition config = true ->
       dom (ConditionStats report)
         = list_to_set ((fun p => labelKey (Condition p)) <$> Points d) /\
       forall key, key ∈ dom (ConditionStats report) ->
         samplesOf Condition key (Points d) <> [] /\
         exists stats,
           ConditionStats report !! key = Some stats /\
           computeColumnStats (subDatasetOf d (samplesOf Condition key (Points d)))
             (AnalyzeColumns (effectiveStatsConfig d config))
             (effectiveStatsConfig d config) = Some (stats, None)) /\
    (ByParticipant config = true ->
       dom (ParticipantStats report)
         = list_to_set ((fun p => labelKey (ParticipantID p)) <$> Points d) /\
       forall key, key ∈ dom (ParticipantStats report) ->
         samplesOf ParticipantID key (Points d) <> [] /\
         exists stats,
           ParticipantStats report !! key = Some stats /\
           computeColumnStats (subDatasetOf d (samplesOf ParticipantID key (Points d)))
             (AnalyzeColumns (effectiveStatsConfig d config))
             (effectiveStatsConfig d config) = Some (stats, None)) /\
    (ByCondition config = false -> ConditionStats report = ∅) /\
    (ByParticipant config = false -> ParticipantStats report = ∅).
Proof.
  intros Hne. unfold ComputeStats.
  destruct (Z.eqb_spec (len (Points d)) 0) as [Hz|_]; [apply len_zero_iff in Hz; done|].
  fold (effectiveStatsConfig d config).
  set (cfg := effectiveStatsConfig d config).
  assert (Hc : ByCondition cfg = ByCondition config).
  { unfold cfg, effectiveStatsConfig. destruct (len (AnalyzeColumns config) =? 0); reflexivity. }
  assert (Hp : ByParticipant cfg = ByParticipant config).
  { unfold cfg, effectiveStatsConfig. destruct (len (AnalyzeColumns config) =? 0); reflexivity. }
  rewrite Hc, Hp, !statsOfPartitions_fmap.
  destruct (computeColumnStats_total d (AnalyzeColumns cfg) cfg) as (overall & Hov & _).
  rewrite Hov.
  pose proof (axis_stats Condition d cfg) as [Hcd Hcs].
  pose proof (axis_stats ParticipantID d cfg) as [Hpd Hps].
  destruct (ByCondition config), (ByParticipant config);
    cbn [mbind option_bind negb andb];
    (eexists; split; [reflexivity|]); cbn [ConditionStats ParticipantStats];
    (split; [intros Hb; first [discriminate Hb | split; [exact Hcd|exact Hcs]]|]);
    (split; [intros Hb; first [discriminate Hb | split; [exact Hpd|exact Hps]]|]);
    split; intros Hb; first [discriminate Hb | reflexivity].
Qed.

Lemma stats_partition_completeness_witness :
  exists report,
    ComputeStats (Some (datasetOf gazeReadings ["x"])) byBothAxes
      = Some (Some report, None) /\
    (ByCondition byBothAxes = true ->
       dom (ConditionStats report)
         = list_to_set ((fun p => labelKey (Condition p)) <$> gazeReadings) /\
       forall key, key ∈ dom (ConditionStats report) ->
         samplesOf Condition key gazeReadings <> [] /\
         exists stats,
           ConditionStats report !! key = Some stats /\
           computeColumnStats
             (subDatasetOf (datasetOf gazeReadings ["x"])
                           (samplesOf Condition key gazeReadings))
             (AnalyzeColumns (effectiveStatsConfig (datasetOf gazeReadings ["x"]) byBothAxes))
             (effectiveStatsConfig (datasetOf gazeReadings ["x"]) byBothAxes)
             = Some (stats, None)) /\
    (ByParticipant byBothAxes = true ->
       dom (ParticipantStats report)
         = list_to_set ((fun p => labelKey (ParticipantID p)) <$> gazeReadings) /\
       forall key, key ∈ dom (ParticipantStats report) ->
         samplesOf ParticipantID key gazeReadings <> [] /\
         exists stats,
           ParticipantStats report !! key = Some stats /\
           computeColumnStats
             (subDatasetOf (datasetOf gazeReadings ["x"])
                           (samplesOf ParticipantID key gazeReadings))
             (AnalyzeColumns (effectiveStatsConfig (datasetOf gazeReadings ["x"]) byBothAxes))
             (effectiveStatsConfig (datasetOf gazeReadings ["x"]) byBothAxes)
             = Some (stats, None)) /\
    (ByCondition byBothAxes = false -> ConditionStats report = ∅) /\
    (ByParticipant byBothAxes = false -> ParticipantStats report = ∅).
Proof.
  apply (stats_partition_completeness (datasetOf gazeReadings ["x"]) byBothAxes).
  discriminate.
Defined.

(** The partitions of the gaze readings: conditions "A", "B" and, for the
    sample without a label, "unknown"; participants "P1" and "P2". *)
Lemma stats_partition_example :
  exists report,
    ComputeStats (Some (datasetOf gazeReadings ["x"])) byBothAxes
      = Some (Some report, None) /\
    dom (ConditionStats report) = {["A"; "B"; "unknown"]} /\
    dom (ParticipantStats report) = {["P1"; "P2"]}.
Proof.
  unfold ComputeStats. cbn [Points datasetOf]. 
  destruct (Z.eqb_spec (len gazeReadings) 0) as [Hz|_]; [discriminate Hz|].
  rewrite !statsOfPartitions_fmap. cbn [mbind option_bind ByCondition ByParticipant byBothAxes
    AnalyzeColumns negb andb].
  change (len [] =? 0) with true. cbn iota.
  cbn [mbind option_bind ByCondition ByParticipant negb andb].
  eexists. split; [reflexivity|]. cbn [ConditionStats ParticipantStats].
  rewrite !dom_fmap_L, !partitionBy_dom.
  split; apply set_eq; intros k; cbn; set_solver.
Qed.

(** The general part, on the gaze readings. *)
Lemma stats_present_nan_not_counted_witness :
  exists statsList,
    computeColumnStats (datasetOf gazeReadings ["x"]) ["x"] byBothAxes
      = Some (statsList, None) /\
    forall stats, stats ∈ statsList ->
      MissingCount stats = 0 /\
      Count stats = len (presentValues gazeReadings (Column stats)).
Proof.
  apply (proj1 stats_present_nan_not_counted (datasetOf gazeReadings ["x"]) ["x"] byBothAxes).
Defined.

End StatsProperties.

(** ** Further properties of package cleaner *)

(** Multiplying a normal binary64 mantissa by a power of two and lowering
    the exponent by as much rounds to the same value: the rounding is
    exact. *)
Lemma round_aux_exact (m : positive) (e k : Z) :
  2 ^ 52 <= Zpos m < 2 ^ 53 -> -1074 <= e <= 971 -> 0 <= k ->
  binary_round_aux prec emax false (Zpos m * 2 ^ k) (e - k) loc_Exact
    = S754_finite false m e.
Proof.
  intros Hm He Hk.
  assert (P2k : 0 < 2 ^ k) by (apply Z.pow_pos_nonneg; lia).
  assert (HM : 0 < Zpos m * 2 ^ k) by nia.
  assert (Hdig : forall M d, 0 < M -> 2 ^ (d - 1) <= M < 2 ^ d -> 1 <= d -> Zdigits2 M = d).
  { intros M d HM0 [Hlo Hhi] Hd.
    pose proof (Zdigits2_bounds M HM0) as [Hlo' Hhi'].
    assert (Zdigits2 M - 1 < d).
    { apply (Z.pow_lt_mono_r_iff 2); [lia|lia|lia]. }
    destruct (Z_lt_le_dec (Zdigits2 M) 1) as [Hsmall|Hbig].
    - assert (Zdigits2 M <= 0) by lia.
      destruct M; simpl in *; lia.
    - assert (d - 1 < Zdigits2 M).
      { apply (Z.pow_lt_mono_r_iff 2); [lia|lia|lia]. }
      lia. }
  assert (HdM : Zdigits2 (Zpos m * 2 ^ k) = 53 + k).
  { apply Hdig; [lia| |lia].
    replace (53 + k - 1) with (52 + k) by lia.
    rewrite !Z.pow_add_r by lia. nia. }
  assert (Hdm : Zdigits2 (Zpos m) = 53).
  { apply Hdig; [lia| |lia]. exact Hm. }
  unfold binary_round_aux.
  destruct (shr_fexp_loc (Zpos m * 2 ^ k) (e - k) loc_Exact ltac:(lia))
    as (mrs1 & E1 & Hm1 & Hloc1).
  rewrite E1. rewrite HdM in *.
  assert (Hsh : Z.max 0 (fexp prec emax (53 + k + (e - k)) - (e - k)) = k).
  { unfold fexp, SpecFloat.emin, prec, emax. lia. }
  rewrite Hsh in *.
  rewrite Z.div_mul in Hm1 by lia.
  assert (Hs0 : locSlack (loc_of_shr_record mrs1) = 0).
  { destruct (loc_of_shr_record mrs1) eqn:El; [reflexivity|].
    exfalso. destruct (Hloc1 eq_refl) as [Hrem|Hl]; [|discriminate].
    apply Hrem. apply Z.mod_mul. lia. }
  pose proof (round_nearest_even_slack (shr_m mrs1) (loc_of_shr_record mrs1)) as Hr.
  rewrite Hs0, Hm1 in Hr.
  assert (Hr' : round_nearest_even (shr_m mrs1) (loc_of_shr_record mrs1) = Zpos m)
    by (rewrite Hm1; lia).
  rewrite Hr'.
  destruct (shr_fexp_loc (Zpos m) (e - k + k) loc_Exact ltac:(lia))
    as (mrs2 & E2 & Hm2 & _).
  rewrite E2. rewrite Hdm in *.
  assert (Hsh2 : Z.max 0 (fexp prec emax (53 + (e - k + k)) - (e - k + k)) = 0).
  { unfold fexp, SpecFloat.emin, prec, emax. lia. }
  rewrite Hsh2 in *. rewrite Z.div_1_r in Hm2. rewrite Hm2.
  unfold emax, prec.
  destruct (Z.leb_spec (e - k + k + 0) (1024 - 53)); [|lia].
  f_equal. lia.
Qed.

(** [1 * float64(z)] is [float64(z)]. *)
Lemma one_times_of_int (z : Z) :
  0 <= z < 2 ^ 53 -> (100 / 100 * of_int z)%float = of_int z.
Proof.
  intros Hz. apply Prim2SF_inj. rewrite FloatAxioms.mul_spec.
  assert (H1 : Prim2SF (100 / 100) = S754_finite false 4503599627370496 (-52)) by reflexivity.
  rewrite H1.
  destruct (Z.eq_dec z 0) as [->|Hnz]; [reflexivity|].
  destruct (Prim2SF_of_int z ltac:(lia)) as (m & e & Hx & He & Hm & Hv).
  rewrite Hx. unfold SF64mul, SFmul. cbn [xorb].
  rewrite Pos2Z.inj_mul. change (Zpos 4503599627370496) with (2 ^ 52).
  replace (2 ^ 52 * Zpos m) with (Zpos m * 2 ^ 52) by lia.
  replace (-52 + e) with (e - 52) by lia.
  apply round_aux_exact; lia.
Qed.

Lemma zero_times_of_int (z : Z) :
  0 <= z < 2 ^ 53 -> Prim2SF (0 / 100 * of_int z)%float = S754_zero false.
Proof.
  intros Hz. rewrite FloatAxioms.mul_spec.
  assert (H0 : Prim2SF (0 / 100) = S754_zero false) by reflexivity.
  rewrite H0.
  destruct (Z.eq_dec z 0) as [->|Hnz]; [reflexivity|].
  destruct (Prim2SF_of_int z ltac:(lia)) as (m & e & Hx & _).
  rewrite Hx. reflexivity.
Qed.

(** The result of a rounding has the sign it was given. *)
Lemma round_aux_sign (M e : Z) (l : location) :
  match binary_round_aux prec emax false M e l with
  | S754_zero s | S754_infinity s | S754_finite s _ _ => s = false
  | S754_nan => True
  end.
Proof.
  unfold binary_round_aux.
  destruct (shr_fexp prec emax M e l) as [mrs1 e1].
  destruct (shr_fexp prec emax _ e1 loc_Exact) as [mrs2 e2].
  destruct (shr_m mrs2); [reflexivity| |exact I].
  destruct (e2 <=? emax - prec); reflexivity.
Qed.

Lemma Sqrt_not_negative (x : float) : (Sqrt x <? 0)%float = false.
Proof.
  unfold Sqrt. rewrite FloatAxioms.ltb_spec, FloatAxioms.sqrt_spec.
  change (Prim2SF 0) with (S754_zero false).
  unfold SF64sqrt, SFsqrt.
  destruct (Prim2SF x) as [s|[]| |[] m e]; try reflexivity.
  destruct (SFsqrt_core_binary prec emax (Z.pos m) e) as [[mz ez] lz].
  pose proof (round_aux_sign mz ez lz) as Hs.
  destruct (binary_round_aux prec emax false mz ez lz) as [s|s| |s mr er];
    try subst s; reflexivity.
Qed.

Section CleanerExtras.
Import Cleaner.
Variable impl_int : float -> Z.

Lemma filter_filter_same {A} (f : A -> bool) (l : list A) :
  List.filter f (List.filter f l) = List.filter f l.
Proof.
  induction l as [|x l IH]; [reflexivity|]. simpl.
  destruct (f x) eqn:E; simpl; rewrite ?E, IH; reflexivity.
Qed.

(** X1: the missing-data filter is idempotent: applied to the samples it
    has kept, with the same required columns and percentage, it keeps all
    of them and counts no removal. *)
Theorem missing_filter_idempotent (points : list DataPoint)
    (requiredCols : list string) (maxMissingPercent : float) :
  filterMissingData impl_int
    (filterMissingData impl_int points requiredCols maxMissingPercent).1
    requiredCols maxMissingPercent
  = ((filterMissingData impl_int points requiredCols maxMissingPercent).1, 0).
Proof.
  rewrite !filterMissingData_filter. cbn [fst].
  rewrite filter_filter_same. f_equal. lia.
Qed.


(** Nothing removed out of [n] samples is 0 percent. *)
Lemma zero_percent (n : Z) :
  0 < n < 2 ^ 53 -> removalPercentage n n = 0%float.
Proof.
  intros Hn. unfold removalPercentage. rewrite Z.sub_diag.
  apply Prim2SF_inj. rewrite FloatAxioms.mul_spec, FloatAxioms.div_spec.
  change (Prim2SF (of_int 0)) with (S754_zero false).
  destruct (Prim2SF_of_int n Hn) as (m & e & -> & _). reflexivity.
Qed.

(** X2: with the missing-data stage off (a percentage that is not above
    0) and outlier removal off, [CleanDataset] returns the samples and the
    columns unchanged, reports no removal, and records 0 removed points
    and, for a dataset with samples, a removal percentage of 0. *)
Theorem clean_without_filters_keeps_all (d : Dataset) (config : CleanConfig) :
  (0 <? MaxMissingPercent config)%float = false ->
  RemoveOutliers config = false ->
  exists out,
    CleanDataset impl_int (Some d) config
      = Some (out,
              {| OriginalPoints := len (Points d); RemovedMissing := 0;
                 RemovedOutliers := 0; FinalPoints := len (Points d) |},
              None) /\
    Points out = Points d /\ Columns out = Columns d /\
    Metadata out !! "points_removed" = Some (MInt 0) /\
    (0 < len (Points d) < 2 ^ 53 ->
     Metadata out !! "removal_percentage" = Some (MFloat 0)).
Proof.
  intros Hm Ho. unfold CleanDataset. cbn [mbind option_bind].
  rewrite Hm, Ho. cbn [mbind option_bind].
  eexists. split; [reflexivity|]. cbn [Points Columns Metadata].
  split; [reflexivity|]. split; [reflexivity|].
  cbn [Cleaner.OriginalPoints Cleaner.FinalPoints].
  split.
  - rewrite Z.sub_diag. reflexivity.
  - intros Hn. rewrite zero_percent by exact Hn. reflexivity.
Qed.

(** X3: the counts that [CleanDataset] reports add up: the original
    number of samples is the final number plus the two removal counts,
    none of them is negative, and the metadata entries "points_removed"
    and "cleaned_points" hold the sum of the removals and the length of
    the returned sequence. *)
Theorem clean_counts_add_up (d : Dataset) (config : CleanConfig) :
  len (Points d) <= 2 ^ 53 ->
  exists out stats,
    CleanDataset impl_int (Some d) config = Some (out, stats, None) /\
    OriginalPoints stats
      = FinalPoints stats + RemovedMissing stats + RemovedOutliers stats /\
    0 <= RemovedMissing stats /\ 0 <= RemovedOutliers stats /\
    0 <= FinalPoints stats /\
    Metadata out !! "points_removed"
      = Some (MInt (RemovedMissing stats + RemovedOutliers stats)) /\
    Metadata out !! "cleaned_points" = Some (MInt (len (Points out))).
Proof.
  intros Hlen. unfold CleanDataset. cbn [mbind option_bind].
  set (keepM := fun p => missingColumns p (RequiredColumns config)
                 <=? maxMissingOf impl_int (RequiredColumns config) (MaxMissingPercent config)).
  assert (Hm : exists kept removedMissing,
    (if (0 <? MaxMissingPercent config)%float
     then filterMissingData impl_int (Points d) (RequiredColumns config) (MaxMissingPercent config)
     else (Points d, 0)) = (kept, removedMissing) /\
    len (Points d) = len kept + removedMissing /\ 0 <= removedMissing).
  { destruct (0 <? MaxMissingPercent config)%float.
    - rewrite filterMissingData_filter. fold keepM.
      pose proof (filter_len_le keepM (Points d)).
      eexists _, _. split; [reflexivity|]. lia.
    - eexists _, _. split; [reflexivity|]. lia. }
  destruct Hm as (kept & removedMissing & -> & Hsum & Hnn).
  assert (Hk : len kept <= 2 ^ 53) by (pose proof (len_nonneg kept); lia).
  assert (Ho : exists final removedOutliers,
    (if RemoveOutliers config
     then filterOutliers impl_int kept (RequiredColumns config)
            (OutlierMethod config) (ZScoreThreshold config)
     else Some (kept, 0)) = Some (final, removedOutliers) /\
    len kept = len final + removedOutliers /\ 0 <= removedOutliers).
  { destruct (RemoveOutliers config).
    - destruct (filterOutliers_filter impl_int kept (RequiredColumns config)
                  (OutlierMethod config) (ZScoreThreshold config) Hk) as [keep ->].
      pose proof (filter_len_le keep kept).
      eexists _, _. split; [reflexivity|]. lia.
    - eexists _, _. split; [reflexivity|]. lia. }
  destruct Ho as (final & removedOutliers & -> & Hsum2 & Hnn2).
  cbn [mbind option_bind].
  eexists _, _. split; [reflexivity|].
  cbn [Cleaner.OriginalPoints Cleaner.FinalPoints Cleaner.RemovedMissing
       Cleaner.RemovedOutliers Points Metadata].
  pose proof (len_nonneg final).
  split; [lia|]. split; [lia|]. split; [lia|]. split; [lia|].
  split; [|reflexivity].
  rewrite lookup_insert_ne by discriminate.
  rewrite lookup_insert_ne by discriminate.
  rewrite lookup_insert_ne by discriminate.
  rewrite lookup_insert_eq. do 2 f_equal. lia.
Qed.

(** The bounds map of [filterOutliers] has entries only for the checked
    columns that have a value. *)
Lemma outlierBounds_fold_None points method zThreshold (cols : list string) :
  fold_left
    (fun acc col =>
       outlierBounds ← acc;
       let values := extractColumnValues points col in
       if len values =? 0 then Some outlierBounds else
       bounds ← boundsByMethod impl_int method zThreshold values;
       Some (<[col := bounds]> outlierBounds))
    cols (None : go (gmap string (float * float))) = None.
Proof. induction cols as [|c cols IH]; [reflexivity|]. cbn [fold_left mbind option_bind]. exact IH. Qed.

Lemma outlierBoundsOf_dom points cols method zThreshold b :
  outlierBoundsOf impl_int points cols method zThreshold = Some b ->
  forall col lohi, b !! col = Some lohi ->
    col ∈ cols /\ presentValues points col <> [].
Proof.
  unfold outlierBoundsOf.
  assert (H : forall (acc b : gmap string (float * float)),
    fold_left
      (fun acc col =>
         outlierBounds ← acc;
         let values := extractColumnValues points col in
         if len values =? 0 then Some outlierBounds else
         bounds ← boundsByMethod impl_int method zThreshold values;
         Some (<[col := bounds]> outlierBounds))
      cols (Some acc) = Some b ->
    forall col lohi, b !! col = Some lohi ->
      acc !! col = Some lohi \/ (col ∈ cols /\ presentValues points col <> [])).
  { induction cols as [|c cols IH]; intros acc b0 Hf col lohi Hl.
    - cbn in Hf. injection Hf as <-. auto.
    - cbn [fold_left mbind option_bind] in Hf.
      destruct (Z.eqb_spec (len (extractColumnValues points c)) 0) as [Hz|Hnz].
      + destruct (IH _ _ Hf col lohi Hl) as [?|[? ?]]; [auto|].
        right. split; [apply elem_of_cons; auto|done].
      + destruct (boundsByMethod impl_int method zThreshold (extractColumnValues points c))
          as [bounds|]; cbn [mbind option_bind] in Hf.
        * destruct (IH _ _ Hf col lohi Hl) as [Hins|[? ?]].
          -- destruct (decide (c = col)) as [->|Hne].
             ++ right. split; [apply elem_of_cons; auto|].
                rewrite <- extractColumnValues_present. intros E. apply Hnz.
                rewrite E. reflexivity.
             ++ rewrite lookup_insert_ne in Hins by done. auto.
          -- right. split; [apply elem_of_cons; auto|done].
        * rewrite outlierBounds_fold_None in Hf. discriminate. }
  intros Hf col lohi Hl. destruct (H ∅ b Hf col lohi Hl) as [Hempty|?]; [|done].
  rewrite lookup_empty in Hempty. discriminate.
Qed.

Lemma filterOutliers_bounds points cols method zThreshold :
  len points <= 2 ^ 53 ->
  exists b,
    (forall col lohi, b !! col = Some lohi ->
       col ∈ cols /\ presentValues points col <> []) /\
    filterOutliers impl_int points cols method zThreshold =
      Some (List.filter (fun p => negb (isOutlier b cols p)) points,
            len points - len (List.filter (fun p => negb (isOutlier b cols p)) points)).
Proof.
  intros Hlen. unfold filterOutliers.
  destruct (Z.eqb_spec (len cols) 0) as [Hz|Hnz].
  - apply len_zero_iff in Hz. subst cols. exists ∅. split.
    + intros col lohi Hl. rewrite lookup_empty in Hl. discriminate.
    + rewrite filter_all by reflexivity. do 2 f_equal. lia.
  - destruct (outlierBoundsOf_total impl_int points cols method zThreshold Hlen) as [b Hb].
    rewrite Hb. cbn [mbind option_bind]. exists b. split.
    + apply (outlierBoundsOf_dom _ _ _ _ _ Hb).
    + rewrite (fold_keep (fun p => negb (isOutlier b cols p))). reflexivity.
Qed.

Lemma isOutlier_false_iff b cols p :
  isOutlier b cols p = false <->
  forall col lo hi val, col ∈ cols -> b !! col = Some (lo, hi) ->
    Data p !! col = Some val -> (val <? lo)%float = false /\ (hi <? val)%float = false.
Proof.
  unfold isOutlier. induction cols as [|c cols IH]; cbn [existsb].
  - split; [|reflexivity]. intros _ col lo hi val Hin. apply elem_of_nil in Hin. done.
  - rewrite orb_false_iff, IH. split.
    + intros [Hc Hrest] col lo hi val Hin Hb Hv.
      apply elem_of_cons in Hin as [->|Hin]; [|eauto].
      rewrite Hb, Hv in Hc. apply orb_false_iff in Hc. exact Hc.
    + intros H. split.
      * destruct (b !! c) as [[lo hi]|] eqn:Hb; [|reflexivity].
        destruct (Data p !! c) as [val|] eqn:Hv; [|reflexivity].
        destruct (H c lo hi val) as [H1 H2]; [apply elem_of_cons; auto|done|done|].
        unfold gtb. rewrite H1, H2. reflexivity.
      * intros col lo hi val Hin. apply H. apply elem_of_cons. auto.
Qed.

(** X4: [filterOutliers] never panics on up to [2^53] samples; what it
    keeps is a subsequence, the count is the number of samples dropped,
    and a sample is dropped only if, for one of the checked columns, it
    holds a value that is not NaN: a sample whose checked channels are all
    absent or NaN is always kept. *)
Theorem outlier_filter_removes_only_measured (points : list DataPoint)
    (cols : list string) (method : string) (zThreshold : float) :
  len points <= 2 ^ 53 ->
  exists kept removed,
    filterOutliers impl_int points cols method zThreshold = Some (kept, removed) /\
    removed = len points - len kept /\
    sublist kept points /\
    forall p, p ∈ points -> p ∉ kept ->
      exists col val,
        col ∈ cols /\ Data p !! col = Some val /\ IsNaN val = false /\
        presentValues points col <> [].
Proof.
  intros Hlen.
  destruct (filterOutliers_bounds points cols method zThreshold Hlen) as (b & Hdom & ->).
  eexists _, _. split; [reflexivity|]. split; [reflexivity|].
  split; [apply filter_sublist|].
  intros p Hp Hnot.
  assert (Hout : isOutlier b cols p = true).
  { destruct (isOutlier b cols p) eqn:E; [reflexivity|]. exfalso. apply Hnot.
    apply list_elem_of_In, filter_In. split; [apply list_elem_of_In; exact Hp|].
    rewrite E. reflexivity. }
  unfold isOutlier in Hout. apply existsb_exists in Hout as (col & Hin & Hc).
  apply list_elem_of_In in Hin.
  destruct (b !! col) as [[lo hi]|] eqn:Hb; [|discriminate].
  destruct (Data p !! col) as [val|] eqn:Hv; [|discriminate].
  exists col, val. split; [exact Hin|]. split; [exact Hv|]. split.
  - unfold gtb in Hc. rewrite !ltb_ord in Hc.
    destruct (IsNaN val); [|reflexivity].
    rewrite andb_false_r in Hc. cbn in Hc. discriminate.
  - apply (Hdom col _ Hb).
Qed.

(** X5: when none of the checked columns has a value that is present and
    not NaN in any sample (an unknown column name, or no column at all),
    [filterOutliers] returns the samples unchanged and counts no removal. *)
Theorem outlier_filter_without_values (points : list DataPoint)
    (cols : list string) (method : string) (zThreshold : float) :
  (forall col, col ∈ cols -> presentValues points col = []) ->
  filterOutliers impl_int points cols method zThreshold = Some (points, 0).
Proof.
  intros Hnone. unfold filterOutliers.
  destruct (len cols =? 0); [reflexivity|].
  assert (Hb : outlierBoundsOf impl_int points cols method zThreshold = Some ∅).
  { unfold outlierBoundsOf. generalize (∅ : gmap string (float * float)).
    induction cols as [|c cols IH]; intros acc; [reflexivity|].
    cbn [fold_left mbind option_bind].
    rewrite extractColumnValues_present, Hnone by (apply elem_of_cons; auto).
    cbn. apply IH. intros col Hin. apply Hnone, elem_of_cons. auto. }
  rewrite Hb. cbn [mbind option_bind].
  rewrite (fold_keep (fun p => negb (isOutlier ∅ cols p))).
  assert (Hall : List.filter (fun p => negb (isOutlier ∅ cols p)) points = points).
  { apply filter_all. intros p _. apply negb_true_iff.
    apply isOutlier_false_iff. intros col lo hi val _ Hl.
    rewrite lookup_empty in Hl. discriminate. }
  rewrite Hall. cbn [app]. do 2 f_equal. lia.
Qed.

(** X6: [extractColumnValues] returns, in the order of the samples, the
    values of the column that are present and not NaN, and nothing else:
    no NaN is ever extracted, and the result is no longer than the
    samples.  Package [stats] extracts in the same way. *)
Theorem extract_is_strict (points : list DataPoint) (col : string) :
  extractColumnValues points col = omap (presentValue col) points /\
  Stats.extractColumnValues points col = extractColumnValues points col /\
  (forall v, v ∈ extractColumnValues points col <->
     exists p, p ∈ points /\ Data p !! col = Some v /\ IsNaN v = false) /\
  len (extractColumnValues points col) <= len points.
Proof.
  split; [apply extractColumnValues_present|]. split; [reflexivity|].
  rewrite extractColumnValues_present. split; [|apply presentValues_len_le].
  intros v. unfold presentValues. rewrite list_elem_of_omap. unfold presentValue.
  split.
  - intros (p & Hp & Hv). exists p. split; [exact Hp|].
    destruct (Data p !! col) as [w|]; [|discriminate].
    destruct (IsNaN w) eqn:E; [discriminate|]. injection Hv as <-. auto.
  - intros (p & Hp & Hd & Hn). exists p. split; [exact Hp|]. rewrite Hd, Hn. reflexivity.
Qed.

(** X7: on a non-empty sorted sequence of up to [2^53] values,
    [percentile] at 0 is the first value and at 100 the last one. *)
Theorem percentile_endpoints (sorted : list float) :
  sorted <> [] -> len sorted <= 2 ^ 53 ->
  percentile impl_int sorted 0 = sorted !! 0%nat /\
  percentile impl_int sorted 100 = last sorted.
Proof.
  intros Hne Hlen.
  assert (Hpos : 0 < len sorted).
  { pose proof (len_nonneg sorted). destruct (Z.eq_dec (len sorted) 0) as [Hz|]; [|lia].
    apply len_zero_iff in Hz. done. }
  split.
  - destruct (percentile_zero_rank impl_int sorted 0 false Hne) as (v & Hv & ->).
    + unfold rankOf. apply zero_times_of_int. lia.
    + symmetry. exact Hv.
  - rewrite last_lookup.
    assert (Hrank : rankOf sorted 100 = of_int (len sorted - 1)).
    { unfold rankOf. apply one_times_of_int. lia. }
    destruct (Z.eq_dec (len sorted - 1) 0) as [Hz|Hnz].
    + destruct (percentile_zero_rank impl_int sorted 100 false Hne) as (v & Hv & ->).
      * rewrite Hrank, Hz. reflexivity.
      * rewrite <- Hv. f_equal. unfold len in Hz. lia.
    + destruct (Prim2SF_of_int (len sorted - 1) ltac:(lia)) as (m & e & Hx & He & Hm & Hval).
      rewrite <- Hrank in Hx.
      assert (HD : 0 < 2 ^ (- e)) by (apply Z.pow_pos_nonneg; lia).
      assert (Hat : atMost m e (len sorted - 1)).
      { split; intros He'.
        - assert (e = 0) as -> by lia. simpl in *. lia.
        - lia. }
      assert (Hfl : floorOf m e = len sorted - 1).
      { unfold floorOf. destruct (Z.leb_spec 0 e).
        - assert (e = 0) as -> by lia. simpl in *. lia.
        - rewrite Hval. apply Z.div_mul. lia. }
      assert (Hcl : ceilOf m e = len sorted - 1).
      { unfold ceilOf. destruct (Z.leb_spec 0 e).
        - assert (e = 0) as -> by lia. simpl in *. lia.
        - rewrite Hval. rewrite <- Z.mul_opp_l, Z.div_mul by lia. lia. }
      pose proof (percentile_finite_rank impl_int sorted 100 m e ltac:(lia) Hx Hat) as H.
      rewrite Hfl, Hcl, Z.eqb_refl in H. destruct H as (v & Hv & ->).
      rewrite <- Hv. f_equal. unfold len. lia.
Qed.

(** X8: [stdDev] is never negative: its result is NaN or at least 0, for
    every sequence of values and every mean. *)
Theorem stdDev_not_negative (values : list float) (mean : float) :
  (stdDev values mean <? 0)%float = false.
Proof.
  unfold stdDev. destruct (len values =? 0); [reflexivity|apply Sqrt_not_negative].
Qed.

End CleanerExtras.

Lemma clean_without_filters_keeps_all_witness :
  exists out,
    Cleaner.CleanDataset amd64_int (Some (datasetOf gazeReadings ["x"]))
      (cleanConfig ["x"] false "iqr" 0)
      = Some (out,
              {| Cleaner.OriginalPoints := 7; Cleaner.RemovedMissing := 0;
                 Cleaner.RemovedOutliers := 0; Cleaner.FinalPoints := 7 |},
              None) /\
    Points out = gazeReadings /\
    Metadata out !! "points_removed" = Some (MInt 0) /\
    Metadata out !! "removal_percentage" = Some (MFloat 0).
Proof.
  destruct (clean_without_filters_keeps_all amd64_int (datasetOf gazeReadings ["x"])
              (cleanConfig ["x"] false "iqr" 0))
    as (out & H1 & H2 & _ & H4 & H5); [reflexivity|reflexivity|].
  exists out. split; [exact H1|]. split; [exact H2|]. split; [exact H4|].
  apply H5. split; reflexivity.
Defined.

Lemma clean_counts_add_up_witness :
  exists out stats,
    Cleaner.CleanDataset amd64_int (Some (datasetOf gazeReadings ["x"]))
      (cleanConfig ["x"] true "iqr" 50) = Some (out, stats, None) /\
    Cleaner.OriginalPoints stats
      = Cleaner.FinalPoints stats + Cleaner.RemovedMissing stats
        + Cleaner.RemovedOutliers stats /\
    0 <= Cleaner.RemovedMissing stats /\ 0 <= Cleaner.RemovedOutliers stats /\
    0 <= Cleaner.FinalPoints stats /\
    Metadata out !! "points_removed"
      = Some (MInt (Cleaner.RemovedMissing stats + Cleaner.RemovedOutliers stats)) /\
    Metadata out !! "cleaned_points" = Some (MInt (len (Points out))).
Proof.
  apply (clean_counts_add_up amd64_int (datasetOf gazeReadings ["x"])
           (cleanConfig ["x"] true "iqr" 50)).
  vm_compute. discriminate.
Defined.

Lemma outlier_filter_removes_only_measured_witness :
  exists kept removed,
    Cleaner.filterOutliers amd64_int gazeReadings ["x"] "iqr" 3 = Some (kept, removed) /\
    removed = len gazeReadings - len kept /\
    sublist kept gazeReadings /\
    forall p, p ∈ gazeReadings -> p ∉ kept ->
      exists col val,
        col ∈ ["x"] /\ Data p !! col = Some val /\ IsNaN val = false /\
        presentValues gazeReadings col <> [].
Proof.
  apply (outlier_filter_removes_only_measured amd64_int gazeReadings ["x"] "iqr" 3).
  vm_compute. discriminate.
Defined.

Lemma outlier_filter_without_values_witness :
  Cleaner.filterOutliers amd64_int gazeReadings ["y"] "zscore" 3 = Some (gazeReadings, 0).
Proof.
  apply (outlier_filter_without_values amd64_int gazeReadings ["y"] "zscore" 3).
  intros col Hcol. apply list_elem_of_singleton in Hcol. subst col. reflexivity.
Defined.

Lemma percentile_endpoints_witness :
  Cleaner.percentile amd64_int oneToFour 0 = oneToFour !! 0%nat /\
  Cleaner.percentile amd64_int oneToFour 100 = last oneToFour.
Proof.
  apply (percentile_endpoints amd64_int oneToFour).
  - discriminate.
  - vm_compute. discriminate.
Defined.

(** ** Further properties of package clipper *)

Section ClipperExtras.
Import Clipper.

(** The two outcomes of [ClipDataset] on a dataset with samples: an error
    that comes with the observed range only, or the slice between the two
    frames. *)
Lemma clip_outcome (d : Dataset) (cfg : ClipConfig) (lo hi : float) :
  Points d <> [] -> scanTimestamps (Points d) = (lo, hi) ->
  (exists info err,
     ClipDataset (Some d) cfg = Some (None, info, Some err) /\
     MinTimestamp info = lo /\ MaxTimestamp info = hi /\
     TotalDuration info = (hi - lo)%float /\
     OriginalPoints info = len (Points d) /\
     match err with
     | ErrStartOutOfBounds s lo' hi' =>
         StartTime cfg = Some s /\ lo' = lo /\ hi' = hi /\ outOfBounds s lo hi = true
     | ErrEndOutOfBounds e lo' hi' =>
         EndTime cfg = Some e /\ lo' = lo /\ hi' = hi /\ outOfBounds e lo hi = true /\
         (forall s, StartTime cfg = Some s -> outOfBounds s lo hi = false)
     | ErrInvalidRange e s =>
         s = effectiveStart cfg lo /\ e = effectiveEnd cfg hi /\ (e <=? s)%float = true /\
         (forall s, StartTime cfg = Some s -> outOfBounds s lo hi = false) /\
         (forall e, EndTime cfg = Some e -> outOfBounds e lo hi = false)
     | ErrNoDataInRange =>
         (effectiveEnd cfg hi <=? effectiveStart cfg lo)%float = false /\
         (forall s, StartTime cfg = Some s -> outOfBounds s lo hi = false) /\
         (forall e, EndTime cfg = Some e -> outOfBounds e lo hi = false) /\
         forall p, p ∈ Points d ->
           (effectiveStart cfg lo <=? Timestamp p)%float
           && (Timestamp p <=? effectiveEnd cfg hi)%float = false
     | _ => False
     end) \/
  (exists (sf ef : nat) (first last : DataPoint) (out : Dataset) (info : ClipInfo),
     ClipDataset (Some d) cfg = Some (Some out, info, None) /\
     firstAtOrAfter (effectiveStart cfg lo) (Points d) sf /\
     lastAtOrBefore (effectiveEnd cfg hi) (Points d) ef /\
     (sf <= ef)%nat /\
     Points d !! sf = Some first /\ Points d !! ef = Some last /\
     (effectiveEnd cfg hi <=? effectiveStart cfg lo)%float = false /\
     Points out = take (S ef - sf) (drop sf (Points d)) /\
     Columns out = Columns d /\
     Metadata out !! "clipped_points" = Some (MInt (Z.of_nat ef - Z.of_nat sf + 1)) /\
     MinTimestamp info = lo /\ MaxTimestamp info = hi /\
     TotalDuration info = (hi - lo)%float /\
     OriginalPoints info = len (Points d) /\
     StartFrame info = Z.of_nat sf /\ EndFrame info = Z.of_nat ef /\
     ClippedPoints info = Z.of_nat ef - Z.of_nat sf + 1 /\
     ActualStartTime info = Timestamp first /\
     ActualEndTime info = Timestamp last /\
     (forall s, StartTime cfg = Some s -> outOfBounds s lo hi = false) /\
     (forall e, EndTime cfg = Some e -> outOfBounds e lo hi = false)).
Proof.
  intros Hne Hscan. unfold ClipDataset.
  destruct (Z.eqb_spec (len (Points d)) 0) as [Hz|_];
    [apply len_zero_iff in Hz; contradiction|].
  rewrite Hscan.
  destruct (match StartTime cfg with
            | Some s => outOfBounds s lo hi
            | None => false
            end) eqn:Hsb.
  { destruct (StartTime cfg) as [s|] eqn:Es; [|discriminate]. rewrite Hsb.
    left. eexists _, _. split; [reflexivity|]. cbn. repeat split; eauto. }
  assert (Hs_ok : forall s, StartTime cfg = Some s -> outOfBounds s lo hi = false).
  { intros s Es. rewrite Es in Hsb. exact Hsb. }
  assert (Hstart : match StartTime cfg with
                   | Some s => if outOfBounds s lo hi
                               then inl (ErrStartOutOfBounds s lo hi) else inr s
                   | None => inr lo
                   end = (inr (effectiveStart cfg lo) : error + float)).
  { unfold effectiveStart. destruct (StartTime cfg) as [s|]; [|reflexivity].
    rewrite Hsb. reflexivity. }
  rewrite Hstart. clear Hsb Hstart.
  destruct (match EndTime cfg with
            | Some e => outOfBounds e lo hi
            | None => false
            end) eqn:Heb.
  { destruct (EndTime cfg) as [e|] eqn:Ee; [|discriminate]. rewrite Heb.
    left. eexists _, _. split; [reflexivity|]. cbn. repeat split; eauto. }
  assert (He_ok : forall e, EndTime cfg = Some e -> outOfBounds e lo hi = false).
  { intros e Ee. rewrite Ee in Heb. exact Heb. }
  assert (Hend : match EndTime cfg with
                 | Some e => if outOfBounds e lo hi
                             then inl (ErrEndOutOfBounds e lo hi) else inr e
                 | None => inr hi
                 end = (inr (effectiveEnd cfg hi) : error + float)).
  { unfold effectiveEnd. destruct (EndTime cfg) as [e|]; [|reflexivity].
    rewrite Heb. reflexivity. }
  rewrite Hend. clear Heb Hend.
  set (s := effectiveStart cfg lo). set (e := effectiveEnd cfg hi).
  destruct (e <=? s)%float eqn:Hrange.
  { left. eexists _, _. split; [reflexivity|]. cbn. repeat split; eauto. }
  destruct (findFrames_spec s e (Points d)) as (sf & ef & Hf & Hsf & Hef).
  rewrite Hf.
  assert (Hnodata : sf = -1 \/ ef = -1 \/ sf > ef ->
            forall p, p ∈ Points d ->
              (s <=? Timestamp p)%float && (Timestamp p <=? e)%float = false).
  { intros Hcase p Hp. apply list_elem_of_lookup in Hp as [k Hk].
    destruct (s <=? Timestamp p)%float eqn:Hge; [|reflexivity].
    destruct (Timestamp p <=? e)%float eqn:Hle; [|reflexivity].
    exfalso.
    destruct Hsf as [[_ Hnone]|[Hsf0 Hfirst]];
      [rewrite (Hnone _ _ Hk) in Hge; discriminate|].
    destruct Hef as [[_ Hnone]|[Hef0 Hlast]];
      [rewrite (Hnone _ _ Hk) in Hle; discriminate|].
    assert (Hsk : (Z.to_nat sf <= k)%nat).
    { destruct Hfirst as [_ Hb]. destruct (le_lt_dec (Z.to_nat sf) k) as [|Hc]; [done|].
      rewrite (Hb _ _ Hc Hk) in Hge. discriminate. }
    assert (Hke : (k <= Z.to_nat ef)%nat).
    { destruct Hlast as [_ Ha]. destruct (le_lt_dec k (Z.to_nat ef)) as [|Hc]; [done|].
      rewrite (Ha _ _ Hc Hk) in Hle. discriminate. }
    lia. }
  destruct (Z.eqb_spec sf (-1)) as [Hs1|Hs1].
  { left. eexists _, _. split; [reflexivity|]. cbn. repeat split; eauto. }
  destruct (Z.eqb_spec ef (-1)) as [He1|He1].
  { left. eexists _, _. split; [reflexivity|]. cbn. repeat split; eauto. }
  destruct (Z.gtb_spec sf ef) as [Hgt|Hle].
  { left. eexists _, _. split; [reflexivity|]. cbn.
    repeat split; eauto. apply Hnodata. lia. }
  cbn [orb]. right.
  destruct Hsf as [[? _]|[Hsf0 Hfirst]]; [lia|].
  destruct Hef as [[? _]|[Hef0 Hlast]]; [lia|].
  pose proof Hfirst as [(first & Hfst & _) _].
  pose proof Hlast as [(last & Hlst & _) _].
  pose proof (lookup_lt_Some _ _ _ Hlst) as Hefl.
  exists (Z.to_nat sf), (Z.to_nat ef), first, last.
  unfold slice.
  destruct (Z.leb_spec 0 sf); [|lia].
  destruct (Z.leb_spec sf (ef + 1)); [|lia].
  destruct (Z.leb_spec (ef + 1) (len (Points d))); [|unfold len in *; lia].
  cbn [andb mbind option_bind].
  set (clipped := take (Z.to_nat (ef + 1 - sf)) (drop (Z.to_nat sf) (Points d))).
  assert (Hcl : length clipped = (Z.to_nat ef - Z.to_nat sf + 1)%nat).
  { unfold clipped. rewrite length_take, length_drop. lia. }
  assert (Hidx0 : index clipped 0 = Some first).
  { apply (index_Some clipped 0). unfold clipped.
    rewrite lookup_take_lt by lia. rewrite lookup_drop. rewrite Nat.add_0_r. exact Hfst. }
  assert (Hidx1 : index clipped (len clipped - 1) = Some last).
  { replace (len clipped - 1) with (Z.of_nat (Z.to_nat ef - Z.to_nat sf)) by (unfold len; lia).
    apply index_Some. unfold clipped.
    rewrite lookup_take_lt by lia. rewrite lookup_drop.
    replace (Z.to_nat sf + (Z.to_nat ef - Z.to_nat sf))%nat with (Z.to_nat ef) by lia.
    exact Hlst. }
  rewrite Hidx0. cbn [mbind option_bind]. rewrite Hidx1. cbn [mbind option_bind].
  eexists _, _.
  split; [reflexivity|].
  split; [exact Hfirst|]. split; [exact Hlast|]. split; [lia|].
  split; [exact Hfst|]. split; [exact Hlst|]. split; [reflexivity|].
  cbn [Points Columns Metadata MinTimestamp MaxTimestamp OriginalPoints StartFrame
       EndFrame ClippedPoints ActualStartTime ActualEndTime TotalDuration].
  split; [unfold clipped; f_equal; lia|]. split; [reflexivity|].
  split.
  { rewrite lookup_insert_ne by discriminate. rewrite lookup_insert_eq.
    do 2 f_equal. unfold len. lia. }
  split; [reflexivity|]. split; [reflexivity|]. split; [reflexivity|].
  split; [reflexivity|].
  split; [lia|]. split; [lia|]. split; [unfold len; lia|].
  split; [reflexivity|]. split; [reflexivity|]. split; assumption.
Qed.


Lemma leb_trans (x y z : float) :
  (x <=? y)%float = true -> (y <=? z)%float = true -> (x <=? z)%float = true.
Proof. intros H1 H2. float_order. Qed.

(** In a time-ordered sequence the timestamps of any two positions are in
    order. *)
Lemma timeOrdered_pairwise (l : list DataPoint) :
  timeOrdered l = true ->
  forall i j p q, (i <= j)%nat -> l !! i = Some p -> l !! j = Some q ->
    (Timestamp p <=? Timestamp q)%float = true.
Proof.
  induction l as [|p0 rest IH]; intros Hord i j p q Hij Hi Hj.
  - rewrite lookup_nil in Hi. discriminate.
  - assert (Hrefl : (Timestamp p0 <=? Timestamp p0)%float = true).
    { cbn [timeOrdered] in Hord. destruct rest as [|q0 rest'].
      - clear -Hord. float_order.
      - apply andb_prop in Hord as [Hle _]. clear -Hle. float_order. }
    assert (Hrest : timeOrdered rest = true).
    { cbn [timeOrdered] in Hord. destruct rest as [|q0 rest']; [reflexivity|].
      apply andb_prop in Hord as [_ Hr]. exact Hr. }
    destruct i as [|i'], j as [|j']; try lia.
    + cbn in Hi, Hj. injection Hi as <-. injection Hj as <-. exact Hrefl.
    + cbn in Hi, Hj. injection Hi as <-.
      destruct rest as [|q0 rest']; [try rewrite lookup_nil in Hj; discriminate|].
      cbn [timeOrdered] in Hord. apply andb_prop in Hord as [Hle _].
      apply (leb_trans _ (Timestamp q0)); [exact Hle|].
      apply (IH Hrest 0%nat j' q0 q); [lia|reflexivity|exact Hj].
    + cbn in Hi, Hj. apply (IH Hrest i' j' p q); [lia|exact Hi|exact Hj].
Qed.

Lemma filter_none {A} (f : A -> bool) (l : list A) :
  (forall x, x ∈ l -> f x = false) -> List.filter f l = [].
Proof.
  induction l as [|x l IH]; intros H; simpl; [reflexivity|].
  rewrite (H x) by (apply elem_of_cons; auto).
  apply IH. intros y Hy. apply H, elem_of_cons. auto.
Qed.

(** A predicate that holds exactly on the positions from [sf] to [ef]
    selects the window between them. *)
Lemma filter_window {A} (f : A -> bool) (l : list A) (sf ef : nat) :
  (sf <= ef < length l)%nat ->
  (forall j x, l !! j = Some x -> (j < sf)%nat -> f x = false) ->
  (forall j x, l !! j = Some x -> (sf <= j <= ef)%nat -> f x = true) ->
  (forall j x, l !! j = Some x -> (ef < j)%nat -> f x = false) ->
  List.filter f l = take (S ef - sf) (drop sf l).
Proof.
  intros Hb Hlow Hmid Hhigh.
  rewrite <- (take_drop sf l) at 1.
  rewrite <- (take_drop (S ef - sf) (drop sf l)) at 1.
  rewrite !List.filter_app.
  rewrite (filter_none f (take sf l)).
  2:{ intros x Hx. apply list_elem_of_lookup in Hx as [j Hj].
      apply lookup_take_Some in Hj as [Hj Hlt]. eauto. }
  rewrite (filter_all f (take (S ef - sf) (drop sf l))).
  2:{ intros x Hx. apply list_elem_of_lookup in Hx as [j Hj].
      apply lookup_take_Some in Hj as [Hj Hlt]. rewrite lookup_drop in Hj.
      apply (Hmid _ _ Hj). lia. }
  rewrite (filter_none f (drop (S ef - sf) (drop sf l))).
  2:{ intros x Hx. apply list_elem_of_lookup in Hx as [j Hj].
      rewrite !lookup_drop in Hj. apply (Hhigh _ _ Hj). lia. }
  cbn [app]. rewrite app_nil_r. reflexivity.
Qed.

(** X9: [ClipDataset] never panics, whatever the dataset (nil included)
    and the bounds: it returns either an error and no dataset, or a
    dataset and no error.  A returned dataset is a non-empty subsequence
    of the samples with the columns of the input, and the clipped count,
    in the info and in the metadata, is its length. *)
Theorem clip_never_panics (dataset : option Dataset) (cfg : ClipConfig) :
  (exists info err, ClipDataset dataset cfg = Some (None, info, Some err)) \/
  (exists d out info,
     dataset = Some d /\
     ClipDataset dataset cfg = Some (Some out, info, None) /\
     Points out <> [] /\ sublist (Points out) (Points d) /\
     Columns out = Columns d /\
     ClippedPoints info = len (Points out) /\
     OriginalPoints info = len (Points d) /\
     Metadata out !! "clipped_points" = Some (MInt (len (Points out)))).
Proof.
  destruct dataset as [d|]; [|left; eexists _, _; reflexivity].
  destruct (Points d) as [|p0 rest] eqn:Hp.
  { left. unfold ClipDataset. rewrite Hp. eexists _, _. reflexivity. }
  destruct (scanTimestamps (Points d)) as [lo hi] eqn:Hscan.
  destruct (clip_outcome d cfg lo hi) as [(info & err & H & _)|H];
    [rewrite Hp; discriminate|exact Hscan|left; eauto|].
  destruct H as (sf & ef & first & last & out & info & H & _ & _ & Hle & _ & Hl & _
                 & Hout & Hcols & Hmeta & _ & _ & _ & Ho & _ & _ & Hc & _).
  right. exists d, out, info. split; [reflexivity|]. split; [exact H|].
  pose proof (lookup_lt_Some _ _ _ Hl) as Hlt.
  assert (Hlen : length (Points out) = (S ef - sf)%nat).
  { rewrite Hout, length_take, length_drop. lia. }
  split; [intros E; rewrite E in Hlen; simpl in Hlen; lia|].
  split.
  { rewrite Hout. etrans; [apply sublist_take|apply sublist_drop]. }
  split; [exact Hcols|].
  assert (Hz : Z.of_nat ef - Z.of_nat sf + 1 = len (Points out)) by (unfold len; lia).
  split; [lia|]. split; [exact Ho|]. rewrite Hmeta, Hz. reflexivity.
Qed.

(** X10: when [ClipDataset] succeeds, the two frames are positions of the
    input with [StartFrame <= EndFrame], the result is the slice between
    them and [ClippedPoints = EndFrame - StartFrame + 1]; the first
    retained sample is at or after the effective start and the last one at
    or before the effective end, the start lies strictly before the end,
    no sample before [StartFrame] is at or after the start and no sample
    after [EndFrame] is at or before the end. *)
Theorem clip_success_frames (d : Dataset) (cfg : ClipConfig)
    (out : Dataset) (info : ClipInfo) :
  ClipDataset (Some d) cfg = Some (Some out, info, None) ->
  exists (sf ef : nat) (first last : DataPoint),
    StartFrame info = Z.of_nat sf /\ EndFrame info = Z.of_nat ef /\
    (sf <= ef < length (Points d))%nat /\
    ClippedPoints info = EndFrame info - StartFrame info + 1 /\
    Points out = take (S ef - sf) (drop sf (Points d)) /\
    Points d !! sf = Some first /\ Points d !! ef = Some last /\
    ActualStartTime info = Timestamp first /\
    ActualEndTime info = Timestamp last /\
    (effectiveStart cfg (MinTimestamp info) <=? ActualStartTime info)%float = true /\
    (ActualEndTime info <=? effectiveEnd cfg (MaxTimestamp info))%float = true /\
    (effectiveStart cfg (MinTimestamp info) <? effectiveEnd cfg (MaxTimestamp info))%float = true /\
    (forall j q, (j < sf)%nat -> Points d !! j = Some q ->
       (effectiveStart cfg (MinTimestamp info) <=? Timestamp q)%float = false) /\
    (forall j q, (ef < j)%nat -> Points d !! j = Some q ->
       (Timestamp q <=? effectiveEnd cfg (MaxTimestamp info))%float = false).
Proof.
  intros Hclip.
  destruct (Points d) as [|p0 rest] eqn:Hp.
  { unfold ClipDataset in Hclip. rewrite Hp in Hclip. discriminate. }
  destruct (scanTimestamps (Points d)) as [lo hi] eqn:Hscan.
  destruct (clip_outcome d cfg lo hi) as [(info' & err & H & _)|H];
    [rewrite Hp; discriminate|exact Hscan|rewrite H in Hclip; discriminate|].
  destruct H as (sf & ef & first & last & out' & info' & H & Hfirst & Hlast & Hle & Hf & Hl
                 & Hrange & Hout & _ & _ & Hmin & Hmax & _ & _ & Hsf & Hef & Hc & Has & Hae & _).
  rewrite H in Hclip. injection Hclip as <- <-.
  rewrite Hmin, Hmax, Has, Hae, Hsf, Hef, <- Hp.
  pose proof (lookup_lt_Some _ _ _ Hl) as Hlt.
  destruct Hfirst as [(first' & Hf' & Hge) Hbefore].
  destruct Hlast as [(last' & Hl' & Hle') Hafter].
  rewrite Hf in Hf'. injection Hf' as <-. rewrite Hl in Hl'. injection Hl' as <-.
  exists sf, ef, first, last.
  split; [reflexivity|]. split; [reflexivity|]. split; [lia|]. split; [lia|].
  split; [exact Hout|]. split; [exact Hf|]. split; [exact Hl|].
  split; [reflexivity|]. split; [reflexivity|]. split; [exact Hge|].
  split; [exact Hle'|]. split; [|split; [exact Hbefore|exact Hafter]].
  clear -Hge Hle' Hrange. float_order.
Qed.

(** X11: every error of [ClipDataset] has its reason.  "dataset is empty"
    only for a dataset without samples; an out-of-bounds error only for a
    requested bound strictly outside the observed range, the start being
    checked first; "end must be greater than start" only when the
    effective end is at or before the effective start; and "no data points
    found" only when no sample at all has its timestamp within the
    effective bounds. *)
Theorem clip_error_reasons (d : Dataset) (cfg : ClipConfig)
    (out : option Dataset) (info : ClipInfo) (err : error) :
  ClipDataset (Some d) cfg = Some (out, info, Some err) ->
  out = None /\
  match err with
  | ErrEmptyDataset => Points d = [] /\ info = zeroInfo
  | ErrStartOutOfBounds s lo hi =>
      Points d <> [] /\ scanTimestamps (Points d) = (lo, hi) /\
      StartTime cfg = Some s /\ ((s <? lo)%float = true \/ (hi <? s)%float = true)
  | ErrEndOutOfBounds e lo hi =>
      Points d <> [] /\ scanTimestamps (Points d) = (lo, hi) /\
      EndTime cfg = Some e /\ ((e <? lo)%float = true \/ (hi <? e)%float = true) /\
      (forall s, StartTime cfg = Some s -> (s <? lo)%float = false /\ (hi <? s)%float = false)
  | ErrInvalidRange e s =>
      Points d <> [] /\
      s = effectiveStart cfg (MinTimestamp info) /\
      e = effectiveEnd cfg (MaxTimestamp info) /\
      (e <=? s)%float = true
  | ErrNoDataInRange =>
      Points d <> [] /\
      (effectiveEnd cfg (MaxTimestamp info) <=? effectiveStart cfg (MinTimestamp info))%float
        = false /\
      forall p, p ∈ Points d ->
        (effectiveStart cfg (MinTimestamp info) <=? Timestamp p)%float
        && (Timestamp p <=? effectiveEnd cfg (MaxTimestamp info))%float = false
  | _ => False
  end.
Proof.
  intros Hclip.
  destruct (Points d) as [|p0 rest] eqn:Hp.
  { unfold ClipDataset in Hclip. rewrite Hp in Hclip. cbn in Hclip.
    injection Hclip as <- <- <-. auto. }
  rewrite <- Hp in *.
  assert (Hne : Points d <> []) by (rewrite Hp; discriminate).
  destruct (scanTimestamps (Points d)) as [lo hi] eqn:Hscan.
  destruct (clip_outcome d cfg lo hi Hne Hscan) as [(info' & err' & H & Hmin & Hmax & _ & _ & Hc)|H].
  - rewrite H in Hclip. injection Hclip as <- <- <-. split; [reflexivity|].
    rewrite Hmin, Hmax.
    destruct err' as [|s lo' hi'|e lo' hi'|e s| | | |]; try contradiction.
    + destruct Hc as (Hs & -> & -> & Ho). unfold outOfBounds, gtb in Ho.
      apply orb_prop in Ho. auto.
    + destruct Hc as (He & -> & -> & Ho & Hs). unfold outOfBounds, gtb in Ho.
      apply orb_prop in Ho. split; [exact Hne|]. split; [reflexivity|].
      split; [exact He|]. split; [exact Ho|].
      intros s Es. specialize (Hs s Es). unfold outOfBounds, gtb in Hs.
      apply orb_false_elim in Hs. exact Hs.
    + destruct Hc as (-> & -> & Hle & _). auto.
    + destruct Hc as (Hr & _ & _ & Hnone). auto.
  - destruct H as (sf & ef & first & last & out' & info' & H & _).
    rewrite H in Hclip. discriminate.
Qed.

(** X12: on time-ordered samples a successful clip keeps exactly the
    samples whose timestamp lies within the effective bounds, in their
    order. *)
Theorem clip_time_ordered_keeps_range (d : Dataset) (cfg : ClipConfig)
    (out : Dataset) (info : ClipInfo) :
  timeOrdered (Points d) = true ->
  ClipDataset (Some d) cfg = Some (Some out, info, None) ->
  Points out =
    List.filter
      (fun p => (effectiveStart cfg (MinTimestamp info) <=? Timestamp p)%float
                && (Timestamp p <=? effectiveEnd cfg (MaxTimestamp info))%float)
      (Points d).
Proof.
  intros Hord Hclip.
  destruct (Points d) as [|p0 rest] eqn:Hp.
  { unfold ClipDataset in Hclip. rewrite Hp in Hclip. discriminate. }
  rewrite <- Hp in *.
  assert (Hne : Points d <> []) by (rewrite Hp; discriminate).
  destruct (scanTimestamps (Points d)) as [lo hi] eqn:Hscan.
  destruct (clip_outcome d cfg lo hi Hne Hscan) as [(info' & err & H & _)|H];
    [rewrite H in Hclip; discriminate|].
  destruct H as (sf & ef & first & last & out' & info' & H & Hfirst & Hlast & Hle & Hf & Hl
                 & _ & Hout & _ & _ & Hmin & Hmax & _).
  rewrite H in Hclip. injection Hclip as <- <-.
  rewrite Hmin, Hmax, Hout. symmetry.
  pose proof (lookup_lt_Some _ _ _ Hl) as Hlt.
  destruct Hfirst as [(first' & Hf' & Hge) Hbefore].
  destruct Hlast as [(last' & Hl' & Hle') Hafter].
  rewrite Hf in Hf'. injection Hf' as <-. rewrite Hl in Hl'. injection Hl' as <-.
  apply filter_window; [lia| | |].
  - intros j x Hj Hlow. rewrite (Hbefore j x Hlow Hj). reflexivity.
  - intros j x Hj [H1 H2]. apply andb_true_intro. split.
    + apply (leb_trans _ (Timestamp first)); [exact Hge|].
      apply (timeOrdered_pairwise _ Hord sf j); [lia|exact Hf|exact Hj].
    + apply (leb_trans _ (Timestamp last)); [|exact Hle'].
      apply (timeOrdered_pairwise _ Hord j ef); [lia|exact Hj|exact Hl].
  - intros j x Hj Hhigh. rewrite (Hafter j x Hhigh Hj). apply andb_false_r.
Qed.

(** X13: without requested bounds, a dataset whose timestamps are not
    NaN and not all equal is returned whole: every sample, from frame 0 to
    the last one. *)
Theorem clip_without_bounds_keeps_all (d : Dataset) (cfg : ClipConfig)
    (p q : DataPoint) :
  StartTime cfg = None -> EndTime cfg = None ->
  (forall r, r ∈ Points d -> IsNaN (Timestamp r) = false) ->
  p ∈ Points d -> q ∈ Points d ->
  (Timestamp p <? Timestamp q)%float = true ->
  exists out info,
    ClipDataset (Some d) cfg = Some (Some out, info, None) /\
    Points out = Points d /\
    StartFrame info = 0 /\ EndFrame info = len (Points d) - 1 /\
    ClippedPoints info = OriginalPoints info.
Proof.
  intros Hs He Hnan Hp Hq Hlt.
  assert (Hne : Points d <> []) by (intros E; rewrite E in Hp; apply elem_of_nil in Hp; done).
  destruct (scanTimestamps (Points d)) as [lo hi] eqn:Hscan.
  destruct (scanTimestamps_min_max (Points d) lo hi Hne Hnan Hscan) as (Hall & _ & _).
  assert (Hes : effectiveStart cfg lo = lo) by (unfold effectiveStart; rewrite Hs; reflexivity).
  assert (Hee : effectiveEnd cfg hi = hi) by (unfold effectiveEnd; rewrite He; reflexivity).
  destruct (clip_outcome d cfg lo hi Hne Hscan) as [(info & err & H & _ & _ & _ & _ & Hc)|H].
  - exfalso. rewrite Hes, Hee in Hc.
    destruct err as [|s lo' hi'|e lo' hi'|e s| | | |]; try contradiction.
    + destruct Hc as (Hc & _). congruence.
    + destruct Hc as (Hc & _). congruence.
    + destruct Hc as (-> & -> & Hle & _).
      destruct (Hall p Hp) as [Hp1 _]. destruct (Hall q Hq) as [_ Hq2].
      clear -Hle Hp1 Hq2 Hlt. float_order.
    + destruct Hc as (_ & _ & _ & Hnone). specialize (Hnone p Hp).
      destruct (Hall p Hp) as [H1 H2]. rewrite H1, H2 in Hnone. discriminate.
  - destruct H as (sf & ef & first & last & out & info & H & Hfirst & Hlast & Hle & Hf & Hl
                   & _ & Hout & _ & _ & _ & _ & _ & Ho & Hsf & Hef & Hc & _).
    rewrite Hes in Hfirst. rewrite Hee in Hlast.
    pose proof (lookup_lt_Some _ _ _ Hl) as Hefl.
    assert (Hsf0 : sf = 0%nat).
    { destruct sf as [|sf']; [reflexivity|]. exfalso.
      destruct (Points d) as [|r0 rest] eqn:Hpts; [done|].
      destruct Hfirst as [_ Hbefore].
      assert (Hr0 : (lo <=? Timestamp r0)%float = true) by (apply Hall, elem_of_cons; auto).
      rewrite (Hbefore 0%nat r0 ltac:(lia) eq_refl) in Hr0. discriminate. }
    assert (Hefn : ef = pred (length (Points d))).
    { destruct (Nat.eq_dec ef (pred (length (Points d)))) as [|Hneq]; [done|]. exfalso.
      destruct (Points d !! pred (length (Points d))) as [r|] eqn:Hr.
      - destruct Hlast as [_ Hafter].
        assert (Hrl : (Timestamp r <=? hi)%float = true)
          by (apply Hall, list_elem_of_lookup; eauto).
        rewrite (Hafter (pred (length (Points d))) r ltac:(lia) Hr) in Hrl. discriminate.
      - apply lookup_ge_None in Hr. lia. }
    subst sf ef. exists out, info. split; [exact H|].
    split.
    { rewrite Hout. rewrite drop_0. apply take_ge. lia. }
    split; [lia|]. split; [unfold len; lia|]. rewrite Hc, Ho. unfold len. lia.
Qed.



(** X15: for samples whose timestamps are not NaN, whatever the outcome
    of [ClipDataset], [MinTimestamp] and [MaxTimestamp] of the info are the
    least and the greatest timestamp of the input (each is the timestamp of
    a sample and bounds all of them), [TotalDuration] is their difference
    and [OriginalPoints] the number of samples. *)
Theorem clip_info_extremes (d : Dataset) (cfg : ClipConfig)
    (out : option Dataset) (info : ClipInfo) (err : option error) :
  Points d <> [] ->
  (forall r, r ∈ Points d -> IsNaN (Timestamp r) = false) ->
  ClipDataset (Some d) cfg = Some (out, info, err) ->
  (forall r, r ∈ Points d ->
     (MinTimestamp info <=? Timestamp r)%float = true /\
     (Timestamp r <=? MaxTimestamp info)%float = true) /\
  (exists r, r ∈ Points d /\ (Timestamp r =? MinTimestamp info)%float = true) /\
  (exists r, r ∈ Points d /\ (Timestamp r =? MaxTimestamp info)%float = true) /\
  TotalDuration info = (MaxTimestamp info - MinTimestamp info)%float /\
  OriginalPoints info = len (Points d).
Proof.
  intros Hne Hnan Hclip.
  destruct (scanTimestamps (Points d)) as [lo hi] eqn:Hscan.
  pose proof (scanTimestamps_min_max (Points d) lo hi Hne Hnan Hscan) as (Hall & Hlo & Hhi).
  assert (Hinfo : MinTimestamp info = lo /\ MaxTimestamp info = hi /\
                  TotalDuration info = (hi - lo)%float /\
                  OriginalPoints info = len (Points d)).
  { destruct (clip_outcome d cfg lo hi Hne Hscan) as [(info' & err' & H & Hmin & Hmax & Hd & Ho & _)|H].
    - rewrite H in Hclip. injection Hclip as <- <- <-. auto.
    - destruct H as (sf & ef & first & last & out' & info' & H & _ & _ & _ & _ & _
                     & _ & _ & _ & _ & Hmin & Hmax & Hd & Ho & _).
      rewrite H in Hclip. injection Hclip as <- <- <-. auto. }
  destruct Hinfo as (-> & -> & -> & ->). auto.
Qed.


Lemma clip_success_frames_witness :
  exists (out : Dataset) (info : ClipInfo) (sf ef : nat) (first last : DataPoint),
    ClipDataset (Some (recording [0; 10; 20; 30]%float)) (clipBetween 5 25)
      = Some (Some out, info, None) /\
    StartFrame info = Z.of_nat sf /\ EndFrame info = Z.of_nat ef /\
    (sf <= ef < length (Points (recording [0; 10; 20; 30]%float)))%nat /\
    ClippedPoints info = EndFrame info - StartFrame info + 1 /\
    Points out = take (S ef - sf) (drop sf (Points (recording [0; 10; 20; 30]%float))) /\
    ActualStartTime info = Timestamp first /\
    ActualEndTime info = Timestamp last /\
    (effectiveStart (clipBetween 5 25) (MinTimestamp info) <=? ActualStartTime info)%float = true /\
    (ActualEndTime info <=? effectiveEnd (clipBetween 5 25) (MaxTimestamp info))%float = true.
Proof.
  eassert (H : ClipDataset (Some (recording [0; 10; 20; 30]%float)) (clipBetween 5 25)
               = Some (Some _, _, None)) by (vm_compute; reflexivity).
  destruct (clip_success_frames _ _ _ _ H)
    as (sf & ef & first & last & H1 & H2 & H3 & H4 & H5 & _ & _ & H8 & H9 & H10 & H11 & _).
  eexists _, _, sf, ef, first, last. split; [exact H|]. auto 10.
Defined.

Lemma clip_error_reasons_witness :
  exists info,
    ClipDataset (Some (recording [0; 10]%float)) (clipBetween 2 5)
      = Some (None, info, Some ErrNoDataInRange) /\
    forall p, p ∈ Points (recording [0; 10]%float) ->
      (effectiveStart (clipBetween 2 5) (MinTimestamp info) <=? Timestamp p)%float
      && (Timestamp p <=? effectiveEnd (clipBetween 2 5) (MaxTimestamp info))%float = false.
Proof.
  eassert (H : ClipDataset (Some (recording [0; 10]%float)) (clipBetween 2 5)
               = Some (None, _, Some ErrNoDataInRange)) by (vm_compute; reflexivity).
  destruct (clip_error_reasons _ _ _ _ _ H) as (_ & _ & _ & Hnone).
  eexists. split; [exact H|exact Hnone].
Defined.

Lemma clip_time_ordered_keeps_range_witness :
  exists (out : Dataset) (info : ClipInfo),
    ClipDataset (Some (recording [0; 10; 20; 30]%float)) (clipBetween 5 25)
      = Some (Some out, info, None) /\
    Points out =
      List.filter
        (fun p => (effectiveStart (clipBetween 5 25) (MinTimestamp info) <=? Timestamp p)%float
                  && (Timestamp p <=? effectiveEnd (clipBetween 5 25) (MaxTimestamp info))%float)
        (Points (recording [0; 10; 20; 30]%float)).
Proof.
  eassert (H : ClipDataset (Some (recording [0; 10; 20; 30]%float)) (clipBetween 5 25)
               = Some (Some _, _, None)) by (vm_compute; reflexivity).
  eexists _, _. split; [exact H|].
  apply (clip_time_ordered_keeps_range (recording [0; 10; 20; 30]%float)
           (clipBetween 5 25) _ _ eq_refl H).
Defined.

Lemma clip_without_bounds_keeps_all_witness :
  exists out info,
    ClipDataset (Some (recording [0; 10; 20; 30]%float))
      {| StartTime := None; EndTime := None |} = Some (Some out, info, None) /\
    Points out = Points (recording [0; 10; 20; 30]%float) /\
    StartFrame info = 0 /\
    EndFrame info = len (Points (recording [0; 10; 20; 30]%float)) - 1 /\
    ClippedPoints info = OriginalPoints info.
Proof.
  apply (clip_without_bounds_keeps_all (recording [0; 10; 20; 30]%float)
           {| StartTime := None; EndTime := None |} (sampleAt 0) (sampleAt 10)).
  - reflexivity.
  - reflexivity.
  - intros r Hr. cbn in Hr.
    repeat (apply elem_of_cons in Hr as [->|Hr]; [reflexivity|]).
    apply elem_of_nil in Hr. destruct Hr.
  - apply list_elem_of_In. simpl. auto.
  - apply list_elem_of_In. simpl. auto.
  - reflexivity.
Defined.

Lemma clip_info_extremes_witness :
  exists out info,
    ClipDataset (Some (recording [20; 0; 30; 10]%float)) (clipBetween 5 25)
      = Some (Some out, info, None) /\
    MinTimestamp info = 0%float /\ MaxTimestamp info = 30%float /\
    (forall r, r ∈ Points (recording [20; 0; 30; 10]%float) ->
       (MinTimestamp info <=? Timestamp r)%float = true /\
       (Timestamp r <=? MaxTimestamp info)%float = true) /\
    TotalDuration info = (MaxTimestamp info - MinTimestamp info)%float.
Proof.
  eassert (H : ClipDataset (Some (recording [20; 0; 30; 10]%float)) (clipBetween 5 25)
               = Some (Some _, _, None)) by (vm_compute; reflexivity).
  assert (Hnan : forall r, r ∈ Points (recording [20; 0; 30; 10]%float) ->
                           IsNaN (Timestamp r) = false).
  { intros r Hr. cbn in Hr.
    repeat (apply elem_of_cons in Hr as [->|Hr]; [reflexivity|]).
    apply elem_of_nil in Hr. destruct Hr. }
  destruct (clip_info_extremes (recording [20; 0; 30; 10]%float) (clipBetween 5 25) _ _ _
              ltac:(discriminate) Hnan H) as (Hall & _ & _ & Hd & _).
  eexists _, _. split; [exact H|]. split; [reflexivity|]. split; [reflexivity|].
  split; [exact Hall|exact Hd].
Defined.

End ClipperExtras.

(** ** Further properties of package stats *)

Section StatsExtras.
Import Stats.

(** The accumulation loop on values that are not NaN: the sum, and the
    least and the greatest value. *)
Lemma accumulate_sum (values : list float) acc :
  (forall v, v ∈ values -> IsNaN v = false) ->
  (fold_left accumulate values acc).1.1.1.2
    = fold_left (fun sum v => (sum + v)%float) values acc.1.1.1.2.
Proof.
  revert acc. induction values as [|v values IH]; intros acc Hall; [reflexivity|].
  cbn [fold_left]. rewrite IH by (intros w Hw; apply Hall, elem_of_cons; auto).
  destruct acc as [[[[n s] sq] mn] mx]. unfold accumulate.
  rewrite (Hall v) by (apply elem_of_cons; auto). reflexivity.
Qed.

Lemma accumulate_min_max (values : list float) n s sq mn mx :
  (forall v, v ∈ values -> IsNaN v = false) ->
  fold_left accumulate values (0, 0%float, 0%float, Inf 1, Inf (-1)) = (n, s, sq, mn, mx) ->
  IsNaN mn = false /\ IsNaN mx = false /\
  (forall v, v ∈ values -> ordf mn <= ordf v <= ordf mx) /\
  ((values = [] /\ mn = infinity /\ mx = neg_infinity) \/
   ((exists v, v ∈ values /\ ordf v = ordf mn) /\
    (exists v, v ∈ values /\ ordf v = ordf mx))).
Proof.
  revert n s sq mn mx.
  induction values as [|x l IH] using rev_ind; intros n s sq mn mx Hl Hf.
  - inversion Hf; subst. split; [reflexivity|]. split; [reflexivity|].
    split; [intros v Hv; apply elem_of_nil in Hv; done|]. left. auto.
  - rewrite fold_left_app in Hf. cbn [fold_left] in Hf.
    destruct (fold_left accumulate l _) as [[[[n0 s0] sq0] a0] b0] eqn:E0.
    destruct (IH n0 s0 sq0 a0 b0 ltac:(intros v Hv; apply Hl, elem_of_app; auto) eq_refl)
      as (Na & Nb & Hall & Hatt).
    assert (Nx : IsNaN x = false)
      by (apply Hl, elem_of_app; right; apply list_elem_of_singleton; reflexivity).
    pose proof (ordf_bounds x) as Bx.
    unfold accumulate, gtb in Hf. rewrite Nx, !ltb_ord, Nx, Na, Nb in Hf.
    cbn [negb andb] in Hf.
    assert (Hx : x ∈ l ++ [x]) by (apply elem_of_app; right; apply list_elem_of_singleton; reflexivity).
    destruct (Z.ltb_spec (ordf x) (ordf a0)) as [La|La],
             (Z.ltb_spec (ordf b0) (ordf x)) as [Lb|Lb];
      injection Hf as Hn Hs Hsq Hmn Hmx; subst mn mx;
      (split; [assumption|]); (split; [assumption|]);
      (split;
       [intros p Hp; apply elem_of_app in Hp as [Hp|Hp];
        [specialize (Hall p Hp); lia
        |apply list_elem_of_singleton in Hp; subst p; lia]|]);
      right;
      destruct Hatt as [(-> & -> & ->)|[(pa & Hpa & Ea) (pb & Hpb & Eb)]];
      try (change (ordf infinity) with (2047 * 2 ^ 53) in * );
      try (change (ordf neg_infinity) with (- (2047 * 2 ^ 53)) in * );
      split;
      first [ exists x; split; [exact Hx|lia]
            | exists pa; split; [apply elem_of_app; left; exact Hpa|lia]
            | exists pb; split; [apply elem_of_app; left; exact Hpb|lia] ].
Qed.

Lemma countOutliers_bounds (values : list float) (mean stdDev zThreshold : float) :
  0 <= countOutliers values mean stdDev zThreshold <= len values.
Proof.
  unfold countOutliers.
  assert (H : forall n,
    n <= fold_left
           (fun outlierCount v =>
              if negb (IsNaN v) then
                let zScore := Abs ((v - mean) / stdDev)%float in
                if gtb zScore zThreshold then outlierCount + 1 else outlierCount
              else outlierCount) values n <= n + len values).
  { induction values as [|v values IH]; intros n; cbn [fold_left].
    - unfold len. simpl. lia.
    - unfold len in *. cbn [length].
      destruct (negb (IsNaN v)); [destruct (gtb _ _)|];
        match goal with |- _ <= fold_left _ _ ?m <= _ => specialize (IH m) end; lia. }
  exact (H 0).
Qed.

(** The fields of the entry of a column. *)
Lemma columnStats_fields (col : string) (values : list float) :
  values <> [] -> (forall v, v ∈ values -> IsNaN v = false) ->
  exists stats, columnStats col values = Some stats /\
    Column stats = col /\ Count stats = len values /\ MissingCount stats = 0 /\
    Mean stats = (fold_left (fun sum v => sum + v) values 0 / of_int (len values))%float /\
    (forall v, v ∈ values ->
       (Min stats <=? v)%float = true /\ (v <=? Max stats)%float = true) /\
    (exists v, v ∈ values /\ (v =? Min stats)%float = true) /\
    (exists v, v ∈ values /\ (v =? Max stats)%float = true) /\
    (StdDev stats <? 0)%float = false /\
    0 <= OutlierCount stats <= Count stats /\
    (if (0 <? StdDev stats)%float
     then OutlierMethod stats = "z-score" /\ ZScoreThreshold stats = 3%float
     else OutlierMethod stats = "" /\ ZScoreThreshold stats = 0%float /\
          OutlierCount stats = 0).
Proof.
  intros Hne Hall. unfold columnStats.
  pose proof (accumulate_no_missing values (0, 0%float, 0%float, Inf 1, Inf (-1)) Hall) as Hm.
  pose proof (accumulate_sum values (0, 0%float, 0%float, Inf 1, Inf (-1)) Hall) as Hsum.
  pose proof (accumulate_min_max values) as Hmm.
  destruct (fold_left accumulate values _) as [[[[n s] sq] mn] mx].
  cbn in Hm, Hsum. subst n s.
  destruct (Hmm _ _ _ _ _ Hall eq_refl) as (Nmn & Nmx & Hbetween & Hatt). clear Hmm.
  destruct Hatt as [(-> & _)|[(va & Hva & Ea) (vb & Hvb & Eb)]]; [done|].
  rewrite nonNaN_id by exact Hall.
  set (sorted := sortFloat64s values).
  assert (Hlen : len sorted = len values) by apply sortFloat64s_len.
  assert (Hpos : 0 < len values).
  { pose proof (len_nonneg values). destruct (Z.eq_dec (len values) 0) as [Hz|]; [|lia].
    apply len_zero_iff in Hz. done. }
  assert (Hmed : exists median,
    (if Z.rem (len sorted) 2 =? 0
     then a ← index sorted (len sorted ÷ 2 - 1);
          b ← index sorted (len sorted ÷ 2);
          Some ((a + b) / 2)%float
     else index sorted (len sorted ÷ 2)) = Some median).
  { pose proof (Z.quot_rem' (len sorted) 2) as Hqr.
    pose proof (Z.rem_bound_pos (len sorted) 2 ltac:(lia) ltac:(lia)) as Hr.
    destruct (Z.eqb_spec (Z.rem (len sorted) 2) 0) as [Hev|Hodd].
    - destruct (index_is_Some sorted (len sorted ÷ 2 - 1) ltac:(lia)) as (a & -> & _).
      destruct (index_is_Some sorted (len sorted ÷ 2) ltac:(lia)) as (b & -> & _).
      cbn [mbind option_bind]. eauto.
    - destruct (index_is_Some sorted (len sorted ÷ 2) ltac:(lia)) as (b & -> & _). eauto. }
  destruct Hmed as [median ->]. cbn [mbind option_bind].
  rewrite Z.sub_0_r.
  set (mean := (fold_left (fun sum v => sum + v) values 0 / of_int (len values))%float).
  set (sd := Sqrt (sq / of_int (len values) - mean * mean)%float).
  assert (Hminmax :
    (forall v, v ∈ values -> (mn <=? v)%float = true /\ (v <=? mx)%float = true) /\
    (exists v, v ∈ values /\ (v =? mn)%float = true) /\
    (exists v, v ∈ values /\ (v =? mx)%float = true)).
  { split; [|split].
    - intros v Hv. specialize (Hbetween v Hv). rewrite !leb_ord, Nmn, Nmx, (Hall v Hv).
      cbn [negb andb]. split; apply Z.leb_le; lia.
    - exists va. split; [exact Hva|]. rewrite eqb_ord, Nmn, (Hall va Hva). cbn [negb andb].
      apply Z.eqb_eq. exact Ea.
    - exists vb. split; [exact Hvb|]. rewrite eqb_ord, Nmx, (Hall vb Hvb). cbn [negb andb].
      apply Z.eqb_eq. exact Eb. }
  destruct Hminmax as (H1 & H2 & H3).
  pose proof (countOutliers_bounds values mean sd 3) as Hco.
  pose proof (Sqrt_not_negative (sq / of_int (len values) - mean * mean)%float) as Hsd.
  fold sd in Hsd.
  destruct (0 <? sd)%float eqn:Hpos_sd; eexists; (split; [reflexivity|]);
    cbn [Column Count MissingCount Mean Min Max StdDev OutlierCount OutlierMethod
         ZScoreThreshold];
    rewrite ?Hpos_sd;
    repeat (split; [first [reflexivity|assumption|lia]|]);
    first [split; reflexivity | split; [reflexivity|split; reflexivity]].
Qed.


(** What [computeColumnStats] reports: an entry for each asked column that
    has a value, in the order asked, computed from the values of the strict
    extraction. *)
Lemma computeColumnStats_entries (d : Dataset) (columns : list string) (config : StatsConfig) :
  exists statsList,
    computeColumnStats d columns config = Some (statsList, None) /\
    Column <$> statsList
      = List.filter (fun c => negb (len (presentValues (Points d) c) =? 0)) columns /\
    forall stats, stats ∈ statsList ->
      presentValues (Points d) (Column stats) <> [] /\
      columnStats (Column stats) (presentValues (Points d) (Column stats)) = Some stats.
Proof.
  unfold computeColumnStats.
  assert (H : forall cols acc,
    (forall stats, stats ∈ acc ->
       presentValues (Points d) (Column stats) <> [] /\
       columnStats (Column stats) (presentValues (Points d) (Column stats)) = Some stats) ->
    exists statsList,
      fold_left (statsStep (Points d)) cols (Some acc) = Some statsList /\
      Column <$> statsList
        = (Column <$> acc)
          ++ List.filter (fun c => negb (len (presentValues (Points d) c) =? 0)) cols /\
      forall stats, stats ∈ statsList ->
        presentValues (Points d) (Column stats) <> [] /\
        columnStats (Column stats) (presentValues (Points d) (Column stats)) = Some stats).
  { induction cols as [|c cols IH]; intros acc Hacc; cbn [fold_left List.filter].
    - exists acc. rewrite app_nil_r. auto.
    - unfold statsStep at 2. cbn [mbind option_bind]. rewrite stats_extract_present.
      destruct (Z.eqb_spec (len (presentValues (Points d) c)) 0) as [Hz|Hnz]; cbn [negb].
      + apply IH. exact Hacc.
      + assert (Hne : presentValues (Points d) c <> []).
        { intros E. apply Hnz. rewrite E. reflexivity. }
        destruct (columnStats_total c (presentValues (Points d) c) Hne) as (stats & Hst & Hc & _).
        { intros v. apply presentValues_not_nan. }
        rewrite Hst. cbn [mbind option_bind].
        destruct (IH (acc ++ [stats])) as (statsList & Hfold & Hcols & Hall).
        * intros s0 Hs0. apply elem_of_app in Hs0 as [Hs0|Hs0]; [auto|].
          apply list_elem_of_singleton in Hs0. subst s0. rewrite Hc. auto.
        * exists statsList. split; [exact Hfold|]. split; [|exact Hall].
          rewrite Hcols, fmap_app. cbn [fmap list_fmap]. rewrite Hc, <- app_assoc. reflexivity. }
  destruct (H columns [] ltac:(intros s0 Hs0; apply elem_of_nil in Hs0; done))
    as (statsList & -> & Hcols & Hall).
  cbn [mbind option_bind]. eauto.
Qed.

(** X16: [computeColumnStats] never panics and returns no error.  Its
    entries are, in the order asked and with repetitions, the asked
    columns that have at least one value present and not NaN; a column
    without such a value is skipped without any notice, and every entry
    has a [Count] of at least 1. *)
Theorem stats_columns_in_order (d : Dataset) (columns : list string) (config : StatsConfig) :
  exists statsList,
    computeColumnStats d columns config = Some (statsList, None) /\
    Column <$> statsList
      = List.filter (fun c => negb (len (presentValues (Points d) c) =? 0)) columns /\
    (forall stats, stats ∈ statsList -> 1 <= Count stats) /\
    (forall c, c ∈ columns -> presentValues (Points d) c = [] ->
       forall stats, stats ∈ statsList -> Column stats <> c).
Proof.
  destruct (computeColumnStats_entries d columns config) as (statsList & Hc & Hcols & Hall).
  exists statsList. split; [exact Hc|]. split; [exact Hcols|]. split.
  - intros stats Hs. destruct (Hall stats Hs) as [Hne Hst].
    destruct (columnStats_total (Column stats) _ Hne) as (stats' & Hst' & _ & Hcount & _).
    { intros v. apply presentValues_not_nan. }
    rewrite Hst in Hst'. injection Hst' as <-. rewrite Hcount.
    pose proof (len_nonneg (presentValues (Points d) (Column stats))).
    destruct (Z.eq_dec (len (presentValues (Points d) (Column stats))) 0) as [Hz|]; [|lia].
    apply len_zero_iff in Hz. done.
  - intros c _ Hnone stats Hs E. destruct (Hall stats Hs) as [Hne _].
    rewrite E in Hne. done.
Qed.

(** X17: in every entry that [computeColumnStats] reports, [Mean] is the
    sum of the extracted values over their number, [Min] and [Max] are
    values of the column that bound all of them, [StdDev] is never
    negative, the outlier count lies between 0 and [Count], and the method
    is "z-score" with threshold 3 exactly when [StdDev > 0]; otherwise the
    method is empty, the threshold 0 and no outlier is counted. *)
Theorem stats_entry_invariants (d : Dataset) (columns : list string) (config : StatsConfig) :
  exists statsList,
    computeColumnStats d columns config = Some (statsList, None) /\
    forall stats, stats ∈ statsList ->
      let values := presentValues (Points d) (Column stats) in
      Mean stats = (fold_left (fun sum v => sum + v) values 0 / of_int (len values))%float /\
      (forall v, v ∈ values ->
         (Min stats <=? v)%float = true /\ (v <=? Max stats)%float = true) /\
      (exists v, v ∈ values /\ (v =? Min stats)%float = true) /\
      (exists v, v ∈ values /\ (v =? Max stats)%float = true) /\
      (StdDev stats <? 0)%float = false /\
      0 <= OutlierCount stats <= Count stats /\
      (if (0 <? StdDev stats)%float
       then OutlierMethod stats = "z-score" /\ ZScoreThreshold stats = 3%float
       else OutlierMethod stats = "" /\ ZScoreThreshold stats = 0%float /\
            OutlierCount stats = 0).
Proof.
  destruct (computeColumnStats_entries d columns config) as (statsList & Hc & _ & Hall).
  exists statsList. split; [exact Hc|].
  intros stats Hs values. destruct (Hall stats Hs) as [Hne Hst].
  destruct (columnStats_fields (Column stats) values Hne) as (stats' & Hst' & _ & _ & _ & H).
  { intros v. apply presentValues_not_nan. }
  fold values in Hst. rewrite Hst in Hst'. injection Hst' as <-. exact H.
Qed.

(** X18: for a dataset with samples, [ComputeStats] fills [OverallStats]
    only when neither axis is asked: then it is the result of
    [computeColumnStats] on the whole dataset and both maps are empty; as
    soon as one axis is asked [OverallStats] is empty.  The analysed
    columns are the asked ones, or the columns of the dataset when none is
    asked. *)
Theorem stats_overall_only_without_axes (d : Dataset) (config : StatsConfig) :
  Points d <> [] ->
  exists report,
    ComputeStats (Some d) config = Some (Some report, None) /\
    (ByCondition config = false -> ByParticipant config = false ->
     computeColumnStats d (AnalyzeColumns (effectiveStatsConfig d config))
                        (effectiveStatsConfig d config)
       = Some (OverallStats report, None) /\
     ConditionStats report = ∅ /\ ParticipantStats report = ∅) /\
    (ByCondition config = true \/ ByParticipant config = true ->
     OverallStats report = []) /\
    (AnalyzeColumns config = [] ->
     AnalyzeColumns (effectiveStatsConfig d config) = Columns d) /\
    (AnalyzeColumns config <> [] ->
     AnalyzeColumns (effectiveStatsConfig d config) = AnalyzeColumns config).
Proof.
  intros Hne. unfold ComputeStats.
  destruct (Z.eqb_spec (len (Points d)) 0) as [Hz|_]; [apply len_zero_iff in Hz; done|].
  fold (effectiveStatsConfig d config).
  set (cfg := effectiveStatsConfig d config).
  assert (Hc : ByCondition cfg = ByCondition config).
  { unfold cfg, effectiveStatsConfig. destruct (len (AnalyzeColumns config) =? 0); reflexivity. }
  assert (Hp : ByParticipant cfg = ByParticipant config).
  { unfold cfg, effectiveStatsConfig. destruct (len (AnalyzeColumns config) =? 0); reflexivity. }
  assert (Hcols : (AnalyzeColumns config = [] -> AnalyzeColumns cfg = Columns d) /\
                  (AnalyzeColumns config <> [] -> AnalyzeColumns cfg = AnalyzeColumns config)).
  { unfold cfg, effectiveStatsConfig.
    destruct (Z.eqb_spec (len (AnalyzeColumns config)) 0) as [Hz|Hnz].
    - apply len_zero_iff in Hz. split; [reflexivity|]. intros Hn. done.
    - split; [|reflexivity]. intros E. rewrite E in Hnz. done. }
  rewrite Hc, Hp, !statsOfPartitions_fmap.
  destruct (computeColumnStats_total d (AnalyzeColumns cfg) cfg) as (overall & Hov & _).
  rewrite Hov.
  destruct (ByCondition config), (ByParticipant config);
    cbn [mbind option_bind negb andb];
    (eexists; split; [reflexivity|]);
    cbn [OverallStats ConditionStats ParticipantStats];
    (split; [intros Hb1 Hb2; first [discriminate Hb1 | discriminate Hb2 | auto]|]);
    (split; [intros [Hb|Hb]; first [discriminate Hb | reflexivity]|]);
    exact Hcols.
Qed.

Lemma stats_overall_only_without_axes_witness :
  exists report,
    ComputeStats (Some (datasetOf gazeReadings ["x"]))
      {| AnalyzeColumns := []; ByCondition := false; ByParticipant := false |}
      = Some (Some report, None) /\
    computeColumnStats (datasetOf gazeReadings ["x"]) ["x"]
      (effectiveStatsConfig (datasetOf gazeReadings ["x"])
         {| AnalyzeColumns := []; ByCondition := false; ByParticipant := false |})
      = Some (OverallStats report, None) /\
    ConditionStats report = ∅ /\ ParticipantStats report = ∅.
Proof.
  destruct (stats_overall_only_without_axes (datasetOf gazeReadings ["x"])
              {| AnalyzeColumns := []; ByCondition := false; ByParticipant := false |})
    as (report & H1 & H2 & _); [discriminate|].
  exists report. split; [exact H1|]. exact (H2 eq_refl eq_refl).
Defined.

(** X19: the partitions that [ComputeStats] builds for an axis split the
    samples: each partition is the non-empty subsequence of the samples
    with its key, every sample is in the partition of its key, and the
    sizes of the partitions add up to the number of samples. *)
Theorem partitions_split_samples (label : DataPoint -> string) (points : list DataPoint) :
  (forall key samples, partitionBy label points !! key = Some samples ->
     samples = samplesOf label key points /\ samples <> [] /\ sublist samples points /\
     forall p, p ∈ samples -> partitionKey (label p) = key) /\
  (forall p, p ∈ points ->
     exists samples,
       partitionBy label points !! partitionKey (label p) = Some samples /\ p ∈ samples) /\
  sum_list_with (fun partition => length partition.2)
                (map_to_list (partitionBy label points)) = length points.
Proof.
  split; [|split].
  - intros key samples Hk. rewrite partitionBy_lookup in Hk.
    destruct (samplesOf label key points) as [|y ys] eqn:E; [discriminate|].
    injection Hk as <-. split; [reflexivity|]. split; [discriminate|].
    rewrite <- E. split; [apply filter_sublist|].
    intros p Hp. unfold samplesOf in Hp. apply list_elem_of_In, List.filter_In in Hp as [_ Hp].
    apply bool_decide_eq_true_1 in Hp. rewrite labelKey_partitionKey. exact Hp.
  - intros p Hp. rewrite partitionBy_lookup.
    assert (Hin : p ∈ samplesOf label (partitionKey (label p)) points).
    { unfold samplesOf. apply list_elem_of_In, List.filter_In.
      split; [apply list_elem_of_In; exact Hp|].
      apply bool_decide_eq_true_2. symmetry. apply labelKey_partitionKey. }
    destruct (samplesOf label (partitionKey (label p)) points) as [|y ys];
      [apply elem_of_nil in Hin; done|eauto].
  - unfold partitionBy.
    induction points as [|x points IH] using rev_ind; [reflexivity|].
    rewrite fold_left_app. cbn [fold_left].
    set (m := fold_left _ points ∅) in *.
    set (key := partitionKey (label x)).
    rewrite length_app. cbn [length]. rewrite <- IH.
    destruct (m !! key) as [old|] eqn:Hold; unfold default, from_option, id.
    + rewrite <- (insert_delete_eq m).
      rewrite map_to_list_insert by apply lookup_delete_eq.
      rewrite <- (map_to_list_delete m key old Hold).
      cbn [sum_list_with snd]. rewrite length_app. cbn [length]. lia.
    + rewrite map_to_list_insert by exact Hold.
      cbn [sum_list_with snd app length]. lia.
Qed.

End StatsExtras.

(** ** Package loader *)

Section LoaderProperties.
Import Loader(Loader, ReadResult(..), Platform, ParseFloat, FormatFloat, Base, Glob,
              ReadAll, Create, LoadError(..), beforeUnderscore, cellStep, rowStep,
              loadSingleFile, fileStep, LoadFiles, saveCell, saveRow, SaveDatasetAsCSV).
Variable p : Platform.

Lemma cellStep_fold_err rowNo filePath row (cols : list string) j e :
  fold_left (cellStep p rowNo filePath row) cols (j, Some (inl e))
    = (j + len cols, Some (inl e)).
Proof.
  revert j. induction cols as [|c cols IH]; intros j.
  - cbn. f_equal. unfold len. simpl. lia.
  - cbn [fold_left cellStep]. rewrite IH. f_equal. unfold len. cbn [length]. lia.
Qed.

(** The loop over the data columns of a row that has a field for each. *)
Lemma cellStep_fold rowNo filePath row (cols : list string) :
  forall (j : nat) (data : gmap string float),
    (j + length cols + 1 <= length row)%nat ->
    exists r,
      fold_left (cellStep p rowNo filePath row) cols (Z.of_nat j, Some (inr data))
        = (Z.of_nat j + len cols, Some r) /\
      match r with
      | inl err =>
          exists (k : nat) col cell,
            cols !! k = Some col /\ row !! (j + k + 1)%nat = Some cell /\
            cell <> "" /\ ParseFloat p cell = None /\
            err = ErrInvalidValue rowNo col filePath /\
            forall (k' : nat) col' cell',
              (k' < k)%nat -> cols !! k' = Some col' ->
              row !! (j + k' + 1)%nat = Some cell' ->
              cell' = "" \/ exists v, ParseFloat p cell' = Some v
      | inr data' =>
          (forall col val, data' !! col = Some val ->
             data !! col = Some val \/
             exists (k : nat) cell,
               cols !! k = Some col /\ row !! (j + k + 1)%nat = Some cell /\
               cell <> "" /\ ParseFloat p cell = Some val) /\
          (forall col, col ∉ cols -> data' !! col = data !! col) /\
          (NoDup cols ->
           forall (k : nat) col cell,
             cols !! k = Some col -> row !! (j + k + 1)%nat = Some cell ->
             data' !! col = if decide (cell = "") then data !! col else ParseFloat p cell) /\
          (forall (k : nat) col cell,
             cols !! k = Some col -> row !! (j + k + 1)%nat = Some cell ->
             cell = "" \/ exists v, ParseFloat p cell = Some v)
      end.
Proof.
  induction cols as [|c cols IH]; intros j data Hlen.
  - exists (inr data). split; [cbn; f_equal; unfold len; simpl; lia|].
    split; [auto|]. split; [auto|]. split.
    + intros _ k col cell Hk. rewrite lookup_nil in Hk. discriminate.
    + intros k col cell Hk. rewrite lookup_nil in Hk. discriminate.
  - cbn [length] in Hlen. cbn [fold_left]. unfold cellStep at 2.
    destruct (index_is_Some row (Z.of_nat j + 1)) as (cell0 & Hidx & Hlk).
    { unfold len. lia. }
    replace (Z.to_nat (Z.of_nat j + 1)) with (j + 0 + 1)%nat in Hlk by lia.
    rewrite Hidx. cbn [mbind option_bind].
    replace (Z.of_nat j + 1) with (Z.of_nat (S j)) by lia.
    assert (Hlenc : Z.of_nat (S j) + len cols = Z.of_nat j + len (c :: cols))
      by (unfold len; cbn [length]; lia).
    destruct (String.eqb_spec cell0 "") as [Hempty|Hfull]; cbn [negb].
    + destruct (IH (S j) data ltac:(lia)) as (r & Hf & Hr).
      exists r. split; [rewrite Hf, Hlenc; reflexivity|].
      destruct r as [err|data'].
      * destruct Hr as (k & col & cell & Hk & Hc & Hne & Hpf & -> & Hbefore).
        exists (S k), col, cell. split; [exact Hk|].
        split; [rewrite <- Hc; f_equal; lia|]. split; [exact Hne|]. split; [exact Hpf|].
        split; [reflexivity|].
        intros k' col' cell' Hk' Hcol' Hcell'. destruct k' as [|k''].
        -- rewrite Hlk in Hcell'. injection Hcell' as <-. auto.
        -- apply (Hbefore k'' col' cell'); [lia|exact Hcol'|].
           rewrite <- Hcell'. f_equal. lia.
      * destruct Hr as (Ha & Hc & Hb & Hd). split; [|split; [|split]].
        -- intros col val Hv. destruct (Ha col val Hv) as [?|(k & cell & Hk & Hcell & ? & ?)];
             [auto|]. right. exists (S k), cell. split; [exact Hk|].
           split; [rewrite <- Hcell; f_equal; lia|auto].
        -- intros col Hnot. apply Hc. intros Hin. apply Hnot, elem_of_cons. auto.
        -- intros Hnd k col cell Hk Hcell. apply NoDup_cons in Hnd as [Hnotin Hnd].
           destruct k as [|k'].
           ++ cbn in Hk. injection Hk as <-. rewrite Hlk in Hcell. injection Hcell as <-.
              rewrite (Hc c Hnotin). destruct (decide (cell0 = "")); [reflexivity|done].
           ++ cbn in Hk. apply (Hb Hnd k' col cell Hk). rewrite <- Hcell. f_equal. lia.
        -- intros k col cell Hk Hcell. destruct k as [|k'].
           ++ rewrite Hlk in Hcell. injection Hcell as <-. auto.
           ++ cbn in Hk. apply (Hd k' col cell Hk). rewrite <- Hcell. f_equal. lia.
    + destruct (ParseFloat p cell0) as [v0|] eqn:Hpf0.
      * destruct (IH (S j) (<[c := v0]> data) ltac:(lia)) as (r & Hf & Hr).
        exists r. split; [rewrite Hf, Hlenc; reflexivity|].
        destruct r as [err|data'].
        -- destruct Hr as (k & col & cell & Hk & Hc & Hne & Hpf & -> & Hbefore).
           exists (S k), col, cell. split; [exact Hk|].
           split; [rewrite <- Hc; f_equal; lia|]. split; [exact Hne|]. split; [exact Hpf|].
           split; [reflexivity|].
           intros k' col' cell' Hk' Hcol' Hcell'. destruct k' as [|k''].
           ++ rewrite Hlk in Hcell'. injection Hcell' as <-. eauto.
           ++ apply (Hbefore k'' col' cell'); [lia|exact Hcol'|].
              rewrite <- Hcell'. f_equal. lia.
        -- destruct Hr as (Ha & Hc & Hb & Hd). split; [|split; [|split]].
           ++ intros col val Hv.
              destruct (Ha col val Hv) as [Hins|(k & cell & Hk & Hcell & ? & ?)].
              ** destruct (decide (c = col)) as [->|Hneq].
                 --- rewrite lookup_insert_eq in Hins. injection Hins as <-.
                     right. exists 0%nat, cell0. auto.
                 --- rewrite lookup_insert_ne in Hins by exact Hneq. auto.
              ** right. exists (S k), cell. split; [exact Hk|].
                 split; [rewrite <- Hcell; f_equal; lia|auto].
           ++ intros col Hnot. rewrite Hc by (intros Hin; apply Hnot, elem_of_cons; auto).
              apply lookup_insert_ne. intros ->. apply Hnot, elem_of_cons. auto.
           ++ intros Hnd k col cell Hk Hcell. apply NoDup_cons in Hnd as [Hnotin Hnd].
              destruct k as [|k'].
              ** cbn in Hk. injection Hk as <-. rewrite Hlk in Hcell. injection Hcell as <-.
                 rewrite (Hc c Hnotin), lookup_insert_eq.
                 destruct (decide (cell0 = "")); [done|]. symmetry. exact Hpf0.
              ** cbn in Hk. rewrite (Hb Hnd k' col cell Hk) by (rewrite <- Hcell; f_equal; lia).
                 assert (c <> col).
                 { intros ->. apply Hnotin. apply list_elem_of_lookup. eauto. }
                 rewrite lookup_insert_ne by done. reflexivity.
           ++ intros k col cell Hk Hcell. destruct k as [|k'].
              ** rewrite Hlk in Hcell. injection Hcell as <-. eauto.
              ** cbn in Hk. apply (Hd k' col cell Hk). rewrite <- Hcell. f_equal. lia.
      * rewrite cellStep_fold_err. exists (inl (ErrInvalidValue rowNo c filePath)).
        split; [rewrite Hlenc; reflexivity|].
        exists 0%nat, c, cell0. split; [reflexivity|]. split; [exact Hlk|].
        split; [exact Hfull|]. split; [exact Hpf0|]. split; [reflexivity|].
        intros k' col' cell' Hk'. lia.
Qed.


Variable l : Loader.

Lemma rowStep_fold_err filePath headers dataCols participantID
    (rows : list (list string)) i e :
  fold_left (rowStep p l filePath headers dataCols participantID) rows (i, Some (inl e))
    = (i + len rows, Some (inl e)).
Proof.
  revert i. induction rows as [|row rows IH]; intros i.
  - cbn. f_equal. unfold len. simpl. lia.
  - cbn [fold_left rowStep]. rewrite IH. f_equal. unfold len. cbn [length]. lia.
Qed.

(** One data row: an error, or the sample of the row. *)
Lemma rowStep_row filePath (header : string) (dataCols : list string) participantID
    (i : Z) (points : list DataPoint) (row : list string) :
  exists r,
    rowStep p l filePath (header :: dataCols) dataCols participantID
            (i, Some (inr points)) row = (i + 1, Some r) /\
    match r with
    | inl err =>
        (len row <> len (header :: dataCols) /\ err = ErrRowColumns (i + 2) filePath) \/
        (len row = len (header :: dataCols) /\
         ((exists first, row !! 0%nat = Some first /\ ParseFloat p first = None /\
                         err = ErrInvalidTimestamp (i + 2) filePath) \/
          (exists (j : nat) col cell,
             dataCols !! j = Some col /\ row !! S j = Some cell /\ cell <> "" /\
             ParseFloat p cell = None /\ err = ErrInvalidValue (i + 2) col filePath)))
    | inr points' =>
        exists point,
          points' = points ++ [point] /\
          loadedFrom p l participantID (header :: dataCols) row point
    end.
Proof.
  unfold rowStep. replace (i + 1 + 1) with (i + 2) by lia.
  destruct (Z.eqb_spec (len row) (len (header :: dataCols))) as [Hlen|Hlen]; cbn [negb].
  2:{ eexists. split; [reflexivity|]. left. auto. }
  assert (Hl : length row = S (length dataCols)) by (unfold len in Hlen; cbn in Hlen; lia).
  destruct row as [|first cells]; [discriminate|].
  change (index (first :: cells) 0) with (Some first). cbn [mbind option_bind].
  destruct (ParseFloat p first) as [timestamp|] eqn:Hts.
  2:{ eexists. split; [reflexivity|]. right. split; [exact Hlen|]. left. eauto. }
  destruct (cellStep_fold (i + 2) filePath (first :: cells) dataCols 0 ∅) as (r & Hf & Hr).
  { cbn [length] in *. lia. }
  change (Z.of_nat 0) with 0 in Hf. rewrite Hf. cbn [snd mbind option_bind].
  destruct r as [err|data].
  - eexists. split; [reflexivity|]. right. split; [exact Hlen|]. right.
    destruct Hr as (k & col & cell & Hk & Hc & Hne & Hpf & -> & _).
    exists k, col, cell. replace (0 + k + 1)%nat with (S k) in Hc by lia. auto.
  - eexists. split; [reflexivity|]. eexists. split; [reflexivity|].
    destruct Hr as (Ha & Hc & Hb & Hd).
    split; [exact Hlen|]. split; [exists first; auto|].
    split; [reflexivity|]. split; [reflexivity|]. cbn [Data Timestamp].
    split; [|split].
    + intros col val Hv. destruct (Ha col val Hv) as [He|(k & cell & Hk & Hcell & ? & ?)].
      * rewrite lookup_empty in He. discriminate.
      * exists k, cell. replace (0 + k + 1)%nat with (S k) in Hcell by lia. auto.
    + intros Hnd j col cell Hj Hcell. cbn [tail] in Hnd. cbn in Hj.
      rewrite (Hb Hnd j col cell Hj) by (rewrite <- Hcell; f_equal; lia).
      rewrite lookup_empty. reflexivity.
    + intros j cell Hcell.
      destruct (dataCols !! j) as [col|] eqn:Hj.
      * apply (Hd j col cell Hj). rewrite <- Hcell. f_equal. lia.
      * apply lookup_ge_None in Hj. apply lookup_lt_Some in Hcell. cbn [length] in *. lia.
Qed.

(** The loop over the data rows: an error, or one sample per row. *)
Lemma rowStep_fold filePath (header : string) (dataCols : list string) participantID
    (rows : list (list string)) :
  forall (i : Z) (points : list DataPoint),
  exists r,
    fold_left (rowStep p l filePath (header :: dataCols) dataCols participantID)
              rows (i, Some (inr points)) = (i + len rows, Some r) /\
    match r with
    | inl err => True
    | inr points' =>
        exists new,
          points' = points ++ new /\
          Forall2 (loadedFrom p l participantID (header :: dataCols)) rows new
    end.
Proof.
  induction rows as [|row rows IH]; intros i points.
  - exists (inr points). split; [cbn; f_equal; unfold len; simpl; lia|].
    exists []. rewrite app_nil_r. split; [reflexivity|constructor].
  - cbn [fold_left].
    assert (Hi : i + 1 + len rows = i + len (row :: rows)) by (unfold len; cbn [length]; lia).
    destruct (rowStep_row filePath header dataCols participantID i points row)
      as (r1 & -> & Hr1).
    destruct r1 as [err|points1].
    + rewrite rowStep_fold_err, Hi. exists (inl err). auto.
    + destruct Hr1 as (point & -> & Hpoint).
      destruct (IH (i + 1) (points ++ [point])) as (r & Hf & Hr).
      rewrite Hf, Hi. exists r. split; [reflexivity|].
      destruct r as [err|points']; [exact I|].
      destruct Hr as (new & -> & Hall). exists (point :: new).
      split; [rewrite <- app_assoc; reflexivity|]. constructor; assumption.
Qed.

Lemma slice_tail {A} (x : A) (xs : list A) : slice (x :: xs) 1 (len (x :: xs)) = Some xs.
Proof.
  unfold slice. unfold len. cbn [length].
  destruct (Z.leb_spec 0 1); [|lia].
  destruct (Z.leb_spec 1 (Z.of_nat (S (length xs)))); [|lia].
  destruct (Z.leb_spec (Z.of_nat (S (length xs))) (Z.of_nat (S (length xs)))); [|lia].
  cbn [andb]. change (Z.to_nat 1) with 1%nat. cbn [drop]. f_equal.
  apply take_ge. lia.
Qed.

(** The two outcomes of [loadSingleFile]. *)
Lemma loadSingleFile_outcome (filePath : string) :
  (exists err, loadSingleFile p l filePath = Some ([], [], Some err)) \/
  (exists headers rows points,
     ReadAll p filePath = Records (headers :: rows) /\
     rows <> [] /\ 2 <= len headers /\
     loadSingleFile p l filePath = Some (points, headers, None) /\
     Forall2 (loadedFrom p l (beforeUnderscore (Base p filePath)) headers) rows points).
Proof.
  unfold loadSingleFile.
  destruct (ReadAll p filePath) as [| |records]; [left; eauto|left; eauto|].
  destruct (Z.ltb_spec (len records) 2) as [Hshort|Hlong]; [left; eauto|].
  destruct records as [|headers rows]; [unfold len in Hlong; simpl in Hlong; lia|].
  change (index (headers :: rows) 0) with (Some headers). cbn [mbind option_bind].
  destruct (Z.ltb_spec (len headers) 2) as [Hnarrow|Hwide]; [left; eauto|].
  destruct headers as [|header dataCols]; [unfold len in Hwide; simpl in Hwide; lia|].
  rewrite !slice_tail. cbn [mbind option_bind].
  destruct (rowStep_fold filePath header dataCols (beforeUnderscore (Base p filePath)) rows 0 [])
    as (r & -> & Hr).
  cbn [snd mbind option_bind].
  destruct r as [err|points]; [left; eauto|].
  right. destruct Hr as (new & -> & Hall).
  exists (header :: dataCols), rows, new. split; [reflexivity|].
  split; [intros ->; unfold len in Hlong; simpl in Hlong; lia|].
  split; [exact Hwide|]. split; [reflexivity|exact Hall].
Qed.


Lemma loaded_points_labels (filePath : string) points headers :
  loadSingleFile p l filePath = Some (points, headers, None) ->
  2 <= len headers /\
  forall point, point ∈ points ->
    Condition point = Loader.Condition l /\
    ParticipantID point = beforeUnderscore (Base p filePath).
Proof.
  intros Hload.
  destruct (loadSingleFile_outcome filePath) as [[err H]|(headers' & rows & points' & _ & _ & Hw & H & Hall)];
    rewrite H in Hload; [discriminate|].
  injection Hload as <- <-. split; [exact Hw|].
  intros point Hp. apply list_elem_of_lookup in Hp as [i Hi].
  destruct (Forall2_lookup_r _ _ _ _ _ Hall Hi) as (row & _ & Hrow).
  destruct Hrow as (_ & _ & Hpid & Hcond & _). auto.
Qed.

Lemma fileStep_fold_err (matches : list string) e :
  fold_left (fileStep p l) matches (Some (inl e)) = Some (inl e).
Proof. induction matches as [|file matches IH]; [reflexivity|exact IH]. Qed.

(** The loop of [LoadFiles]: an error, or the samples of every file in
    turn and the header row of the first file. *)
Lemma fileStep_fold (matches : list string) :
  forall (allPoints : list DataPoint) (columns : list string),
  exists r,
    fold_left (fileStep p l) matches (Some (inr (allPoints, columns))) = Some r /\
    match r with
    | inl err =>
        exists file e, file ∈ matches /\ err = ErrLoadFile file e /\
                       loadSingleFile p l file = Some ([], [], Some e)
    | inr (points, cols) =>
        exists loads : list (list DataPoint * list string),
          Forall2 (fun file load => loadSingleFile p l file = Some (load.1, load.2, None))
                  matches loads /\
          points = allPoints ++ concat loads.*1 /\
          cols = if len columns =? 0
                 then match loads with load :: _ => load.2 | [] => columns end
                 else columns
    end.
Proof.
  induction matches as [|file matches IH]; intros allPoints columns.
  - exists (inr (allPoints, columns)). split; [reflexivity|]. exists [].
    split; [constructor|]. split; [cbn; rewrite app_nil_r; reflexivity|].
    destruct (len columns =? 0); reflexivity.
  - cbn [fold_left]. unfold fileStep at 2.
    destruct (loadSingleFile_outcome file)
      as [[err H]|(headers & rows & points & _ & _ & Hw & H & _)]; rewrite H;
      cbn [mbind option_bind].
    + rewrite fileStep_fold_err. eexists. split; [reflexivity|].
      exists file, err. split; [apply elem_of_cons; auto|auto].
    + destruct (IH (allPoints ++ points) (if len columns =? 0 then headers else columns))
        as (r & Hf & Hr).
      exists r. split; [exact Hf|]. destruct r as [err|[pts cols]].
      * destruct Hr as (file' & e & Hin & -> & Hl). exists file', e.
        split; [apply elem_of_cons; auto|auto].
      * destruct Hr as (loads & Hall & -> & ->). exists ((points, headers) :: loads).
        split; [constructor; [exact H|exact Hall]|].
        split; [cbn; rewrite <- app_assoc; reflexivity|].
        destruct (Z.eqb_spec (len columns) 0) as [Hz|Hnz].
        -- destruct (Z.eqb_spec (len headers) 0); [lia|reflexivity].
        -- destruct (Z.eqb_spec (len columns) 0); [lia|reflexivity].
Qed.

(** X20: [loadSingleFile] never panics.  It returns either an error with
    no sample and no header, or the header row, of at least two names, and
    exactly one sample per data row, in order: the row has as many fields
    as the header, its first field parses to the timestamp, the
    participant is the text of the base name before the first underscore,
    the condition is the one of the loader, and a channel holds a value
    exactly when the field under its name is not empty, the value being
    what the field parses to. *)
Theorem load_file_rows (filePath : string) :
  (exists err, loadSingleFile p l filePath = Some ([], [], Some err)) \/
  (exists headers rows points,
     ReadAll p filePath = Records (headers :: rows) /\
     loadSingleFile p l filePath = Some (points, headers, None) /\
     2 <= len headers /\ len points = len rows /\ 1 <= len points /\
     forall (i : nat) row, rows !! i = Some row ->
       exists point,
         points !! i = Some point /\
         loadedFrom p l (beforeUnderscore (Base p filePath)) headers row point).
Proof.
  destruct (loadSingleFile_outcome filePath)
    as [H|(headers & rows & points & Hread & Hne & Hw & H & Hall)]; [left; exact H|].
  right. exists headers, rows, points. split; [exact Hread|]. split; [exact H|].
  split; [exact Hw|].
  pose proof (Forall2_length _ _ _ Hall) as Hlen.
  split; [unfold len; lia|]. split.
  - destruct rows; [done|]. unfold len. rewrite <- Hlen. cbn [length]. lia.
  - intros i row Hrow. destruct (Forall2_lookup_l _ _ _ _ _ Hall Hrow) as (point & Hp & Hl).
    eauto.
Qed.

(** X21: [LoadFiles] never panics.  When it succeeds, every matched file
    loaded without error, the samples are those of the files in the order
    of the matches, every sample carries the condition of the loader, the
    metadata count the files and the samples, and the columns of the
    dataset are the header row of the first file, whatever the headers of
    the other files. *)
Theorem load_files_outcome (pattern : string) :
  (exists err, LoadFiles p l pattern = Some (None, Some err)) \/
  (exists d file matches first loads,
     Glob p pattern = Some (file :: matches) /\
     LoadFiles p l pattern = Some (Some d, None) /\
     Forall2 (fun file load => loadSingleFile p l file = Some (load.1, load.2, None))
             (file :: matches) (first :: loads) /\
     Points d = concat (first :: loads).*1 /\
     Columns d = first.2 /\
     (forall point, point ∈ Points d -> Condition point = Loader.Condition l) /\
     Metadata d !! "total_files" = Some (MInt (len (file :: matches))) /\
     Metadata d !! "total_points" = Some (MInt (len (Points d)))).
Proof.
  unfold LoadFiles.
  destruct (Glob p pattern) as [matches|]; [|left; eauto].
  destruct (Z.eqb_spec (len matches) 0) as [Hz|Hnz]; [left; eauto|].
  destruct (fileStep_fold matches [] []) as (r & -> & Hr). cbn [mbind option_bind].
  destruct r as [err|[points cols]]; [left; eauto|].
  destruct Hr as (loads & Hall & Hpts & Hcols). cbn [app] in Hpts.
  destruct matches as [|file matches]; [done|].
  destruct loads as [|first loads]; [inversion Hall|].
  right. eexists _, file, matches, first, loads. split; [reflexivity|].
  split; [reflexivity|]. split; [exact Hall|]. cbn [Points Columns Metadata].
  split; [exact Hpts|]. split; [exact Hcols|]. split.
  - intros point Hp. rewrite Hpts in Hp.
    apply list_elem_of_In, in_concat in Hp as (pts & Hin & Hpt).
    apply list_elem_of_In in Hin, Hpt.
    apply list_elem_of_fmap in Hin as ([pts' hdrs] & -> & Hin). cbn [fst] in Hpt.
    apply list_elem_of_lookup in Hin as [i Hi].
    destruct (Forall2_lookup_r _ _ _ _ _ Hall Hi) as (f & _ & Hload). cbn [fst snd] in Hload.
    destruct (loaded_points_labels f pts' hdrs Hload) as [_ Hlab].
    apply (Hlab point Hpt).
  - split; [reflexivity|]. rewrite lookup_insert_ne by discriminate.
    rewrite lookup_insert_eq. reflexivity.
Qed.


(** The cells of a row: the loop over [dataset.Columns[1:]] fills the
    fields after the three fixed ones, in order. *)
Lemma saveCell_fold (point : DataPoint) (rest : list string) :
  forall (pre rem : list string),
    (3 <= length pre)%nat -> (length rest <= length rem)%nat ->
    fold_left (saveCell p point) rest (Z.of_nat (length pre) - 3, Some (pre ++ rem))
      = (Z.of_nat (length pre) - 3 + len rest,
         Some (pre ++ (cellOf p point <$> rest) ++ drop (length rest) rem)).
Proof.
  induction rest as [|col rest IH]; intros pre rem Hpre Hrem.
  - cbn. f_equal. unfold len. simpl. lia.
  - destruct rem as [|r0 rem]; [cbn in Hrem; lia|]. cbn [length] in Hrem.
    cbn [fold_left]. unfold saveCell at 2. cbn [mbind option_bind].
    assert (Hset : forall v, setIndex (pre ++ r0 :: rem) (Z.of_nat (length pre) - 3 + 3) v
                             = Some ((pre ++ [v]) ++ rem)).
    { intros v. unfold setIndex, len. rewrite length_app. cbn [length].
      destruct (Z.leb_spec 0 (Z.of_nat (length pre) - 3 + 3)); [|lia].
      destruct (Z.ltb_spec (Z.of_nat (length pre) - 3 + 3)
                           (Z.of_nat (length pre + S (length rem)))); [|lia].
      cbn [andb]. f_equal.
      replace (Z.to_nat (Z.of_nat (length pre) - 3 + 3)) with (length pre + 0)%nat by lia.
      rewrite insert_app_r. cbn. rewrite <- app_assoc. reflexivity. }
    assert (Hcell : match Data point !! col with
                    | Some val => setIndex (pre ++ r0 :: rem)
                                    (Z.of_nat (length pre) - 3 + 3) (FormatFloat p val)
                    | None => setIndex (pre ++ r0 :: rem) (Z.of_nat (length pre) - 3 + 3) ""
                    end = Some ((pre ++ [cellOf p point col]) ++ rem)).
    { unfold cellOf. destruct (Data point !! col); apply Hset. }
    rewrite Hcell.
    replace (Z.of_nat (length pre) - 3 + 1) with (Z.of_nat (length (pre ++ [cellOf p point col])) - 3)
      by (rewrite length_app; cbn [length]; lia).
    rewrite IH by (rewrite ?length_app; cbn [length]; lia).
    f_equal.
    + rewrite length_app. unfold len. cbn [length]. lia.
    + cbn [fmap list_fmap drop]. rewrite <- !app_assoc. reflexivity.
Qed.

Lemma saveRow_fold_None (dataset : Dataset) (header : list string) (points : list DataPoint) :
  fold_left (saveRow p dataset header) points None = None.
Proof. induction points as [|point points IH]; [reflexivity|exact IH]. Qed.

Lemma setIndex_0 {A} (x y : A) (rest : list A) :
  setIndex (x :: rest) 0 y = Some (y :: rest).
Proof.
  unfold setIndex, len. cbn [length].
  destruct (Z.ltb_spec 0 (Z.of_nat (S (length rest)))); [reflexivity|lia].
Qed.

Lemma setIndex_1 {A} (a x y : A) (rest : list A) :
  setIndex (a :: x :: rest) 1 y = Some (a :: y :: rest).
Proof.
  unfold setIndex, len. cbn [length].
  destruct (Z.ltb_spec 1 (Z.of_nat (S (S (length rest))))); [reflexivity|lia].
Qed.

Lemma setIndex_2 {A} (a b x y : A) (rest : list A) :
  setIndex (a :: b :: x :: rest) 2 y = Some (a :: b :: y :: rest).
Proof.
  unfold setIndex, len. cbn [length].
  destruct (Z.ltb_spec 2 (Z.of_nat (S (S (S (length rest)))))); [reflexivity|lia].
Qed.

(** The row of a sample, for a header of three fields and [extra] more. *)
Lemma saveRow_row (dataset : Dataset) (c0 : string) (rest header : list string)
    (written : list (list string)) (point : DataPoint) (extra : nat) :
  Columns dataset = c0 :: rest ->
  length header = (3 + (length rest + extra))%nat ->
  saveRow p dataset header (Some written) point
    = Some (written ++ [[FormatFloat p (Timestamp point); ParticipantID point; Condition point]
                        ++ (cellOf p point <$> rest) ++ replicate extra ""]).
Proof.
  intros Hcols Hheader. unfold saveRow. cbn [mbind option_bind].
  destruct point as [timestamp data participantID condition]. cbn [Timestamp ParticipantID Condition].
  unfold makeStrings, len. rewrite Nat2Z.id, Hheader.
  cbn [replicate Nat.add].
  rewrite setIndex_0. cbn [mbind option_bind].
  rewrite setIndex_1. cbn [mbind option_bind].
  rewrite setIndex_2. cbn [mbind option_bind].
  rewrite Hcols. fold (len (c0 :: rest)). rewrite slice_tail. cbn [mbind option_bind].
  pose proof (saveCell_fold {| Timestamp := timestamp; Data := data;
                              ParticipantID := participantID; Condition := condition |}
                rest [FormatFloat p timestamp; participantID; condition]
                (replicate (length rest + extra) "")) as Hfold.
  cbn [length app] in Hfold. change (Z.of_nat 3 - 3) with 0 in Hfold.
  rewrite Hfold by (rewrite ?length_replicate; lia).
  cbn [snd mbind option_bind]. rewrite drop_replicate.
  replace (length rest + extra - length rest)%nat with extra by lia. reflexivity.
Qed.

(** The records that [SaveDatasetAsCSV] writes for a dataset with at least
    one column. *)
Lemma SaveDatasetAsCSV_records (d : Dataset) (outputPath : string) (c0 : string)
    (rest : list string) :
  Create p outputPath = true ->
  Columns d = c0 :: rest ->
  SaveDatasetAsCSV p l (Some d) outputPath
    = Some (savedHeader (Columns d) :: (savedRow p (Columns d) <$> Points d), None).
Proof.
  intros Hcreate Hcols. unfold SaveDatasetAsCSV. rewrite Hcreate. cbn [negb mbind option_bind].
  rewrite Hcols.
  destruct (Z.ltb_spec 0 (len (c0 :: rest))) as [_|Hl]; [|unfold len in Hl; cbn in Hl; lia].
  change (index (c0 :: rest) 0) with (Some c0). cbn [mbind option_bind].
  rewrite slice_tail.
  set (extra := if String.eqb c0 "timestamp" then 0%nat else 1%nat).
  set (header := savedHeader (c0 :: rest)).
  assert (Hheader : (if String.eqb c0 "timestamp"
                     then rest0 ← Some rest; Some (["timestamp"; "participant_id"; "condition"] ++ rest0)
                     else Some (["timestamp"; "participant_id"; "condition"] ++ c0 :: rest))
                    = Some header).
  { unfold header, savedHeader. destruct (String.eqb c0 "timestamp"); reflexivity. }
  rewrite Hheader. cbn [mbind option_bind].
  assert (Hlen : length header = (3 + (length rest + extra))%nat).
  { unfold header, savedHeader, extra. destruct (String.eqb c0 "timestamp");
      cbn [app length]; lia. }
  assert (Hrow : forall point,
    savedRow p (c0 :: rest) point
    = [FormatFloat p (Timestamp point); ParticipantID point; Condition point]
      ++ (cellOf p point <$> rest) ++ replicate extra "").
  { intros point. unfold savedRow, extra. cbn [tail].
    destruct (String.eqb c0 "timestamp"); reflexivity. }
  assert (Hfold : forall points written,
    fold_left (saveRow p d header) points (Some written)
    = Some (written ++ (savedRow p (c0 :: rest) <$> points))).
  { induction points as [|point points IH]; intros written.
    - cbn. rewrite app_nil_r. reflexivity.
    - cbn [fold_left]. rewrite (saveRow_row d c0 rest header written point extra Hcols Hlen).
      rewrite IH, <- app_assoc. cbn [fmap list_fmap]. rewrite Hrow. reflexivity. }
  rewrite Hfold. reflexivity.
Qed.

(** X22: in a file loaded with distinct column names, no sample holds a
    value under the name of the first column (the timestamp column), so
    the statistics over the columns of the loaded data have no entry for
    it: every entry is for one of the other columns. *)
Theorem loaded_first_column_has_no_stats (filePath : string)
    (points : list DataPoint) (headers : list string) (config : Stats.StatsConfig) :
  loadSingleFile p l filePath = Some (points, headers, None) ->
  NoDup headers ->
  exists first rest statsList,
    headers = first :: rest /\
    (forall point, point ∈ points -> Data point !! first = None) /\
    Stats.computeColumnStats (datasetOf points headers) headers config
      = Some (statsList, None) /\
    (forall stats, stats ∈ statsList -> Stats.Column stats ∈ rest) /\
    (forall stats, stats ∈ statsList -> Stats.Column stats <> first).
Proof.
  intros Hload Hnd.
  destruct (loadSingleFile_outcome filePath)
    as [[err H]|(headers' & rows & points' & _ & _ & Hw & H & Hall)];
    rewrite H in Hload; [discriminate|].
  injection Hload as <- <-.
  destruct headers' as [|first rest]; [unfold len in Hw; simpl in Hw; lia|].
  exists first, rest.
  assert (Habsent : forall point, point ∈ points' -> Data point !! first = None).
  { intros point Hp. apply list_elem_of_lookup in Hp as [i Hi].
    destruct (Forall2_lookup_r _ _ _ _ _ Hall Hi) as (row & _ & Hrow).
    destruct Hrow as (_ & _ & _ & _ & Hsome & _).
    destruct (Data point !! first) as [val|] eqn:Hd; [|reflexivity]. exfalso.
    destruct (Hsome first val Hd) as (j & cell & Hj & _).
    pose proof (NoDup_lookup _ 0%nat (S j) first Hnd eq_refl Hj). discriminate. }
  assert (Hnone : presentValues points' first = []).
  { unfold presentValues. clear -Habsent.
    induction points' as [|point points IH]; [reflexivity|].
    cbn [omap list_omap]. unfold presentValue at 1.
    rewrite (Habsent point) by (apply elem_of_cons; auto).
    apply IH. intros q Hq. apply Habsent, elem_of_cons. auto. }
  destruct (computeColumnStats_entries (datasetOf points' (first :: rest)) (first :: rest) config)
    as (statsList & Hc & Hcols & _).
  exists statsList. split; [reflexivity|]. split; [exact Habsent|]. split; [exact Hc|].
  cbn [List.filter datasetOf Points] in Hcols. rewrite Hnone in Hcols. cbn in Hcols.
  assert (Hin : forall stats, stats ∈ statsList -> Stats.Column stats ∈ rest).
  { intros stats Hs.
    assert (Hm : Stats.Column stats ∈ Stats.Column <$> statsList)
      by (apply list_elem_of_fmap; eauto).
    rewrite Hcols in Hm. apply list_elem_of_In, List.filter_In in Hm as [Hm _].
    apply list_elem_of_In. exact Hm. }
  split; [exact Hin|].
  intros stats Hs E. apply NoDup_cons in Hnd as [Hnotin _]. apply Hnotin.
  rewrite <- E. apply Hin. exact Hs.
Qed.

(** X23: for a dataset with at least one column, [SaveDatasetAsCSV]
    never panics and writes the header and one row per sample, all of the
    same width.  The first column is skipped in every row, but in the
    header only when it is named "timestamp": otherwise the header keeps
    it, so that each value stands under the name of the column before its
    own and the last field of every row is empty. *)
Theorem save_records_written (d : Dataset) (outputPath : string) (c0 : string)
    (rest : list string) :
  Create p outputPath = true ->
  Columns d = c0 :: rest ->
  exists records,
    SaveDatasetAsCSV p l (Some d) outputPath = Some (records, None) /\
    records = savedHeader (Columns d) :: (savedRow p (Columns d) <$> Points d) /\
    len records = 1 + len (Points d) /\
    (forall row, row ∈ records -> len row = len (savedHeader (Columns d))) /\
    (c0 <> "timestamp" ->
     savedHeader (Columns d) = ["timestamp"; "participant_id"; "condition"] ++ c0 :: rest /\
     forall point, point ∈ Points d ->
       savedRow p (Columns d) point
       = [FormatFloat p (Timestamp point); ParticipantID point; Condition point]
         ++ (cellOf p point <$> rest) ++ [""]).
Proof.
  intros Hcreate Hcols. eexists. split; [apply (SaveDatasetAsCSV_records d _ c0 rest); assumption|].
  split; [reflexivity|]. split; [unfold len; cbn [length]; rewrite length_fmap; lia|].
  rewrite Hcols. split.
  - intros row Hrow. apply elem_of_cons in Hrow as [->|Hrow]; [reflexivity|].
    apply list_elem_of_fmap in Hrow as (point & -> & _).
    unfold savedRow, savedHeader, len. cbn [tail].
    destruct (String.eqb c0 "timestamp");
      rewrite ?length_app, ?length_fmap; cbn [length];
      rewrite ?length_app, ?length_fmap; cbn [length]; lia.
  - intros Hne. assert (Hb : String.eqb c0 "timestamp" = false) by (apply String.eqb_neq; exact Hne).
    unfold savedHeader, savedRow. rewrite Hb. split; [reflexivity|]. intros point _. reflexivity.
Qed.

(** A row cannot be written without a column: [Columns[1:]] is out of
    range. *)
Lemma saveRow_no_columns (d : Dataset) (header : list string)
    (written : go (list (list string))) (point : DataPoint) :
  Columns d = [] -> saveRow p d header written point = None.
Proof.
  intros Hcols. unfold saveRow. destruct written as [written|]; [|reflexivity].
  cbn [mbind option_bind]. destruct point as [timestamp data participantID condition].
  destruct (setIndex (makeStrings (len header)) 0 (FormatFloat p timestamp)) as [row|];
    [|reflexivity]. cbn [mbind option_bind].
  destruct (setIndex row 1 participantID) as [row1|]; [|reflexivity]. cbn [mbind option_bind].
  destruct (setIndex row1 2 condition) as [row2|]; [|reflexivity]. cbn [mbind option_bind].
  rewrite Hcols. reflexivity.
Qed.

(** X24: [SaveDatasetAsCSV] panics on a dataset that has samples and no
    column (the slice [Columns[1:]] is out of range); without samples it
    writes the three fixed header names only. *)
Theorem save_panics_without_columns (d : Dataset) (outputPath : string) :
  Create p outputPath = true ->
  Columns d = [] ->
  (Points d <> [] -> SaveDatasetAsCSV p l (Some d) outputPath = None) /\
  (Points d = [] ->
   SaveDatasetAsCSV p l (Some d) outputPath
     = Some ([["timestamp"; "participant_id"; "condition"]], None)).
Proof.
  intros Hcreate Hcols. unfold SaveDatasetAsCSV. rewrite Hcreate.
  cbn [negb mbind option_bind]. rewrite Hcols. change (0 <? len []) with false.
  cbn [mbind option_bind app].
  split; intros Hp.
  - destruct (Points d) as [|point points]; [done|]. cbn [fold_left].
    rewrite (saveRow_no_columns d _ _ point Hcols), saveRow_fold_None. reflexivity.
  - rewrite Hp. reflexivity.
Qed.

(** X25: a file written by [SaveDatasetAsCSV] cannot be loaded again
    when the participant or the condition of its first sample is neither
    empty nor the text of a number: [loadSingleFile] reads the two label
    columns as data and fails. *)
Theorem saved_file_reload_fails (d : Dataset) (outputPath filePath : string)
    (records : list (list string)) (point : DataPoint) (points : list DataPoint) :
  SaveDatasetAsCSV p l (Some d) outputPath = Some (records, None) ->
  ReadAll p filePath = Records records ->
  Points d = point :: points ->
  (ParticipantID point <> "" /\ ParseFloat p (ParticipantID point) = None) \/
  (Condition point <> "" /\ ParseFloat p (Condition point) = None) ->
  exists err, loadSingleFile p l filePath = Some ([], [], Some err).
Proof.
  intros Hsave Hread Hpoints Hlabel.
  assert (Hcreate : Create p outputPath = true).
  { unfold SaveDatasetAsCSV in Hsave. destruct (Create p outputPath); [reflexivity|].
    discriminate. }
  destruct (Columns d) as [|c0 rest] eqn:Hcols.
  { unfold SaveDatasetAsCSV in Hsave. rewrite Hcreate in Hsave.
    cbn [negb mbind option_bind] in Hsave. rewrite Hcols, Hpoints in Hsave.
    change (0 <? len []) with false in Hsave. cbn [mbind option_bind app fold_left] in Hsave.
    rewrite (saveRow_no_columns d _ _ point Hcols), saveRow_fold_None in Hsave.
    discriminate. }
  rewrite (SaveDatasetAsCSV_records d outputPath c0 rest Hcreate Hcols) in Hsave.
  injection Hsave as <-. rewrite Hpoints in Hread. cbn [fmap list_fmap] in Hread.
  destruct (loadSingleFile_outcome filePath)
    as [H|(headers & rows & pts & Hread' & _ & _ & _ & Hall)]; [exact H|exfalso].
  rewrite Hread in Hread'. injection Hread' as <- <-.
  inversion Hall as [|row pt rows' pts' Hrow _]; subst.
  destruct Hrow as (_ & _ & _ & _ & _ & _ & Hcells).
  destruct Hlabel as [[Hne Hpf]|[Hne Hpf]].
  - destruct (Hcells 0%nat (ParticipantID point) eq_refl) as [?|[v Hv]]; congruence.
  - destruct (Hcells 1%nat (Condition point) eq_refl) as [?|[v Hv]]; congruence.
Qed.

Lemma append_cons (c : Ascii.ascii) (s r : string) :
  (String c s ++ r)%string = String c (s ++ r)%string.
Proof. reflexivity. Qed.

Lemma append_nil (r : string) : ("" ++ r)%string = r.
Proof. reflexivity. Qed.

Lemma prefix_underscore_iff (s : string) :
  String.prefix "_" s = true <-> exists b, s = ("_" ++ b)%string.
Proof.
  split.
  - intros H. apply String.prefix_correct in H.
    destruct s as [|c s]; [discriminate|]. exists s.
    cbn [String.length String.substring] in H.
    assert (Hs : String.substring 0 0 s = "") by (destruct s; reflexivity).
    rewrite Hs in H. injection H as ->. reflexivity.
  - intros [b ->]. apply String.prefix_correct. rewrite append_cons, append_nil.
    cbn [String.length String.substring].
    f_equal. destruct b; reflexivity.
Qed.

(** X26: the participant that [loadSingleFile] assigns is the text of the
    base name before its first underscore: it holds no underscore, what
    follows it in the name is empty or starts with an underscore, and a
    name without underscore is taken whole.  Every sample of a file that
    [loadSingleFile] loads carries that text as its participant. *)
Theorem participant_id_of_name (baseName : string) :
  ((exists rest,
      baseName = (beforeUnderscore baseName ++ rest)%string /\
      (rest = "" \/ exists b, rest = ("_" ++ b)%string)) /\
   (forall a b, beforeUnderscore baseName <> (a ++ "_" ++ b)%string) /\
   ((forall a b, baseName <> (a ++ "_" ++ b)%string) ->
    beforeUnderscore baseName = baseName)) /\
  (forall filePath points headers point,
     Base p filePath = baseName ->
     loadSingleFile p l filePath = Some (points, headers, None) ->
     point ∈ points ->
     ParticipantID point = beforeUnderscore baseName).
Proof.
  split; [|intros filePath points headers point <- Hload Hpoint;
           apply (loaded_points_labels filePath points headers Hload); exact Hpoint].
  induction baseName as [|c s IH].
  - split; [exists ""; auto|]. split; [|reflexivity].
    intros a b H. destruct a; discriminate.
  - destruct IH as ((rest & Hrest & Hr) & Hno & Hall).
    cbn [beforeUnderscore].
    destruct (String.prefix "_" (String c s)) eqn:Hpre.
    + apply prefix_underscore_iff in Hpre as [b Hb].
      split; [exists (String c s); split; [reflexivity|right; eauto]|]. split.
      * intros a b' H. destruct a; discriminate.
      * intros Hnone. exfalso. apply (Hnone "" b). exact Hb.
    + assert (Hnot : forall b, String c s <> ("_" ++ b)%string).
      { intros b Hb. assert (Ht : String.prefix "_" (String c s) = true)
          by (apply prefix_underscore_iff; eauto).
        rewrite Ht in Hpre. discriminate. }
      split; [|split].
      * exists rest. split; [rewrite append_cons; f_equal; exact Hrest|exact Hr].
      * intros a b H. destruct a as [|c' a'].
        -- rewrite append_nil in H. injection H as -> H.
           apply (Hnot s). reflexivity.
        -- rewrite append_cons in H. injection H as _ H. apply (Hno a' b H).
      * intros Hnone. f_equal. apply Hall. intros a b H.
        apply (Hnone (String c a) b). rewrite append_cons. f_equal. exact H.
Qed.

End LoaderProperties.

(** The file "P7_run.csv" of the example platform: one sample of
    participant "P7" whose empty cell leaves the channel "y" absent. *)
Example load_file_example :
  exists points,
    Loader.loadSingleFile printsOne conditionA "P7_run.csv"
      = Some (points, ["time"; "x"; "y"], None) /\
    (fun point => (Timestamp point, ParticipantID point, Condition point,
                   Data point !! "x", Data point !! "y")) <$> points
      = [(1%float, "P7", "A", Some 1%float, None)].
Proof. eexists. split; vm_compute; reflexivity. Qed.

Example load_files_example :
  exists d,
    Loader.LoadFiles printsOne conditionA "P7_run.csv" = Some (Some d, None) /\
    Columns d = ["time"; "x"; "y"] /\ len (Points d) = 1 /\
    Metadata d !! "total_files" = Some (MInt 1).
Proof. eexists. split; [vm_compute; reflexivity|]. repeat split. Qed.

Lemma save_records_written_witness :
  exists records,
    Loader.SaveDatasetAsCSV printsOne conditionA (Some timeAndX) "out.csv"
      = Some (records, None) /\
    records = [["timestamp"; "participant_id"; "condition"; "time"; "x"];
               ["1.000000"; "P1"; "A"; "1.000000"; ""]] /\
    len records = 2 /\
    (forall row, row ∈ records -> len row = 5).
Proof.
  destruct (save_records_written printsOne conditionA timeAndX "out.csv" "time" ["x"])
    as (records & H1 & H2 & H3 & H4 & _); [reflexivity|reflexivity|].
  exists records. split; [exact H1|]. split; [exact H2|]. split; [exact H3|exact H4].
Defined.

Lemma save_panics_without_columns_witness :
  Loader.SaveDatasetAsCSV printsOne conditionA (Some (datasetOf oneReading [])) "out.csv"
    = None.
Proof.
  apply (save_panics_without_columns printsOne conditionA (datasetOf oneReading []) "out.csv");
    [reflexivity|reflexivity|discriminate].
Defined.

Lemma saved_file_reload_fails_witness :
  Loader.SaveDatasetAsCSV printsOne conditionA (Some timestampAndX) "saved.csv"
    = Some ([["timestamp"; "participant_id"; "condition"; "x"];
             ["1.000000"; "P1"; "A"; "1.000000"]], None) /\
  exists err,
    Loader.loadSingleFile printsOne conditionA "saved.csv" = Some ([], [], Some err).
Proof.
  split; [reflexivity|].
  apply (saved_file_reload_fails printsOne conditionA timestampAndX "saved.csv" "saved.csv"
           [["timestamp"; "participant_id"; "condition"; "x"];
            ["1.000000"; "P1"; "A"; "1.000000"]]
           (reading 1 "P1" "A" [("x", 1%float)]) []).
  - reflexivity.
  - reflexivity.
  - reflexivity.
  - left. split; [discriminate|reflexivity].
Defined.

Lemma loaded_first_column_has_no_stats_witness :
  exists points first rest statsList,
    Loader.loadSingleFile printsOne conditionA "P7_run.csv"
      = Some (points, first :: rest, None) /\
    first = "time" /\
    (forall point, point ∈ points -> Data point !! first = None) /\
    Stats.computeColumnStats (datasetOf points (first :: rest)) (first :: rest) byBothAxes
      = Some (statsList, None) /\
    (forall stats, stats ∈ statsList -> Stats.Column stats <> first).
Proof.
  eassert (H : Loader.loadSingleFile printsOne conditionA "P7_run.csv"
               = Some (_, ["time"; "x"; "y"], None)) by (vm_compute; reflexivity).
  destruct (loaded_first_column_has_no_stats printsOne conditionA "P7_run.csv" _ _ byBothAxes H)
    as (first & rest & statsList & Hh & H1 & H2 & _ & H4).
  - repeat constructor; cbn; intros Hin;
      repeat (apply elem_of_cons in Hin as [Hin|Hin]; [discriminate|]);
      apply elem_of_nil in Hin; exact Hin.
  - injection Hh as <- <-.
    eexists _, "time", ["x"; "y"], statsList. split; [exact H|]. split; [reflexivity|].
    split; [exact H1|]. split; [exact H2|exact H4].
Defined.
